(** * Streaming clients of the crypto dashboard: [PriceStream] and
    [WebSocketManager]

    A shallow embedding of [app/ws_client.py] and
    [app/websocket_manager.py] (with the [ConnectionState] dataclass of
    [app/models.py]) and the properties of the bounded history buffer, the
    reconnect loop and the session life cycle.

    Conventions of the embedding.
    - Python floats are the kernel's binary64 floats ([PrimFloat]); Python
      ints are [Z]; [str] is [string]; [Optional[T]] is [option T].
    - A Python object shared between the caller's thread and the background
      threads is a record of its attributes; objects that are referred to
      from several places (asyncio events, event loops, connections, tasks)
      live in stores indexed by an identifier, so that re-binding an
      attribute and mutating the object it refers to stay distinct.
    - [time.time()] is an argument [now] of every operation that reads the
      clock.
    - A coroutine is cut at its [await] points: the code between two
      suspension points is one step of the background unit. *)

From Stdlib Require Import ZArith Lia PrimFloat FloatOps SpecFloat.
From stdpp Require Import base list strings gmap.

Set Default Proof Using "Type".

(** ** Python runtime pieces *)

Module Py.

(** The exception classes the two modules raise or catch. *)
Inductive exn : Type :=
| JSONDecodeError      (* [json.loads] on text that is not JSON; a [ValueError] *)
| KeyError
| ValueError
| TypeError
| OverflowError
| ZeroDivisionError
| RuntimeError
| ConnectionClosedOK
| ConnectionClosedError
| OSError              (* handshake and transport failures of [websockets.connect] *)
| TimeoutError.

(** A computation that returns or raises. *)
Inductive result (A : Type) : Type :=
| Return (a : A)
| Raise (e : exn).
Arguments Return {A} a.
Arguments Raise {A} e.

Definition bind {A B} (r : result A) (k : A -> result B) : result B :=
  match r with
  | Return a => k a
  | Raise e => Raise e
  end.

(** The value of a call that does not raise. *)
Definition returned {A} (r : result A) : option A :=
  match r with
  | Return a => Some a
  | Raise _ => None
  end.

(** [try: r except (classes): h] *)
Definition try_except {A} (r : result A) (caught : exn -> bool) (h : exn -> result A)
  : result A :=
  match r with
  | Return a => Return a
  | Raise e => if caught e then h e else Raise e
  end.

(** [collections.deque(maxlen=n)]: [append] adds on the right and, when the
    length then exceeds [maxlen], drops one element on the left. *)
Record deque (A : Type) : Type := Deque { maxlen : nat; items : list A }.
Arguments Deque {A} maxlen items.
Arguments maxlen {A} d.
Arguments items {A} d.

Definition deque_new {A} (n : nat) : deque A := Deque n [].

Definition deque_append {A} (d : deque A) (x : A) : deque A :=
  let l := items d ++ [x] in
  Deque (maxlen d) (if (maxlen d <? length l)%nat then tail l else l).

Definition deque_clear {A} (d : deque A) : deque A := Deque (maxlen d) [].

Definition deque_len {A} (d : deque A) : nat := length (items d).

(** [d[-1]] on a non-empty deque. *)
Definition deque_last {A} (d : deque A) : option A := last (items d).

(** *** Floats and ints *)

(** [float(z)] for a Python int: the nearest binary64 value, and
    [OverflowError] when that is out of range. *)
Definition Z2float (z : Z) : float :=
  SF2Prim (binary_normalize prec emax z 0 false).

Definition float_of_int (z : Z) : result float :=
  let f := Z2float z in
  if PrimFloat.is_infinity f then Raise OverflowError else Return f.

(** [x / y] on floats raises on a zero divisor ([0.0] and [-0.0] alike). *)
Definition float_truediv (x y : float) : result float :=
  if PrimFloat.eqb y 0 then Raise ZeroDivisionError else Return (x / y)%float.

(** [x >= z] for a float [x] and an int [z]. Python compares the two
    exactly; converting [z] first gives the same answer as long as [z]
    is a binary64 value, that is for every [|z| <= 2^53]. *)
Definition float_ge_int (x : float) (z : Z) : bool :=
  PrimFloat.leb (Z2float z) x.

(** [min(a, b)] returns its first argument unless the second is smaller. *)
Definition float_min (a b : float) : float :=
  if PrimFloat.ltb b a then b else a.

(** *** Strings *)

Definition ascii_lower (c : Ascii.ascii) : Ascii.ascii :=
  let n := Ascii.nat_of_ascii c in
  if ((65 <=? n) && (n <=? 90))%nat then Ascii.ascii_of_nat (n + 32) else c.

(** [s.lower()]. A [string] is the UTF-8 text; the letters A-Z are
    lowered and every other byte is kept, which is [str.lower] on ASCII
    text such as trading-pair symbols. *)
Fixpoint lower (s : string) : string :=
  match s with
  | EmptyString => EmptyString
  | String c s' => String (ascii_lower c) (lower s')
  end.

Definition ascii_upper (c : Ascii.ascii) : Ascii.ascii :=
  let n := Ascii.nat_of_ascii c in
  if ((97 <=? n) && (n <=? 122))%nat then Ascii.ascii_of_nat (n - 32) else c.

(** [s.upper()], on the same terms. *)
Fixpoint upper (s : string) : string :=
  match s with
  | EmptyString => EmptyString
  | String c s' => String (ascii_upper c) (upper s')
  end.

(** *** JSON values, as [json.loads] builds them *)

#[warnings="-register-all"]
Inductive json : Type :=
| JNull
| JBool (b : bool)
| JInt (z : Z)
| JFloat (f : float)
| JStr (s : string)
| JArr (l : list json)
| JObj (kv : list (string * json)).   (* the dict's items *)

(** An inbound frame: text that [json.loads] rejects, or the value it
    returns. *)
Inductive frame : Type :=
| NotJSON (text : string)
| Json (v : json).

(** [float(s)] on a [str] is the interpreter's; [None] is its
    [ValueError]. *)
Class Runtime : Type := { float_of_str : string -> option float }.

Definition json_loads (f : frame) : result json :=
  match f with
  | NotJSON _ => Raise JSONDecodeError
  | Json v => Return v
  end.

Fixpoint dict_get (kv : list (string * json)) (k : string) : option json :=
  match kv with
  | [] => None
  | (k', v) :: kv' => if String.eqb k' k then Some v else dict_get kv' k
  end.

(** [data[k]] *)
Definition getitem (data : json) (k : string) : result json :=
  match data with
  | JObj kv =>
      match dict_get kv k with
      | Some v => Return v
      | None => Raise KeyError
      end
  | _ => Raise TypeError
  end.

(** [float(v)] *)
Definition py_float `{Runtime} (v : json) : result float :=
  match v with
  | JBool b => Return (if b then 1 else 0)%float
  | JInt z => float_of_int z
  | JFloat f => Return f
  | JStr s =>
      match float_of_str s with
      | Some f => Return f
      | None => Raise ValueError
      end
  | JNull | JArr _ | JObj _ => Raise TypeError
  end.

(** [v / 1000]. For an int the quotient is taken on the converted
    operands, which is Python's own fast path when both fit in 53 bits. *)
Definition truediv_1000 (v : json) : result float :=
  match v with
  | JBool b => Return ((if b then 1 else 0) / 1000)%float
  | JInt z => bind (float_of_int z) (fun f => Return (f / 1000)%float)
  | JFloat f => Return (f / 1000)%float
  | JNull | JStr _ | JArr _ | JObj _ => Raise TypeError
  end.

(** A sample of the history buffer: [(timestamp, price)]. *)
Definition sample : Type := float * float.

(** The three parsing lines shared by both receive loops:
    [data = json.loads(message)], [price = float(data["p"])],
    [timestamp = data["T"] / 1000]. *)
Definition parse_message `{Runtime} (message : frame) : result sample :=
  bind (json_loads message) (fun data =>
  bind (getitem data "p") (fun p =>
  bind (py_float p) (fun price =>
  bind (getitem data "T") (fun t =>
  bind (truediv_1000 t) (fun timestamp =>
  Return (timestamp, price)))))).

(** [except (json.JSONDecodeError, KeyError, ValueError)] *)
Definition parse_error (e : exn) : bool :=
  match e with
  | JSONDecodeError | KeyError | ValueError => true
  | _ => false
  end.

(** [except websockets.exceptions.ConnectionClosed] *)
Definition connection_closed (e : exn) : bool :=
  match e with
  | ConnectionClosedOK | ConnectionClosedError => true
  | _ => false
  end.

(** A runtime whose [float(s)] reads plain decimal integers ("100") and
    rejects the rest; it backs the concrete runs below, which use no other
    price strings than such integers and text without any digit. *)
Fixpoint digits_value (s : string) (acc : Z) : option Z :=
  match s with
  | EmptyString => Some acc
  | String c s' =>
      let n := Ascii.nat_of_ascii c in
      if ((48 <=? n) && (n <=? 57))%nat
      then digits_value s' (10 * acc + Z.of_nat (n - 48))
      else None
  end.

Definition plain_runtime : Runtime :=
  {| float_of_str s :=
       match s with
       | EmptyString => None
       | _ => Z2float <$> digits_value s 0
       end |}.

End Py.

Import Py.

(** ** [ws_client.PriceStream] *)

Module PriceStream.

(** The coroutines [stop] hands to [asyncio.run_coroutine_threadsafe]. *)
Inductive callback : Type :=
| SetStopEvent    (* the local [set_stop_event()] *)
| Cleanup.        (* [self._cleanup()] *)

(** Where a background unit is suspended. *)
Inductive pc : Type :=
| Created                                   (* [Thread] object started, body not run yet *)
| AtWhile                                   (* about to test the [while] condition *)
| Connecting                                (* in [websockets.connect(uri)] *)
| Receiving (conn : nat) (message_count : Z)  (* in [async for message in websocket] *)
| BackoffWait (ev : option nat) (timeout : Z) (* in [wait_for(ev.wait(), timeout)] or [sleep] *)
| Finished                                  (* [_connect_and_stream] returned *)
| Cancelled                                 (* its task was cancelled *)
| Exited.                                   (* [_run_event_loop] left its [finally] *)

(** One background thread with what it creates in [_run_event_loop]: its
    event loop, its [asyncio.Event] and its task. The thread, the loop, the
    event and the task of a unit are all named by the unit's index. *)
Record unit_state : Type := Unit {
  u_symbol : string;            (* the [symbol] argument *)
  u_pc : pc;
  u_backoff : Z;                (* the local [backoff] *)
  ev_set : bool;                (* [Event.is_set()] *)
  loop_closed : bool;           (* [loop.is_closed()] *)
  loop_pending : list callback  (* scheduled on the loop, not run yet *)
}.

(** The [PriceStream] object and the objects its attributes refer to. *)
Record world : Type := World {
  max_points : nat;
  price_data : deque sample;
  current_symbol : option string;
  websocket : option nat;
  running : bool;
  loop : option nat;
  thread : option nat;
  connection_task : option nat;
  _stop_event : option nat;
  units : list unit_state;
  conns : list bool             (* connection [c] is open *)
}.

Definition set_price_data (d : deque sample) (w : world) : world :=
  World (max_points w) d (current_symbol w) (websocket w) (running w) (loop w)
        (thread w) (connection_task w) (_stop_event w) (units w) (conns w).
Definition set_current_symbol (s : option string) (w : world) : world :=
  World (max_points w) (price_data w) s (websocket w) (running w) (loop w)
        (thread w) (connection_task w) (_stop_event w) (units w) (conns w).
Definition set_websocket (c : option nat) (w : world) : world :=
  World (max_points w) (price_data w) (current_symbol w) c (running w) (loop w)
        (thread w) (connection_task w) (_stop_event w) (units w) (conns w).
Definition set_running (b : bool) (w : world) : world :=
  World (max_points w) (price_data w) (current_symbol w) (websocket w) b (loop w)
        (thread w) (connection_task w) (_stop_event w) (units w) (conns w).
Definition set_loop (l : option nat) (w : world) : world :=
  World (max_points w) (price_data w) (current_symbol w) (websocket w) (running w) l
        (thread w) (connection_task w) (_stop_event w) (units w) (conns w).
Definition set_thread (t : option nat) (w : world) : world :=
  World (max_points w) (price_data w) (current_symbol w) (websocket w) (running w) (loop w)
        t (connection_task w) (_stop_event w) (units w) (conns w).
Definition set_connection_task (t : option nat) (w : world) : world :=
  World (max_points w) (price_data w) (current_symbol w) (websocket w) (running w) (loop w)
        (thread w) t (_stop_event w) (units w) (conns w).
Definition set_stop_event (e : option nat) (w : world) : world :=
  World (max_points w) (price_data w) (current_symbol w) (websocket w) (running w) (loop w)
        (thread w) (connection_task w) e (units w) (conns w).
Definition set_units (us : list unit_state) (w : world) : world :=
  World (max_points w) (price_data w) (current_symbol w) (websocket w) (running w) (loop w)
        (thread w) (connection_task w) (_stop_event w) us (conns w).
Definition set_conns (cs : list bool) (w : world) : world :=
  World (max_points w) (price_data w) (current_symbol w) (websocket w) (running w) (loop w)
        (thread w) (connection_task w) (_stop_event w) (units w) cs.

Definition set_pc (p : pc) (u : unit_state) : unit_state :=
  Unit (u_symbol u) p (u_backoff u) (ev_set u) (loop_closed u) (loop_pending u).
Definition set_backoff (b : Z) (u : unit_state) : unit_state :=
  Unit (u_symbol u) (u_pc u) b (ev_set u) (loop_closed u) (loop_pending u).
Definition set_ev (b : bool) (u : unit_state) : unit_state :=
  Unit (u_symbol u) (u_pc u) (u_backoff u) b (loop_closed u) (loop_pending u).
Definition set_loop_closed (b : bool) (u : unit_state) : unit_state :=
  Unit (u_symbol u) (u_pc u) (u_backoff u) (ev_set u) b (loop_pending u).
Definition set_pending (l : list callback) (u : unit_state) : unit_state :=
  Unit (u_symbol u) (u_pc u) (u_backoff u) (ev_set u) (loop_closed u) l.

Definition update_unit (i : nat) (f : unit_state -> unit_state) (w : world) : world :=
  set_units (alter f i (units w)) w.

(** [__init__(max_points)] *)
Definition init (max_points : nat) : world :=
  World max_points (deque_new max_points) None None false None None None None [] [].

(** [self._stop_event and self._stop_event.is_set()] *)
Definition stop_is_set (w : world) : bool :=
  match _stop_event w with
  | Some e => from_option ev_set false (units w !! e)
  | None => false
  end.

(** [self.loop and not self.loop.is_closed()] *)
Definition loop_open (w : world) : option nat :=
  match loop w with
  | Some l => if from_option loop_closed true (units w !! l) then None else Some l
  | None => None
  end.

(** [task.done()] of unit [t]'s task. *)
Definition done (w : world) (t : nat) : bool :=
  match u_pc <$> units w !! t with
  | Some Finished | Some Cancelled | Some Exited | None => true
  | _ => false
  end.

(** [asyncio.run_coroutine_threadsafe(cb, loop)]: queues the coroutine on
    the loop, raising [RuntimeError] on a closed loop. *)
Definition run_coroutine_threadsafe (cb : callback) (l : nat) (w : world) : result world :=
  match units w !! l with
  | Some u =>
      if loop_closed u then Raise RuntimeError
      else Return (update_unit l (fun u => set_pending (loop_pending u ++ [cb]) u) w)
  | None => Raise RuntimeError
  end.

(** [except (RuntimeError, asyncio.InvalidStateError)] *)
Definition signal_error (e : exn) : bool :=
  match e with RuntimeError => true | _ => false end.


(** [stop()] *)
Definition stop (w : world) : result world :=
  if negb (running w) then Return w else
  let w := set_running false w in
  (* signal the async task to stop *)
  bind (match loop_open w, _stop_event w with
        | Some l, Some _ =>
            try_except (run_coroutine_threadsafe SetStopEvent l w)
                       signal_error (fun _ => Return w)
        | _, _ => Return w
        end) (fun w =>
  (* force close websocket *)
  bind (match loop_open w with
        | Some l =>
            try_except (run_coroutine_threadsafe Cleanup l w)
                       signal_error (fun _ => Return w)
        | None => Return w
        end) (fun w =>
  (* reset state immediately *)
  Return (set_connection_task None (set_websocket None (set_current_symbol None w))))).

(** [start(symbol)]. [old_thread.join(timeout=0.5)] only waits: whatever
    the old unit does meanwhile is a step of its own. *)
Definition start (w : world) (symbol : string) : result world :=
  if running w && bool_decide (current_symbol w = Some symbol) then Return w else
  bind (stop w) (fun w =>
  let w := set_websocket None (set_connection_task None (set_thread None w)) in
  let w := set_running true (set_current_symbol (Some symbol) w) in
  let w := set_price_data (deque_clear (price_data w)) w in
  let t := length (units w) in
  Return (set_thread (Some t)
            (set_units (units w ++ [Unit symbol Created 1 false false []]) w))).

Definition close_conn (c : nat) (w : world) : world :=
  set_conns (<[c := false]> (conns w)) w.

Definition conn_open (w : world) (c : nat) : bool :=
  default false (conns w !! c).

(** [task.cancel()]: [CancelledError] is thrown into the coroutine at its
    suspension point; no handler of [_connect_and_stream] catches it, and
    an open [async with] block closes its connection on the way out. *)
Definition cancel_task (t : nat) (w : world) : world :=
  let w := match u_pc <$> units w !! t with
           | Some (Receiving c _) => close_conn c w
           | _ => w
           end in
  update_unit t (set_pc Cancelled) w.

(** [_cleanup()] *)
Definition _cleanup (w : world) : world :=
  let w := match websocket w with
           | Some c => close_conn c w
           | None => w
           end in
  let w := match connection_task w with
           | Some t => if done w t then w else cancel_task t w
           | None => w
           end in
  set_websocket None w.

(** The local coroutine [set_stop_event()] of [stop]: it reads the
    attribute when it runs. *)
Definition run_set_stop_event (w : world) : world :=
  match _stop_event w with
  | Some e => update_unit e (set_ev true) w
  | None => w
  end.

(** The tail of [_connect_and_stream], reached by every [break] out of
    the [while] loop and by its condition turning false. *)
Definition leave (i : nat) (w : world) : world :=
  update_unit i (set_pc Finished) (set_websocket None w).

(** The outer [except Exception] handler, up to its [await]. *)
Definition on_error (i : nat) (u : unit_state) (w : world) : world :=
  if running w && negb (stop_is_set w)
     && bool_decide (current_symbol w = Some (u_symbol u))
  then update_unit i (set_pc (BackoffWait (_stop_event w) (u_backoff u))) w
  else leave i w.

(** A [break] out of [async for]: the [async with] block closes the
    connection and control is back at the [while] condition. *)
Definition break_receive (i c : nat) (w : world) : world :=
  update_unit i (set_pc AtWhile) (close_conn c w).

Section with_runtime.
Context `{Runtime}.

(** One round of the body of [async for message in websocket]. *)
Definition on_message (i : nat) (u : unit_state) (c : nat) (message_count : Z)
           (message : frame) (w : world) : world :=
  let message_count := (message_count + 1)%Z in
  if negb (running w) || stop_is_set w then break_receive i c w
  else if negb (bool_decide (current_symbol w = Some (u_symbol u)))
  then break_receive i c w
  else
    match parse_message message with
    | Return smp =>
        update_unit i (set_pc (Receiving c message_count))
          (set_price_data (deque_append (price_data w) smp) w)
    | Raise e =>
        if parse_error e
        then update_unit i (set_pc (Receiving c message_count)) w
        else if connection_closed e then leave i (close_conn c w)
        else on_error i u (close_conn c w)
    end.
End with_runtime.

(** What the environment does next: a call of the caller's thread, or the
    resumption of a background unit at its suspension point. *)
Inductive event : Type :=
| CallStart (symbol : string)
| CallStop
| ThreadRun (i : nat)             (* the thread enters [_run_event_loop] *)
| LoopRun (i : nat)               (* loop [i] runs its next scheduled coroutine *)
| Resume (i : nat)                (* the [while] condition is evaluated *)
| ConnectOk (i : nat)             (* the handshake succeeds *)
| ConnectFail (i : nat) (e : exn) (* [websockets.connect] raises *)
| Message (i : nat) (m : frame)   (* a frame arrives *)
| EndOfStream (i : nat)           (* the iteration ends: closed normally *)
| RecvRaise (i : nat) (e : exn)   (* the iteration raises *)
| WaitTimeout (i : nat)           (* the backoff wait times out *)
| WaitDone (i : nat)              (* the backoff wait returns *)
| ThreadExit (i : nat).           (* the [finally] of [_run_event_loop] *)

(** Unit [l]'s loop is inside [run_until_complete]. *)
Definition loop_running (w : world) (l : nat) : bool :=
  match u_pc <$> units w !! l with
  | Some AtWhile | Some Connecting | Some (Receiving _ _) | Some (BackoffWait _ _) => true
  | _ => false
  end.

(** The [finally] clause of [_run_event_loop]. [task.cancel()] on the task
    of another unit only asks for the cancellation: that unit's loop is
    still running in its own thread when [self.loop.close()] is reached.
    [loop.close()] raises on a loop that another thread is running, and
    [None] has no [close]: in both cases the thread dies before
    [self.loop = None]. *)
Definition thread_exit (i : nat) (w : world) : world :=
  let running_elsewhere := from_option (loop_running w) false (loop w) in
  let w := match connection_task w with
           | Some t => if done w t then w else cancel_task t w
           | None => w
           end in
  let w := match loop w with
           | Some l =>
               if running_elsewhere then w
               else set_loop None (update_unit l (set_loop_closed true) w)
           | None => w
           end in
  update_unit i (set_pc Exited) w.


Section with_runtime.
Context `{Runtime}.

(** One step of the system; [None] when the event cannot happen in [w]
    (the unit is not suspended there, or the call raises). *)
Definition step (w : world) (e : event) : option world :=
  match e with
  | CallStart symbol => returned (start w symbol)
  | CallStop => returned (stop w)
  | ThreadRun i =>
      match units w !! i with
      | Some u =>
          match u_pc u with
          | Created =>
              (* new loop, new event, new task; the coroutine runs up to
                 the [while] with [backoff = 1] *)
              Some (update_unit i (fun u => set_pc AtWhile (set_backoff 1 u))
                      (set_connection_task (Some i)
                         (set_stop_event (Some i) (set_loop (Some i) w))))
          | _ => None
          end
      | None => None
      end
  | LoopRun i =>
      match units w !! i with
      | Some u =>
          if loop_running w i then
            match loop_pending u with
            | cb :: rest =>
                let w := update_unit i (set_pending rest) w in
                Some (match cb with
                      | SetStopEvent => run_set_stop_event w
                      | Cleanup => _cleanup w
                      end)
            | [] => None
            end
          else None
      | None => None
      end
  | Resume i =>
      match units w !! i with
      | Some u =>
          match u_pc u with
          | AtWhile =>
              if running w && negb (stop_is_set w)
              then Some (update_unit i (set_pc Connecting) w)
              else Some (leave i w)
          | _ => None
          end
      | None => None
      end
  | ConnectOk i =>
      match units w !! i with
      | Some u =>
          match u_pc u with
          | Connecting =>
              let c := length (conns w) in
              Some (update_unit i (fun u => set_pc (Receiving c 0) (set_backoff 1 u))
                      (set_websocket (Some c) (set_conns (conns w ++ [true]) w)))
          | _ => None
          end
      | None => None
      end
  | ConnectFail i _ =>
      match units w !! i with
      | Some u =>
          match u_pc u with
          | Connecting => Some (on_error i u w)
          | _ => None
          end
      | None => None
      end
  | Message i m =>
      match units w !! i with
      | Some u =>
          match u_pc u with
          | Receiving c n =>
              if conn_open w c then Some (on_message i u c n m w) else None
          | _ => None
          end
      | None => None
      end
  | EndOfStream i =>
      match units w !! i with
      | Some u =>
          match u_pc u with
          | Receiving c _ => Some (break_receive i c w)
          | _ => None
          end
      | None => None
      end
  | RecvRaise i e =>
      match units w !! i with
      | Some u =>
          match u_pc u with
          | Receiving c _ =>
              if connection_closed e then Some (leave i (close_conn c w))
              else Some (on_error i u (close_conn c w))
          | _ => None
          end
      | None => None
      end
  | WaitTimeout i =>
      match units w !! i with
      | Some u =>
          match u_pc u with
          | BackoffWait (Some ev) _ =>
              if from_option ev_set false (units w !! ev) then None
              else Some (update_unit i
                           (fun u => set_pc AtWhile
                                       (set_backoff (Z.min (u_backoff u * 2) 30) u)) w)
          | _ => None
          end
      | None => None
      end
  | WaitDone i =>
      match units w !! i with
      | Some u =>
          match u_pc u with
          | BackoffWait (Some ev) _ =>
              if from_option ev_set false (units w !! ev)
              then Some (leave i w) else None
          | BackoffWait None _ => Some (leave i w)   (* [sleep] over, then [break] *)
          | _ => None
          end
      | None => None
      end
  | ThreadExit i =>
      match units w !! i with
      | Some u =>
          match u_pc u with
          | Finished | Cancelled => Some (thread_exit i w)
          | _ => None
          end
      | None => None
      end
  end.

Fixpoint run (w : world) (es : list event) : option world :=
  match es with
  | [] => Some w
  | e :: es' =>
      match step w e with
      | Some w' => run w' es'
      | None => None
      end
  end.
End with_runtime.

(** [get_series()] *)
Definition get_series (w : world) : list float * list float :=
  match items (price_data w) with
  | [] => ([], [])
  | data => (fst <$> data, snd <$> data)
  end.

(** [get_latest_price()] *)
Definition get_latest_price (w : world) : option float :=
  match items (price_data w) with
  | [] => None
  | _ => snd <$> deque_last (price_data w)
  end.

(** The [for timestamp, price in reversed(self.price_data)] loop. *)
Fixpoint scan (current_time : float) (window_seconds : Z) (current_price : float)
         (rev_data : list sample) : result (option float) :=
  match rev_data with
  | [] => Return None
  | (timestamp, price) :: rest =>
      if float_ge_int (current_time - timestamp)%float window_seconds
      then bind (float_truediv (current_price - price)%float price)
                (fun q => Return (Some (q * 100)%float))
      else scan current_time window_seconds current_price rest
  end.

(** [get_price_change(window_seconds)] with [time.time()] returning
    [current_time]. *)
Definition get_price_change (w : world) (current_time : float) (window_seconds : Z)
  : result (option float) :=
  if (deque_len (price_data w) <? 2)%nat then Return None else
  match deque_last (price_data w) with
  | Some (_, current_price) =>
      scan current_time window_seconds current_price (reverse (items (price_data w)))
  | None => Return None
  end.

End PriceStream.


(** ** [websocket_manager.WebSocketManager] *)

Module WebSocketManager.

(** [models.ConnectionState] *)
Record ConnectionState : Type := MkConnectionState {
  status : string;
  symbol : option string;
  last_update : float;
  error_count : Z
}.

Definition is_connected (cs : ConnectionState) : bool :=
  bool_decide (status cs = "Connected").

Definition set_status (s : string) (cs : ConnectionState) : ConnectionState :=
  MkConnectionState s (symbol cs) (last_update cs) (error_count cs).
Definition set_symbol (s : option string) (cs : ConnectionState) : ConnectionState :=
  MkConnectionState (status cs) s (last_update cs) (error_count cs).
Definition set_last_update (t : float) (cs : ConnectionState) : ConnectionState :=
  MkConnectionState (status cs) (symbol cs) t (error_count cs).
Definition set_error_count (n : Z) (cs : ConnectionState) : ConnectionState :=
  MkConnectionState (status cs) (symbol cs) (last_update cs) n.

(** Where a background unit is suspended. *)
Inductive pc : Type :=
| Created                                  (* [Thread] object started, body not run yet *)
| AtWhile                                  (* about to test the [while] condition *)
| Connecting                               (* in [websockets.connect(...)] *)
| Receiving (conn : nat)                   (* in [async for message in websocket] *)
| BackoffWait (ev : option nat) (timeout : float)  (* in [asyncio.wait_for(..., timeout)] *)
| Finished                                 (* [_websocket_handler] returned *)
| Exited.                                  (* [_run_websocket] left its [finally] *)

(** One background thread with the loop and the event it creates in
    [_run_websocket]; all three are named by the unit's index. What
    [call_soon_threadsafe] queues is the bound method [ev.set] of the event
    that [self._stop_event] referred to at the time of the call. *)
Record unit_state : Type := Unit {
  u_symbol : string;          (* the [symbol] argument, already lower-cased *)
  u_pc : pc;
  u_backoff : float;          (* the local [backoff] *)
  ev_set : bool;
  loop_closed : bool;
  loop_pending : list nat     (* events whose [set] is queued on the loop *)
}.

(** The [WebSocketManager] object and the objects behind its attributes.
    [update_callback] is taken not to raise (the one the module installs,
    [_update_session_state], catches everything); [callback_calls] records
    its calls. *)
Record world : Type := World {
  max_price_history : nat;
  update_callback : bool;
  _price_history : deque sample;
  _current_price : option float;
  _connection_state : ConnectionState;
  _thread : option nat;
  _loop : option nat;
  _stop_event : option nat;
  _websocket : option nat;
  _running : bool;
  _message_count : Z;
  _start_time : float;
  units : list unit_state;
  conns : list bool;
  callback_calls : list (string * float * float)
}.

Definition set_price_history (d : deque sample) (w : world) : world :=
  World (max_price_history w) (update_callback w) d (_current_price w)
        (_connection_state w) (_thread w) (_loop w) (_stop_event w) (_websocket w)
        (_running w) (_message_count w) (_start_time w) (units w) (conns w)
        (callback_calls w).
Definition set_current_price (p : option float) (w : world) : world :=
  World (max_price_history w) (update_callback w) (_price_history w) p
        (_connection_state w) (_thread w) (_loop w) (_stop_event w) (_websocket w)
        (_running w) (_message_count w) (_start_time w) (units w) (conns w)
        (callback_calls w).
Definition set_connection_state (cs : ConnectionState) (w : world) : world :=
  World (max_price_history w) (update_callback w) (_price_history w) (_current_price w)
        cs (_thread w) (_loop w) (_stop_event w) (_websocket w)
        (_running w) (_message_count w) (_start_time w) (units w) (conns w)
        (callback_calls w).
Definition set_thread (t : option nat) (w : world) : world :=
  World (max_price_history w) (update_callback w) (_price_history w) (_current_price w)
        (_connection_state w) t (_loop w) (_stop_event w) (_websocket w)
        (_running w) (_message_count w) (_start_time w) (units w) (conns w)
        (callback_calls w).
Definition set_loop (l : option nat) (w : world) : world :=
  World (max_price_history w) (update_callback w) (_price_history w) (_current_price w)
        (_connection_state w) (_thread w) l (_stop_event w) (_websocket w)
        (_running w) (_message_count w) (_start_time w) (units w) (conns w)
        (callback_calls w).
Definition set_stop_event (e : option nat) (w : world) : world :=
  World (max_price_history w) (update_callback w) (_price_history w) (_current_price w)
        (_connection_state w) (_thread w) (_loop w) e (_websocket w)
        (_running w) (_message_count w) (_start_time w) (units w) (conns w)
        (callback_calls w).
Definition set_websocket (c : option nat) (w : world) : world :=
  World (max_price_history w) (update_callback w) (_price_history w) (_current_price w)
        (_connection_state w) (_thread w) (_loop w) (_stop_event w) c
        (_running w) (_message_count w) (_start_time w) (units w) (conns w)
        (callback_calls w).
Definition set_running (b : bool) (w : world) : world :=
  World (max_price_history w) (update_callback w) (_price_history w) (_current_price w)
        (_connection_state w) (_thread w) (_loop w) (_stop_event w) (_websocket w)
        b (_message_count w) (_start_time w) (units w) (conns w)
        (callback_calls w).
Definition set_message_count (n : Z) (w : world) : world :=
  World (max_price_history w) (update_callback w) (_price_history w) (_current_price w)
        (_connection_state w) (_thread w) (_loop w) (_stop_event w) (_websocket w)
        (_running w) n (_start_time w) (units w) (conns w)
        (callback_calls w).
Definition set_start_time (t : float) (w : world) : world :=
  World (max_price_history w) (update_callback w) (_price_history w) (_current_price w)
        (_connection_state w) (_thread w) (_loop w) (_stop_event w) (_websocket w)
        (_running w) (_message_count w) t (units w) (conns w)
        (callback_calls w).
Definition set_units (us : list unit_state) (w : world) : world :=
  World (max_price_history w) (update_callback w) (_price_history w) (_current_price w)
        (_connection_state w) (_thread w) (_loop w) (_stop_event w) (_websocket w)
        (_running w) (_message_count w) (_start_time w) us (conns w)
        (callback_calls w).
Definition set_conns (cs : list bool) (w : world) : world :=
  World (max_price_history w) (update_callback w) (_price_history w) (_current_price w)
        (_connection_state w) (_thread w) (_loop w) (_stop_event w) (_websocket w)
        (_running w) (_message_count w) (_start_time w) (units w) cs
        (callback_calls w).
Definition set_callback_calls (l : list (string * float * float)) (w : world) : world :=
  World (max_price_history w) (update_callback w) (_price_history w) (_current_price w)
        (_connection_state w) (_thread w) (_loop w) (_stop_event w) (_websocket w)
        (_running w) (_message_count w) (_start_time w) (units w) (conns w) l.

(** [self._connection_state.status = s] and the like. *)
Definition update_state (f : ConnectionState -> ConnectionState) (w : world) : world :=
  set_connection_state (f (_connection_state w)) w.

Definition set_pc (p : pc) (u : unit_state) : unit_state :=
  Unit (u_symbol u) p (u_backoff u) (ev_set u) (loop_closed u) (loop_pending u).
Definition set_backoff (b : float) (u : unit_state) : unit_state :=
  Unit (u_symbol u) (u_pc u) b (ev_set u) (loop_closed u) (loop_pending u).
Definition set_ev (b : bool) (u : unit_state) : unit_state :=
  Unit (u_symbol u) (u_pc u) (u_backoff u) b (loop_closed u) (loop_pending u).
Definition set_loop_closed (b : bool) (u : unit_state) : unit_state :=
  Unit (u_symbol u) (u_pc u) (u_backoff u) (ev_set u) b (loop_pending u).
Definition set_pending (l : list nat) (u : unit_state) : unit_state :=
  Unit (u_symbol u) (u_pc u) (u_backoff u) (ev_set u) (loop_closed u) l.

Definition update_unit (i : nat) (f : unit_state -> unit_state) (w : world) : world :=
  set_units (alter f i (units w)) w.

(** [__init__(max_price_history, update_callback)] at time [now]. *)
Definition init (max_price_history : nat) (update_callback : bool) (now : float) : world :=
  World max_price_history update_callback (deque_new max_price_history) None
        (MkConnectionState "Disconnected" None 0 0)
        None None None None false 0 now [] [] [].


(** [self._stop_event and self._stop_event.is_set()] *)
Definition stop_is_set (w : world) : bool :=
  match _stop_event w with
  | Some e => from_option ev_set false (units w !! e)
  | None => false
  end.

(** [self._loop and not self._loop.is_closed()] *)
Definition loop_open (w : world) : option nat :=
  match _loop w with
  | Some l => if from_option loop_closed true (units w !! l) then None else Some l
  | None => None
  end.

(** [loop.call_soon_threadsafe(ev.set)]: queues the call, raising
    [RuntimeError] on a closed loop. *)
Definition call_soon_threadsafe (ev l : nat) (w : world) : result world :=
  match units w !! l with
  | Some u =>
      if loop_closed u then Raise RuntimeError
      else Return (update_unit l (fun u => set_pending (loop_pending u ++ [ev]) u) w)
  | None => Raise RuntimeError
  end.

(** [except RuntimeError] *)
Definition runtime_error (e : exn) : bool :=
  match e with RuntimeError => true | _ => false end.

(** [stop()] *)
Definition stop (w : world) : result world :=
  if negb (_running w) then Return w else
  let w := set_running false w in
  let w := update_state (set_status "Disconnecting") w in
  (* signal stop to async event loop *)
  bind (match loop_open w, _stop_event w with
        | Some l, Some ev =>
            try_except (call_soon_threadsafe ev l w) runtime_error (fun _ => Return w)
        | _, _ => Return w
        end) (fun w =>
  (* reset state *)
  let w := update_state (set_status "Disconnected") w in
  let w := update_state (set_symbol None) w in
  Return (set_websocket None w)).

(** [start(symbol)], with the clock at [now]. *)
Definition start (w : world) (symbol : string) (now : float) : result world :=
  if _running w && bool_decide (WebSocketManager.symbol (_connection_state w) = Some (lower symbol))
  then Return w else
  bind (stop w) (fun w =>
  let w := set_connection_state (MkConnectionState "Connecting" (Some (lower symbol)) now 0) w in
  let w := set_running true w in
  let w := set_start_time now w in
  let w := set_message_count 0 w in
  let w := set_price_history (deque_clear (_price_history w)) w in
  let t := length (units w) in
  Return (set_thread (Some t)
            (set_units (units w ++ [Unit (lower symbol) Created 1 false false []]) w))).

Definition close_conn (c : nat) (w : world) : world :=
  set_conns (<[c := false]> (conns w)) w.

Definition conn_open (w : world) (c : nat) : bool :=
  default false (conns w !! c).

(** The tail of [_websocket_handler], reached by every [break] out of the
    [while] loop and by its condition turning false. *)
Definition leave (i : nat) (w : world) : world :=
  update_unit i (set_pc Finished) (update_state (set_status "Disconnected") w).

(** The two [except] clauses of [_websocket_handler], up to the [await]
    of the second. *)
Definition on_error (i : nat) (u : unit_state) (e : exn) (w : world) : world :=
  match e with
  | ConnectionClosedError =>
      if _running w
      then update_unit i (set_pc AtWhile) (update_state (set_status "Reconnecting") w)
      else leave i w
  | _ =>
      if _running w then
        let w := update_state (set_status "Error") w in
        let w := update_state (fun cs => set_error_count (error_count cs + 1) cs) w in
        update_unit i (set_pc (BackoffWait (_stop_event w) (u_backoff u))) w
      else leave i w
  end.

(** [_message_handler] returns: the [async with] block closes the
    connection and control is back at the [while] condition. *)
Definition end_receive (i c : nat) (w : world) : world :=
  update_unit i (set_pc AtWhile) (close_conn c w).

Section with_runtime.
Context `{Runtime}.

(** One round of the body of [async for message in websocket] in
    [_message_handler], with the clock at [now]. *)
Definition on_message (i : nat) (u : unit_state) (c : nat) (message : frame)
           (now : float) (w : world) : world :=
  if negb (_running w) || stop_is_set w then end_receive i c w
  else
    match parse_message message with
    | Return (timestamp, price) =>
        let w := set_current_price (Some price) w in
        let w := set_price_history (deque_append (_price_history w) (timestamp, price)) w in
        let w := set_message_count (_message_count w + 1) w in
        let w := update_state (set_last_update now) w in
        if update_callback w
        then set_callback_calls
               (callback_calls w ++ [(upper (u_symbol u), price, timestamp)]) w
        else w
    | Raise e =>
        if parse_error e then w          (* [continue] *)
        else end_receive i c w           (* [except Exception: break] *)
    end.
End with_runtime.

(** What the environment does next. *)
Inductive event : Type :=
| CallStart (symbol : string) (now : float)
| CallStop
| ThreadRun (i : nat)
| LoopRun (i : nat)
| Resume (i : nat)
| ConnectOk (i : nat) (now : float)
| ConnectFail (i : nat) (e : exn)
| Message (i : nat) (m : frame) (now : float)
| EndOfStream (i : nat)
| RecvRaise (i : nat) (e : exn)
| WaitTimeout (i : nat)
| WaitDone (i : nat)
| ThreadExit (i : nat).

Definition loop_running (w : world) (l : nat) : bool :=
  match u_pc <$> units w !! l with
  | Some AtWhile | Some Connecting | Some (Receiving _) | Some (BackoffWait _ _) => true
  | _ => false
  end.

(** The [finally] clause of [_run_websocket]: a failing [close()] is
    swallowed, and both attributes are reset whatever they refer to. *)
Definition thread_exit (i : nat) (w : world) : world :=
  let w := match _loop w with
           | Some l =>
               if loop_running w l then w
               else update_unit l (set_loop_closed true) w
           | None => w
           end in
  update_unit i (set_pc Exited) (set_stop_event None (set_loop None w)).


Section with_runtime.
Context `{Runtime}.

(** One step of the system; [None] when the event cannot happen in [w]. *)
Definition step (w : world) (e : event) : option world :=
  match e with
  | CallStart symbol now => returned (start w symbol now)
  | CallStop => returned (stop w)
  | ThreadRun i =>
      match units w !! i with
      | Some u =>
          match u_pc u with
          | Created =>
              (* new loop, new event; the coroutine runs up to the
                 [while] with [backoff = 1.0] *)
              Some (update_unit i (fun u => set_pc AtWhile (set_backoff 1 u))
                      (set_stop_event (Some i) (set_loop (Some i) w)))
          | _ => None
          end
      | None => None
      end
  | LoopRun i =>
      match units w !! i with
      | Some u =>
          if loop_running w i then
            match loop_pending u with
            | ev :: rest =>
                Some (update_unit ev (set_ev true) (update_unit i (set_pending rest) w))
            | [] => None
            end
          else None
      | None => None
      end
  | Resume i =>
      match units w !! i with
      | Some u =>
          match u_pc u with
          | AtWhile =>
              if _running w && negb (stop_is_set w)
              then Some (update_unit i (set_pc Connecting)
                           (update_state (set_status "Connecting") w))
              else Some (leave i w)
          | _ => None
          end
      | None => None
      end
  | ConnectOk i now =>
      match units w !! i with
      | Some u =>
          match u_pc u with
          | Connecting =>
              let c := length (conns w) in
              let w := set_websocket (Some c) (set_conns (conns w ++ [true]) w) in
              let w := update_state (set_status "Connected") w in
              let w := update_state (set_last_update now) w in
              Some (update_unit i (fun u => set_pc (Receiving c) (set_backoff 1 u)) w)
          | _ => None
          end
      | None => None
      end
  | ConnectFail i e =>
      match units w !! i with
      | Some u =>
          match u_pc u with
          | Connecting => Some (on_error i u e w)
          | _ => None
          end
      | None => None
      end
  | Message i m now =>
      match units w !! i with
      | Some u =>
          match u_pc u with
          | Receiving c =>
              if conn_open w c then Some (on_message i u c m now w) else None
          | _ => None
          end
      | None => None
      end
  | EndOfStream i =>
      match units w !! i with
      | Some u =>
          match u_pc u with
          | Receiving c => Some (end_receive i c w)
          | _ => None
          end
      | None => None
      end
  | RecvRaise i e =>
      match units w !! i with
      | Some u =>
          match u_pc u with
          | Receiving c => Some (on_error i u e (close_conn c w))
          | _ => None
          end
      | None => None
      end
  | WaitTimeout i =>
      match units w !! i with
      | Some u =>
          match u_pc u with
          | BackoffWait ev _ =>
              if from_option (fun e => from_option ev_set false (units w !! e)) false ev
              then None
              else Some (update_unit i
                           (fun u => set_pc AtWhile
                                       (set_backoff (float_min (u_backoff u * 2) 30) u)) w)
          | _ => None
          end
      | None => None
      end
  | WaitDone i =>
      match units w !! i with
      | Some u =>
          match u_pc u with
          | BackoffWait (Some ev) _ =>
              if from_option ev_set false (units w !! ev)
              then Some (leave i w) else None
          | BackoffWait None _ => Some (leave i w)
          | _ => None
          end
      | None => None
      end
  | ThreadExit i =>
      match units w !! i with
      | Some u =>
          match u_pc u with
          | Finished => Some (thread_exit i w)
          | _ => None
          end
      | None => None
      end
  end.

Fixpoint run (w : world) (es : list event) : option world :=
  match es with
  | [] => Some w
  | e :: es' =>
      match step w e with
      | Some w' => run w' es'
      | None => None
      end
  end.
End with_runtime.

(** [get_latest_price()] *)
Definition get_latest_price (w : world) : option float := _current_price w.

(** [get_series()] *)
Definition get_series (w : world) : list float * list float :=
  match items (_price_history w) with
  | [] => ([], [])
  | data => (fst <$> data, snd <$> data)
  end.

(** The ["status"] and ["symbol"] entries of [get_connection_info()]. *)
Definition get_status (w : world) : string := status (_connection_state w).
Definition get_symbol (w : world) : option string := symbol (_connection_state w).

End WebSocketManager.


(** * Properties *)

(** ** The bounded history buffer *)

Section deque_facts.
Context {A : Type}.
Implicit Types (d : deque A) (x : A) (xs : list A).

Lemma deque_append_maxlen d x : maxlen (deque_append d x) = maxlen d.
Proof. reflexivity. Qed.

Lemma deque_append_items d x :
  (length (items d) <= maxlen d)%nat ->
  items (deque_append d x)
  = drop (length (items d) + 1 - maxlen d) (items d ++ [x]).
Proof.
  intros Hle. unfold deque_append; simpl.
  rewrite length_app; simpl.
  destruct (Nat.ltb_spec (maxlen d) (length (items d) + 1)) as [Hlt|Hge].
  - replace (length (items d) + 1 - maxlen d)%nat with 1%nat by lia.
    destruct (items d ++ [x]); reflexivity.
  - replace (length (items d) + 1 - maxlen d)%nat with 0%nat by lia.
    reflexivity.
Qed.

Lemma deque_append_full d x :
  length (items d) = maxlen d -> maxlen d <> 0%nat ->
  items (deque_append d x) = tail (items d) ++ [x].
Proof.
  intros Hfull Hn. rewrite deque_append_items by lia.
  replace (length (items d) + 1 - maxlen d)%nat with 1%nat by lia.
  destruct (items d); [simpl in *; lia | reflexivity].
Qed.

Lemma deque_appends_maxlen d xs : maxlen (foldl deque_append d xs) = maxlen d.
Proof. revert d; induction xs as [|x xs IH]; intros d; simpl; [done|]. by rewrite IH. Qed.

(** Appending [xs] to an empty buffer of capacity [n] keeps the last [n]. *)
Lemma deque_appends_items (n : nat) xs :
  items (foldl deque_append (deque_new n) xs) = drop (length xs - n) xs.
Proof.
  induction xs as [|x xs IH] using rev_ind; [done|].
  rewrite foldl_app; cbn [foldl].
  rewrite deque_append_items; rewrite deque_appends_maxlen; cbn [deque_new maxlen];
    rewrite IH, length_drop; [|lia].
  rewrite length_app; simpl.
  destruct (Nat.le_gt_cases (length xs) n) as [Hle|Hgt].
  - replace (length xs - n)%nat with 0%nat by lia. rewrite drop_0.
    replace (length xs - 0 + 1 - n)%nat with (length xs + 1 - n)%nat by lia.
    done.
  - rewrite <- drop_app_le by lia. rewrite drop_drop. f_equal. lia.
Qed.
End deque_facts.

(** A [deque] created with capacity [n] holds, after the appends [xs], at
    most [n] elements: exactly the last [min (length xs) n] appended, in
    insertion order; an append to a full one evicts the oldest. *)
Lemma deque_keeps_last_n {A : Type} (n : nat) (xs : list A) (x : A) :
  let d := foldl deque_append (deque_new n) xs in
  (deque_len d <= n)%nat
  /\ deque_len d = Nat.min (length xs) n
  /\ items d = drop (length xs - Nat.min (length xs) n) xs
  /\ (forall i, items d !! i = xs !! (length xs - Nat.min (length xs) n + i)%nat)
  /\ (deque_len d = n -> n <> 0%nat ->
      items (deque_append d x) = tail (items d) ++ [x]).
Proof.
  intros d. unfold deque_len. subst d.
  rewrite deque_appends_items, length_drop.
  replace (length xs - Nat.min (length xs) n)%nat with (length xs - n)%nat by lia.
  repeat split; try lia.
  - intros i. apply lookup_drop.
  - intros Hfull Hn.
    rewrite deque_append_full, deque_appends_items; [done| |];
      rewrite ?deque_appends_items, ?deque_appends_maxlen, ?length_drop; done.
Qed.

(** ** The windowed price change *)

(** What the specification calls the reference sample, with the age of a
    sample measured from [current_time]: the most recent sample that is at
    least [window_seconds] old. *)
Definition old_enough (current_time : float) (window_seconds : Z) (s : sample) : Prop :=
  float_ge_int (current_time - s.1)%float window_seconds = true.

#[local] Instance old_enough_dec current_time window_seconds s :
  Decision (old_enough current_time window_seconds s).
Proof. unfold old_enough. apply _. Defined.

Definition reference_sample (current_time : float) (window_seconds : Z)
           (data : list sample) : option sample :=
  last (filter (old_enough current_time window_seconds) data).

(** [(latest_price - reference_price) / reference_price * 100] *)
Definition percent_change (latest_price reference_price : float) : result (option float) :=
  bind (float_truediv (latest_price - reference_price)%float reference_price)
       (fun q => Return (Some (q * 100)%float)).

(** The buffer of the specification's example. *)
Definition example_buffer : PriceStream.world :=
  PriceStream.set_price_data
    (foldl deque_append (deque_new 300) [(0, 100); (30, 110); (61, 121)]%float)
    (PriceStream.init 300).

Lemma scan_reverse current_time window_seconds current_price (data : list sample) :
  PriceStream.scan current_time window_seconds current_price (reverse data)
  = match reference_sample current_time window_seconds data with
    | Some (_, price) => percent_change current_price price
    | None => Return None
    end.
Proof.
  unfold reference_sample.
  induction data as [|[t p] data IH] using rev_ind; [done|].
  rewrite reverse_snoc, filter_app, last_app. cbn [PriceStream.scan].
  rewrite filter_cons, filter_nil.
  destruct (decide (old_enough current_time window_seconds (t, p))) as [Ho|Ho];
    unfold old_enough in Ho; cbn [fst] in Ho.
  - rewrite Ho. reflexivity.
  - apply not_true_is_false in Ho. rewrite Ho. cbn [last]. exact IH.
Qed.

(** Two floats that [==] tells apart are different values. *)
Lemma float_eqb_false_neq (x y : float) (r : bool) :
  PrimFloat.eqb x y = r -> PrimFloat.eqb y y = negb r -> x <> y.
Proof. intros E E' ->. rewrite E in E'. destruct r; discriminate. Qed.

(** C2, as stated, fails on the specification's own example: with the clock
    at the last sample's time the sample [(30, 110)] is 31 s old, not 60, so
    the reference is [(0, 100)] and the result is 21.0, not 10.0. *)
Lemma C2_example_is_not_10 :
  PriceStream.get_price_change example_buffer 61 60 = Return (Some 21%float)
  /\ PriceStream.get_price_change example_buffer 61 60 <> Return (Some 10%float).
Proof.
  split; [reflexivity|].
  intros E. vm_compute in E.
  assert (E' : 21%float = 10%float) by congruence.
  revert E'. apply (float_eqb_false_neq _ _ false); reflexivity.
Qed.

(** C2, amended. [get_price_change(window_seconds)] returns [None] when the
    buffer holds fewer than 2 samples or no sample is at least
    [window_seconds] older than the current time [time.time()]; otherwise it
    returns [(latest_price - reference_price) / reference_price * 100] for
    the most recent sample that old (raising [ZeroDivisionError] when
    that price is zero). For the samples [(0,100), (30,110), (61,121)] and
    a window of 60 it returns 21.0 with the clock at 61, 10.0 with the clock
    at 90, and [None] with a single sample. *)
Theorem C2_price_change_from_now (w : PriceStream.world) (current_time : float)
        (window_seconds : Z) :
  PriceStream.get_price_change w current_time window_seconds
  = (if (deque_len (PriceStream.price_data w) <? 2)%nat then Return None
     else match deque_last (PriceStream.price_data w),
                reference_sample current_time window_seconds
                                 (items (PriceStream.price_data w)) with
          | Some (_, latest_price), Some (_, reference_price) =>
              percent_change latest_price reference_price
          | _, _ => Return None
          end)
  /\ PriceStream.get_price_change example_buffer 61 60 = Return (Some 21%float)
  /\ PriceStream.get_price_change example_buffer 90 60 = Return (Some 10%float)
  /\ PriceStream.get_price_change
       (PriceStream.set_price_data
          (deque_append (deque_new 300) (0, 100)%float) (PriceStream.init 300))
       current_time window_seconds = Return None.
Proof.
  split; [|repeat split; reflexivity].
  unfold PriceStream.get_price_change.
  destruct (deque_len (PriceStream.price_data w) <? 2)%nat; [done|].
  destruct (deque_last (PriceStream.price_data w)) as [[tl cur]|]; [|done].
  rewrite scan_reverse. by destruct (reference_sample _ _ _) as [[? ?]|].
Qed.

(** ** [stop] and [start] *)

(** Case analysis on every [match] and [if] of a goal that unfolds one of
    the operations. *)
Ltac split_cases :=
  repeat (cbn [bind try_except returned] in *; case_match; simplify_eq);
  cbn [bind try_except returned] in *.

Section price_stream_calls.
Import PriceStream.
Implicit Types (w : world) (symbol : string).

(** What [stop] does to the attributes; it never raises. *)
Lemma ps_stop_spec w :
  exists w', stop w = Return w'
    /\ price_data w' = price_data w
    /\ max_points w' = max_points w
    /\ running w' = false
    /\ thread w' = thread w
    /\ loop w' = loop w
    /\ _stop_event w' = _stop_event w
    /\ conns w' = conns w
    /\ length (units w') = length (units w)
    /\ (running w = false -> w' = w)
    /\ (running w = true ->
        current_symbol w' = None /\ websocket w' = None /\ connection_task w' = None).
Proof.
  unfold stop, run_coroutine_threadsafe, signal_error.
  destruct (running w) eqn:Hr; cbn [negb].
  - split_cases; eexists; (split; [reflexivity|]);
      cbn; rewrite ?length_alter; repeat split; done.
  - exists w. repeat split; done.
Qed.

Lemma ps_stop_returns w : exists w', stop w = Return w'.
Proof. destruct (ps_stop_spec w) as (w' & ? & _). eauto. Qed.

Lemma ps_stop_idempotent w w' : stop w = Return w' -> stop w' = Return w'.
Proof.
  intros Hs. destruct (ps_stop_spec w) as (w1 & Hs1 & _ & _ & Hr & _).
  rewrite Hs1 in Hs. injection Hs as <-. unfold stop. by rewrite Hr.
Qed.

(** What [start] does when it does not return at once. *)
Lemma ps_start_spec w symbol :
  running w && bool_decide (current_symbol w = Some symbol) = false ->
  exists w', start w symbol = Return w'
    /\ items (price_data w') = []
    /\ maxlen (price_data w') = maxlen (price_data w)
    /\ running w' = true
    /\ current_symbol w' = Some symbol
    /\ thread w' = Some (length (units w))
    /\ websocket w' = None
    /\ units w' !! length (units w) = Some (Unit symbol Created 1 false false []).
Proof.
  intros Hg. unfold start. rewrite Hg.
  destruct (ps_stop_spec w) as (w1 & -> & Hd & _ & _ & _ & _ & _ & _ & Hlen & _).
  cbn [bind]. eexists; split; [reflexivity|]. cbn. rewrite Hd.
  repeat split; try done.
  - by rewrite Hlen.
  - rewrite <- Hlen. by rewrite lookup_app_r, Nat.sub_diag.
Qed.

Lemma ps_start_same w symbol :
  running w = true -> current_symbol w = Some symbol -> start w symbol = Return w.
Proof. intros Hr Hs. unfold start. rewrite Hr, Hs, bool_decide_eq_true_2; done. Qed.

Lemma ps_start_returns w symbol : exists w', start w symbol = Return w'.
Proof.
  destruct (running w && bool_decide (current_symbol w = Some symbol)) eqn:Hg.
  - exists w. unfold start. by rewrite Hg.
  - destruct (ps_start_spec w symbol Hg) as (w' & ? & _). eauto.
Qed.
End price_stream_calls.

Section manager_calls.
Import WebSocketManager.
Implicit Types (m : world) (symbol : string) (now : float).

(** What [stop] does to the attributes; it never raises. *)
Lemma wsm_stop_spec m :
  exists m', stop m = Return m'
    /\ _price_history m' = _price_history m
    /\ _current_price m' = _current_price m
    /\ _running m' = false
    /\ _stop_event m' = _stop_event m
    /\ conns m' = conns m
    /\ length (units m') = length (units m)
    /\ (_running m = false -> m' = m)
    /\ (_running m = true ->
        get_status m' = "Disconnected" /\ get_symbol m' = None /\ _websocket m' = None).
Proof.
  unfold stop, call_soon_threadsafe, runtime_error.
  destruct (_running m) eqn:Hr; cbn [negb].
  - split_cases; eexists; (split; [reflexivity|]);
      cbn; rewrite ?length_alter; repeat split; done.
  - exists m. repeat split; done.
Qed.

Lemma wsm_stop_returns m : exists m', stop m = Return m'.
Proof. destruct (wsm_stop_spec m) as (m' & ? & _). eauto. Qed.

Lemma wsm_stop_idempotent m m' : stop m = Return m' -> stop m' = Return m'.
Proof.
  intros Hs. destruct (wsm_stop_spec m) as (m1 & Hs1 & _ & _ & Hr & _).
  rewrite Hs1 in Hs. injection Hs as <-. unfold stop. by rewrite Hr.
Qed.

(** What [start] does when it does not return at once. *)
Lemma wsm_start_spec m symbol now :
  _running m && bool_decide (get_symbol m = Some (lower symbol)) = false ->
  exists m', start m symbol now = Return m'
    /\ items (_price_history m') = []
    /\ maxlen (_price_history m') = maxlen (_price_history m)
    /\ _current_price m' = _current_price m
    /\ _running m' = true
    /\ get_symbol m' = Some (lower symbol)
    /\ get_status m' = "Connecting"
    /\ units m' !! length (units m) = Some (Unit (lower symbol) Created 1 false false []).
Proof.
  intros Hg. unfold start. unfold get_symbol in Hg. rewrite Hg.
  destruct (wsm_stop_spec m) as (m1 & -> & Hd & Hp & _ & _ & _ & Hlen & _).
  cbn [bind]. eexists; split; [reflexivity|]. cbn. rewrite Hd, Hp.
  repeat split; try done.
  rewrite <- Hlen. by rewrite lookup_app_r, Nat.sub_diag.
Qed.

Lemma wsm_start_same m symbol now :
  _running m = true -> get_symbol m = Some (lower symbol) ->
  start m symbol now = Return m.
Proof.
  intros Hr Hs. unfold start. unfold get_symbol in Hs.
  rewrite Hr, Hs, bool_decide_eq_true_2; done.
Qed.

Lemma wsm_start_returns m symbol now : exists m', start m symbol now = Return m'.
Proof.
  destruct (_running m && bool_decide (get_symbol m = Some (lower symbol))) eqn:Hg.
  - exists m. unfold start. unfold get_symbol in Hg. by rewrite Hg.
  - destruct (wsm_start_spec m symbol now Hg) as (m' & ? & _). eauto.
Qed.
End manager_calls.

(** ** Concrete runs *)

(** A trade frame as the feed sends it: [{"p": "<price>", "T": <ms>}]. *)
Definition trade_frame (price : string) (ms : Z) : frame :=
  Json (JObj [("p", JStr price); ("T", JInt ms)]).

(** A [PriceStream] session for ETHUSDT that has received one trade. *)
Definition ps_eth_session : list PriceStream.event :=
  [PriceStream.CallStart "ETHUSDT"; PriceStream.ThreadRun 0; PriceStream.Resume 0;
   PriceStream.ConnectOk 0; PriceStream.Message 0 (trade_frame "100" 1000)].

(** The same for a [WebSocketManager]. *)
Definition wsm_eth_session : list WebSocketManager.event :=
  [WebSocketManager.CallStart "ETHUSDT" 0; WebSocketManager.ThreadRun 0;
   WebSocketManager.Resume 0; WebSocketManager.ConnectOk 0 0;
   WebSocketManager.Message 0 (trade_frame "100" 1000) 1].

(** ** Sessions and the buffer *)

(** C3, as stated, fails: [stop()] leaves the buffer alone, so right after
    it [get_series()] still returns the samples of the stopped session, in
    both clients. *)
Lemma C3_stop_keeps_the_buffer :
  PriceStream.get_series
    <$> @PriceStream.run plain_runtime (PriceStream.init 300)
          (ps_eth_session ++ [PriceStream.CallStop])
  <> Some ([], [])
  /\ WebSocketManager.get_series
       <$> @WebSocketManager.run plain_runtime (WebSocketManager.init 600 true 0)
             (wsm_eth_session ++ [WebSocketManager.CallStop])
     <> Some ([], []).
Proof. split; vm_compute; discriminate. Qed.

(** C3, amended. Every new session starts with an empty buffer: whenever
    [start(symbol)] does not return at once (the client is not already
    running for [symbol]), [get_series()] returns [([], [])] when it
    returns, whatever session came before. [stop()] itself returns with the
    buffer unchanged. *)
Theorem C3_new_session_starts_empty
        (w : PriceStream.world) (m : WebSocketManager.world)
        (symbol : string) (now : float) :
  PriceStream.running w
    && bool_decide (PriceStream.current_symbol w = Some symbol) = false ->
  WebSocketManager._running m
    && bool_decide (WebSocketManager.get_symbol m = Some (lower symbol)) = false ->
  (exists w', PriceStream.start w symbol = Return w'
              /\ PriceStream.get_series w' = ([], []))
  /\ (exists m', WebSocketManager.start m symbol now = Return m'
                 /\ WebSocketManager.get_series m' = ([], []))
  /\ (exists w', PriceStream.stop w = Return w'
                 /\ PriceStream.price_data w' = PriceStream.price_data w
                 /\ PriceStream.get_series w' = PriceStream.get_series w)
  /\ (exists m', WebSocketManager.stop m = Return m'
                 /\ WebSocketManager._price_history m' = WebSocketManager._price_history m
                 /\ WebSocketManager.get_series m' = WebSocketManager.get_series m).
Proof.
  intros Hw Hm. repeat split.
  - destruct (ps_start_spec w symbol Hw) as (w' & Hs & Hi & _).
    exists w'. split; [done|]. unfold PriceStream.get_series. by rewrite Hi.
  - destruct (wsm_start_spec m symbol now Hm) as (m' & Hs & Hi & _).
    exists m'. split; [done|]. unfold WebSocketManager.get_series. by rewrite Hi.
  - destruct (ps_stop_spec w) as (w' & Hs & Hd & _).
    exists w'. unfold PriceStream.get_series. by rewrite Hd.
  - destruct (wsm_stop_spec m) as (m' & Hs & Hd & _).
    exists m'. unfold WebSocketManager.get_series. by rewrite Hd.
Qed.

(** The two clients after the ETHUSDT session above. *)
Definition ps_eth_world : PriceStream.world :=
  Eval vm_compute in
  default (PriceStream.init 300)
          (@PriceStream.run plain_runtime (PriceStream.init 300) ps_eth_session).

Definition wsm_eth_world : WebSocketManager.world :=
  Eval vm_compute in
  default (WebSocketManager.init 600 true 0)
          (@WebSocketManager.run plain_runtime (WebSocketManager.init 600 true 0)
                                 wsm_eth_session).

Lemma C3_new_session_starts_empty_witness :
  (PriceStream.running ps_eth_world
     && bool_decide (PriceStream.current_symbol ps_eth_world = Some "BTCUSDT") = false
   /\ WebSocketManager._running wsm_eth_world
        && bool_decide (WebSocketManager.get_symbol wsm_eth_world
                        = Some (lower "BTCUSDT")) = false)
  /\ PriceStream.get_series ps_eth_world = ([1], [100])%float
  /\ exists w', PriceStream.start ps_eth_world "BTCUSDT" = Return w'
                /\ PriceStream.get_series w' = ([], []).
Proof.
  split; [split; reflexivity|]. split; [reflexivity|].
  apply (C3_new_session_starts_empty ps_eth_world wsm_eth_world "BTCUSDT" 2);
    reflexivity.
Defined.

(** ** [start] on the symbol that is already streaming *)

(** A [PriceStream] right after [start("BTCUSDT")]. *)
Definition ps_btc_world : PriceStream.world :=
  Eval vm_compute in
  default (PriceStream.init 300)
          (returned (PriceStream.start (PriceStream.init 300) "BTCUSDT")).

(** A [PriceStream] right after [start("btcusdt")], and a
    [WebSocketManager] right after [start("BTCUSDT")]. *)
Definition ps_btc_lower_world : PriceStream.world :=
  Eval vm_compute in
  default (PriceStream.init 300)
          (returned (PriceStream.start (PriceStream.init 300) "btcusdt")).

Definition wsm_btc_world : WebSocketManager.world :=
  Eval vm_compute in
  default (WebSocketManager.init 600 true 0)
          (returned (WebSocketManager.start (WebSocketManager.init 600 true 0) "BTCUSDT" 0)).

(** C6, as stated, fails for [PriceStream]: it compares the symbols as
    they are, so [start("btcusdt")] on a client streaming "BTCUSDT" stops
    that session and starts another one. *)
Lemma C6_price_stream_is_case_sensitive :
  PriceStream.running ps_btc_world = true
  /\ PriceStream.current_symbol ps_btc_world = Some "BTCUSDT"
  /\ lower "btcusdt" = lower "BTCUSDT"
  /\ PriceStream.start ps_btc_world "btcusdt" <> Return ps_btc_world.
Proof.
  repeat split; try reflexivity.
  intros E.
  apply (f_equal (fun r => PriceStream.current_symbol <$> returned r)) in E.
  vm_compute in E. discriminate.
Qed.

(** C6, amended. [start(symbol')] on a client that is running is a no-op
    (the state it returns is the state it was called in: buffer, connection
    state, current symbol and background unit) when [symbol'] is the very
    string the [PriceStream] is streaming and, for a [WebSocketManager]
    started with [symbol], when [symbol'] equals [symbol] case-insensitively. *)
Theorem C6_start_same_symbol_is_noop
        (w : PriceStream.world) (m : WebSocketManager.world)
        (symbol symbol' : string) (now : float) :
  PriceStream.running w = true ->
  PriceStream.current_symbol w = Some symbol' ->
  WebSocketManager._running m = true ->
  WebSocketManager.get_symbol m = Some (lower symbol) ->
  lower symbol' = lower symbol ->
  PriceStream.start w symbol' = Return w
  /\ WebSocketManager.start m symbol' now = Return m.
Proof.
  intros Hr Hs Hr' Hs' Hl. split.
  - by apply ps_start_same.
  - apply wsm_start_same; [done|]. by rewrite Hl.
Qed.

Lemma C6_start_same_symbol_is_noop_witness :
  PriceStream.start ps_btc_lower_world "btcusdt" = Return ps_btc_lower_world
  /\ WebSocketManager.start wsm_btc_world "btcusdt" 5 = Return wsm_btc_world.
Proof.
  apply (C6_start_same_symbol_is_noop ps_btc_lower_world wsm_btc_world "BTCUSDT");
    reflexivity.
Defined.

(** ** What the background units leave alone *)

Section price_stream_steps.
Import PriceStream.
Context `{Runtime}.
Implicit Types (w : world) (e : event).

Definition ps_is_call e : bool :=
  match e with
  | CallStart _ | CallStop => true
  | _ => false
  end.

(** No step of a background unit writes [running] or [current_symbol]. *)
Lemma ps_unit_step_frame w e w' :
  step w e = Some w' -> ps_is_call e = false ->
  running w' = running w /\ current_symbol w' = current_symbol w.
Proof.
  intros Hs Hc. destruct e; try discriminate Hc;
    unfold step, on_message, on_error, leave, break_receive, thread_exit, _cleanup,
      run_set_stop_event, cancel_task, close_conn, update_unit in Hs;
    split_cases; done.
Qed.

(** A client that is not running has no current symbol. *)
Definition ps_idle_inv w : Prop := running w = false -> current_symbol w = None.

Lemma ps_step_idle_inv w e w' : step w e = Some w' -> ps_idle_inv w -> ps_idle_inv w'.
Proof.
  intros Hs Hi. destruct (ps_is_call e) eqn:Hc.
  - destruct e; try discriminate Hc; cbn [step] in Hs.
    + destruct (running w && bool_decide (current_symbol w = Some symbol)) eqn:Hg.
      * unfold start in Hs. rewrite Hg in Hs. by simplify_eq/=.
      * destruct (ps_start_spec w symbol Hg) as (w1 & Hs1 & _ & _ & Hr & _).
        rewrite Hs1 in Hs. simplify_eq/=. intros Hr'. congruence.
    + destruct (ps_stop_spec w) as (w1 & Hs1 & _ & _ & _ & _ & _ & _ & _ & _ & Hf & Ht).
      rewrite Hs1 in Hs. simplify_eq/=. intros _.
      destruct (running w) eqn:Hr; [by apply Ht|]. rewrite Hf by done. by apply Hi.
  - destruct (ps_unit_step_frame w e w' Hs Hc) as [Hr Hc']. unfold ps_idle_inv.
    rewrite Hr, Hc'. exact Hi.
Qed.

Lemma ps_run_idle_inv es : forall w w',
  run w es = Some w' -> ps_idle_inv w -> ps_idle_inv w'.
Proof.
  induction es as [|e es IH]; intros w w' Hr Hi; cbn [run] in Hr.
  - by simplify_eq.
  - destruct (step w e) as [w1|] eqn:Hs; [|done].
    eapply IH; [done|]. by eapply ps_step_idle_inv.
Qed.
End price_stream_steps.

Section manager_steps.
Import WebSocketManager.
Context `{Runtime}.
Implicit Types (m : world) (e : event).

Definition wsm_is_call e : bool :=
  match e with
  | CallStart _ _ | CallStop => true
  | _ => false
  end.

(** No step of a background unit writes [_running] or the symbol of the
    connection state. *)
Lemma wsm_unit_step_frame m e m' :
  step m e = Some m' -> wsm_is_call e = false ->
  _running m' = _running m /\ get_symbol m' = get_symbol m.
Proof.
  intros Hs Hc. destruct e; try discriminate Hc;
    unfold step, on_message, on_error, leave, end_receive, thread_exit,
      close_conn, update_unit, update_state in Hs;
    split_cases; done.
Qed.

(** A manager that is not running has no symbol. *)
Definition wsm_idle_inv m : Prop := _running m = false -> get_symbol m = None.

Lemma wsm_step_idle_inv m e m' : step m e = Some m' -> wsm_idle_inv m -> wsm_idle_inv m'.
Proof.
  intros Hs Hi. destruct (wsm_is_call e) eqn:Hc.
  - destruct e as [sym now| | | | | | | | | | | | ]; try discriminate Hc; cbn [step] in Hs.
    + destruct (_running m && bool_decide (get_symbol m = Some (lower sym))) eqn:Hg.
      * unfold start in Hs. unfold get_symbol in Hg. rewrite Hg in Hs. by simplify_eq/=.
      * destruct (wsm_start_spec m sym now Hg) as (m1 & Hs1 & _ & _ & _ & Hr & _).
        rewrite Hs1 in Hs. simplify_eq/=. intros Hr'. congruence.
    + destruct (wsm_stop_spec m) as (m1 & Hs1 & _ & _ & _ & _ & _ & _ & Hf & Ht).
      rewrite Hs1 in Hs. simplify_eq/=. intros _.
      destruct (_running m) eqn:Hr; [by apply Ht|]. rewrite Hf by done. by apply Hi.
  - destruct (wsm_unit_step_frame m e m' Hs Hc) as [Hr Hc']. unfold wsm_idle_inv.
    rewrite Hr, Hc'. exact Hi.
Qed.

Lemma wsm_run_idle_inv es : forall m m',
  run m es = Some m' -> wsm_idle_inv m -> wsm_idle_inv m'.
Proof.
  induction es as [|e es IH]; intros m m' Hr Hi; cbn [run] in Hr.
  - by simplify_eq.
  - destruct (step m e) as [m1|] eqn:Hs; [|done].
    eapply IH; [done|]. by eapply wsm_step_idle_inv.
Qed.

(** As long as only the caller's thread runs, a manager that is not
    running shows the status "Disconnected". *)
Definition wsm_quiet_inv m : Prop := _running m = false -> get_status m = "Disconnected".

Lemma wsm_calls_quiet_inv es : forall m m',
  run m es = Some m' -> forallb wsm_is_call es = true -> wsm_quiet_inv m -> wsm_quiet_inv m'.
Proof.
  induction es as [|e es IH]; intros m m' Hr Hc Hi; cbn [run forallb] in *.
  - by simplify_eq.
  - apply andb_prop in Hc as [Hc Hcs].
    destruct (step m e) as [m1|] eqn:Hs; [|done].
    eapply IH; [done..|]. clear IH Hr Hcs.
    destruct e as [sym now| | | | | | | | | | | | ]; try discriminate Hc; cbn [step] in Hs.
    + destruct (_running m && bool_decide (get_symbol m = Some (lower sym))) eqn:Hg.
      * unfold start in Hs. unfold get_symbol in Hg. rewrite Hg in Hs. by simplify_eq/=.
      * destruct (wsm_start_spec m sym now Hg) as (m2 & Hs1 & _ & _ & _ & Hr & _).
        rewrite Hs1 in Hs. simplify_eq/=. intros Hr'. congruence.
    + destruct (wsm_stop_spec m) as (m2 & Hs1 & _ & _ & _ & _ & _ & _ & Hf & Ht).
      rewrite Hs1 in Hs. simplify_eq/=. intros _.
      destruct (_running m) eqn:Hr; [by apply Ht|]. rewrite Hf by done. by apply Hi.
Qed.
End manager_steps.

(** ** [stop] twice *)

(** [stop()] is called while the handshake of a [WebSocketManager] is in
    flight; the handshake then succeeds; [stop()] is called again. *)
Definition wsm_stop_during_handshake : list WebSocketManager.event :=
  [WebSocketManager.CallStart "BTCUSDT" 0; WebSocketManager.ThreadRun 0;
   WebSocketManager.Resume 0; WebSocketManager.CallStop;
   WebSocketManager.ConnectOk 0 1; WebSocketManager.CallStop].

(** C7 at the failing input. The first [stop()] leaves the status
    "Disconnected"; the handshake that was in flight then completes, and the
    unwinding unit writes "Connected" without testing [_running], as its
    [except] clauses do before they write a status. The second [stop()]
    returns at once on a manager that is not running, and so does a third
    one right after it: after both the status reads "Connected", not
    "Disconnected", on a manager that is not running and has no symbol. *)
Theorem C7_status_after_second_stop :
  WebSocketManager.get_status
    <$> @WebSocketManager.run plain_runtime (WebSocketManager.init 600 true 0)
          (take 4 wsm_stop_during_handshake)
  = Some "Disconnected"
  /\ (fun m => (WebSocketManager.get_status m, WebSocketManager._running m,
                WebSocketManager.get_symbol m))
       <$> @WebSocketManager.run plain_runtime (WebSocketManager.init 600 true 0)
             wsm_stop_during_handshake
     = Some ("Connected", false, None)
  /\ WebSocketManager.get_status
       <$> @WebSocketManager.run plain_runtime (WebSocketManager.init 600 true 0)
             wsm_stop_during_handshake
     <> Some "Disconnected"
  /\ WebSocketManager.get_status
       <$> @WebSocketManager.run plain_runtime (WebSocketManager.init 600 true 0)
             (wsm_stop_during_handshake ++ [WebSocketManager.CallStop])
     = Some "Connected".
Proof. repeat split; try (vm_compute; reflexivity). vm_compute. discriminate. Qed.

Section stop_twice.
Context `{Runtime}.

(** X14. In any state that calls of [start]/[stop] and steps of the
    background units lead to, [stop()] raises no error, a second [stop()]
    right after it changes nothing, and after either of them the client is
    not running and its current symbol is [None], without any step of the
    background unit. A [stop()] on a running [WebSocketManager] sets the
    status "Disconnected"; a [stop()] on one that is not running changes
    nothing at all, and the status it leaves is "Disconnected" when no
    background unit has taken a step yet. *)
Theorem X14_stop_is_idempotent
        (n n' : nat) (cb : bool) (t0 : float)
        (es : list PriceStream.event) (es' : list WebSocketManager.event)
        (w : PriceStream.world) (m : WebSocketManager.world) :
  PriceStream.run (PriceStream.init n) es = Some w ->
  WebSocketManager.run (WebSocketManager.init n' cb t0) es' = Some m ->
  (exists w', PriceStream.stop w = Return w'
              /\ PriceStream.stop w' = Return w'
              /\ PriceStream.running w' = false
              /\ PriceStream.current_symbol w' = None)
  /\ (exists m', WebSocketManager.stop m = Return m'
                 /\ WebSocketManager.stop m' = Return m'
                 /\ WebSocketManager._running m' = false
                 /\ WebSocketManager.get_symbol m' = None
                 /\ (WebSocketManager._running m = true ->
                     WebSocketManager.get_status m' = "Disconnected")
                 /\ (WebSocketManager._running m = false -> m' = m)
                 /\ (forallb wsm_is_call es' = true ->
                     WebSocketManager.get_status m' = "Disconnected")).
Proof.
  intros Hw Hm. split.
  - destruct (ps_stop_spec w) as (w' & Hs & _ & _ & Hr & _).
    assert (Hrun : PriceStream.run (PriceStream.init n)
                     (es ++ [PriceStream.CallStop]) = Some w').
    { clear Hr. revert Hw. generalize (PriceStream.init n).
      induction es as [|e es IH]; intros w0 Hw; cbn [app PriceStream.run] in *.
      - simplify_eq. cbn [PriceStream.step]. by rewrite Hs.
      - destruct (PriceStream.step w0 e); [by apply IH|done]. }
    exists w'. repeat split; [done|by eapply ps_stop_idempotent|done|].
    by apply (ps_run_idle_inv _ _ _ Hrun).
  - destruct (wsm_stop_spec m) as (m' & Hs & _ & _ & Hr & _ & _ & _ & Hf & Ht).
    assert (Hrun : WebSocketManager.run (WebSocketManager.init n' cb t0)
                     (es' ++ [WebSocketManager.CallStop]) = Some m').
    { clear Hr Hf Ht. revert Hm. generalize (WebSocketManager.init n' cb t0).
      induction es' as [|e es' IH]; intros m0 Hm; cbn [app WebSocketManager.run] in *.
      - simplify_eq. cbn [WebSocketManager.step]. by rewrite Hs.
      - destruct (WebSocketManager.step m0 e); [by apply IH|done]. }
    exists m'. repeat split; [done|by eapply wsm_stop_idempotent|done| |apply Ht|done|].
    + by apply (wsm_run_idle_inv _ _ _ Hrun).
    + intros Hc. apply (wsm_calls_quiet_inv _ _ _ Hrun); [|done|done].
      rewrite forallb_app, Hc. reflexivity.
Qed.
End stop_twice.

Lemma X14_stop_is_idempotent_witness :
  (@PriceStream.run plain_runtime (PriceStream.init 300) ps_eth_session = Some ps_eth_world
   /\ @WebSocketManager.run plain_runtime (WebSocketManager.init 600 true 0) wsm_eth_session
      = Some wsm_eth_world)
  /\ exists w', PriceStream.stop ps_eth_world = Return w'
                /\ PriceStream.stop w' = Return w'
                /\ PriceStream.running w' = false
                /\ PriceStream.current_symbol w' = None.
Proof.
  assert (Hw : @PriceStream.run plain_runtime (PriceStream.init 300) ps_eth_session
               = Some ps_eth_world) by (vm_compute; reflexivity).
  assert (Hm : @WebSocketManager.run plain_runtime (WebSocketManager.init 600 true 0)
                 wsm_eth_session = Some wsm_eth_world) by (vm_compute; reflexivity).
  split; [split; assumption|].
  exact (proj1 (@X14_stop_is_idempotent plain_runtime 300 600 true 0
                  ps_eth_session wsm_eth_session ps_eth_world wsm_eth_world Hw Hm)).
Defined.

(** ** A symbol switch while the old unit is still receiving *)

(** The caller switches from ETHUSDT to BTCUSDT. The old loop runs what
    [stop] queued on it, the new thread enters its body, and only then the
    next ETHUSDT trade reaches the old unit. *)
Definition ps_switch : list PriceStream.event :=
  ps_eth_session
  ++ [PriceStream.CallStart "BTCUSDT"; PriceStream.LoopRun 0; PriceStream.LoopRun 0;
      PriceStream.ThreadRun 1; PriceStream.Message 0 (trade_frame "101" 2000);
      PriceStream.Resume 0].

Definition wsm_switch : list WebSocketManager.event :=
  wsm_eth_session
  ++ [WebSocketManager.CallStart "BTCUSDT" 2; WebSocketManager.LoopRun 0;
      WebSocketManager.ThreadRun 1;
      WebSocketManager.Message 0 (trade_frame "101" 2000) 3].

(** A trade frame whose price is JSON [null]. *)
Definition null_price_frame : frame :=
  Json (JObj [("p", JNull); ("T", JInt 2000)]).

Section stale_messages.
Context `{Runtime}.

(** In [PriceStream], a message that finds another desired symbol than
    the one its connection was opened for is never appended: the receive
    loop is left and the connection closed. *)
Lemma ps_stale_message_dropped (w : PriceStream.world) (i c : nat) (n : Z)
      (u : PriceStream.unit_state) (message : frame) :
  PriceStream.units w !! i = Some u ->
  PriceStream.u_pc u = PriceStream.Receiving c n ->
  PriceStream.conn_open w c = true ->
  PriceStream.current_symbol w <> Some (PriceStream.u_symbol u) ->
  exists w', PriceStream.step w (PriceStream.Message i message) = Some w'
    /\ PriceStream.price_data w' = PriceStream.price_data w
    /\ PriceStream.u_pc <$> PriceStream.units w' !! i = Some PriceStream.AtWhile
    /\ PriceStream.conn_open w' c = false.
Proof.
  intros Hu Hpc Hc Hs. cbn [PriceStream.step]. rewrite Hu, Hpc, Hc.
  eexists; split; [reflexivity|].
  unfold PriceStream.on_message.
  assert (Hb : PriceStream.price_data (PriceStream.break_receive i c w)
               = PriceStream.price_data w
             /\ PriceStream.u_pc <$> PriceStream.units (PriceStream.break_receive i c w) !! i
                = Some PriceStream.AtWhile
             /\ PriceStream.conn_open (PriceStream.break_receive i c w) c = false).
  { unfold PriceStream.break_receive, PriceStream.update_unit, PriceStream.close_conn,
      PriceStream.conn_open in *. cbn.
    rewrite list_lookup_alter_eq, Hu. repeat split; try done.
    destruct (PriceStream.conns w !! c) eqn:E; [|done].
    rewrite list_lookup_insert_eq; [done|]. by eapply lookup_lt_Some. }
  destruct (negb (PriceStream.running w) || PriceStream.stop_is_set w); [exact Hb|].
  rewrite bool_decide_eq_false_2 by done. exact Hb.
Qed.
End stale_messages.

(** C5 at the failing input. After the switch the old [PriceStream] unit
    does drop the ETHUSDT trade, but the [while] loop it falls back to finds
    [running] set again and the new, unset stop event: it reconnects for
    ETHUSDT. The old [WebSocketManager] unit, which never looks at the
    symbol, appends the ETHUSDT trade to the cleared buffer of the BTCUSDT
    session and makes it the latest price. *)
Theorem C5_stale_unit_after_switch :
  (fun w => (PriceStream.current_symbol w,
             PriceStream.get_series w,
             PriceStream.u_symbol <$> PriceStream.units w !! 0%nat,
             PriceStream.u_pc <$> PriceStream.units w !! 0%nat))
    <$> @PriceStream.run plain_runtime (PriceStream.init 300) ps_switch
  = Some (Some "BTCUSDT", ([], []), Some "ETHUSDT", Some PriceStream.Connecting)
  /\ (fun m => (WebSocketManager.get_symbol m,
                WebSocketManager.get_series m,
                WebSocketManager.get_latest_price m,
                WebSocketManager.u_symbol <$> WebSocketManager.units m !! 0%nat,
                WebSocketManager.u_pc <$> WebSocketManager.units m !! 0%nat))
       <$> @WebSocketManager.run plain_runtime (WebSocketManager.init 600 true 0) wsm_switch
     = Some (Some "btcusdt", ([2], [101])%float, Some 101%float,
             Some "ethusdt", Some (WebSocketManager.Receiving 0)).
Proof. split; vm_compute; reflexivity. Qed.

(** ** Malformed frames *)

Section malformed_frames.
Context `{Runtime}.

(** The malformed frames that the handlers name: text that is not JSON, an
    object without ["p"] or without ["T"], a price string that is not a
    number. Each makes the parsing lines raise one of the caught classes. *)
Lemma malformed_frames_are_caught (text s : string) (kv : list (string * json))
      (p : json) :
  (exists e, parse_message (NotJSON text) = Raise e /\ parse_error e = true)
  /\ (dict_get kv "p" = None ->
      exists e, parse_message (Json (JObj kv)) = Raise e /\ parse_error e = true)
  /\ (dict_get kv "p" = Some (JStr s) -> float_of_str s = None ->
      exists e, parse_message (Json (JObj kv)) = Raise e /\ parse_error e = true)
  /\ (dict_get kv "p" = Some (JStr s) -> is_Some (float_of_str s) ->
      dict_get kv "T" = None ->
      exists e, parse_message (Json (JObj kv)) = Raise e /\ parse_error e = true).
Proof.
  unfold parse_message, getitem, py_float. cbn [json_loads bind]. repeat split.
  - by exists JSONDecodeError.
  - intros ->. by exists KeyError.
  - intros -> Hf. cbn. rewrite Hf. by exists ValueError.
  - intros -> [f Hf] Ht. cbn. rewrite Hf. cbn. rewrite Ht. by exists KeyError.
Qed.

(** A [PriceStream] session in which unit [i] is receiving on connection
    [c] for the symbol the caller wants. *)
Definition ps_receiving (w : PriceStream.world) (i c : nat) (n : Z) : Prop :=
  exists u, PriceStream.units w !! i = Some u
    /\ PriceStream.u_pc u = PriceStream.Receiving c n
    /\ PriceStream.conn_open w c = true
    /\ PriceStream.running w = true
    /\ PriceStream.stop_is_set w = false
    /\ PriceStream.current_symbol w = Some (PriceStream.u_symbol u).

Lemma ps_receiving_next (w : PriceStream.world) (i c : nat) (n n' : Z)
      (d : deque sample) :
  ps_receiving w i c n ->
  ps_receiving
    (PriceStream.update_unit i (PriceStream.set_pc (PriceStream.Receiving c n'))
                             (PriceStream.set_price_data d w)) i c n'.
Proof.
  intros (u & Hu & Hpc & Hc & Hr & Hst & Hs).
  exists (PriceStream.set_pc (PriceStream.Receiving c n') u).
  unfold PriceStream.update_unit, PriceStream.stop_is_set, PriceStream.conn_open in *.
  cbn. rewrite list_lookup_alter_eq, Hu. repeat split; try done.
  destruct (PriceStream._stop_event w) as [ev|]; [|done].
  rewrite list_lookup_alter. case_decide; [subst; rewrite Hu in *; done|done].
Qed.

(** What one frame does to such a session. *)
Lemma ps_receiving_message (w : PriceStream.world) (i c : nat) (n : Z) (m : frame)
      (u : PriceStream.unit_state) :
  PriceStream.units w !! i = Some u ->
  ps_receiving w i c n ->
  PriceStream.step w (PriceStream.Message i m)
  = Some match parse_message m with
         | Return smp =>
             PriceStream.update_unit i
               (PriceStream.set_pc (PriceStream.Receiving c (n + 1)))
               (PriceStream.set_price_data
                  (deque_append (PriceStream.price_data w) smp) w)
         | Raise e =>
             if parse_error e
             then PriceStream.update_unit i
                    (PriceStream.set_pc (PriceStream.Receiving c (n + 1))) w
             else if connection_closed e
             then PriceStream.leave i (PriceStream.close_conn c w)
             else PriceStream.on_error i u (PriceStream.close_conn c w)
         end.
Proof.
  intros Hu' (u' & Hu & Hpc & Hc & Hr & Hst & Hs).
  rewrite Hu in Hu'. injection Hu' as <-.
  cbn [PriceStream.step]. rewrite Hu, Hpc, Hc. unfold PriceStream.on_message.
  rewrite Hr, Hst, Hs, bool_decide_eq_true_2 by done. cbn [negb orb].
  by destruct (parse_message m) as [smp|e].
Qed.

(** A [PriceStream] unit that is receiving for the desired symbol skips a
    frame whose parsing raises a caught class, stays in its receive loop,
    and appends the valid frame that follows. *)
Lemma ps_caught_frame_is_skipped (w : PriceStream.world) (i c : nat) (n : Z)
      (bad good : frame) (e : exn) (smp : sample) :
  ps_receiving w i c n ->
  parse_message bad = Raise e -> parse_error e = true ->
  parse_message good = Return smp ->
  exists w' w'',
    PriceStream.step w (PriceStream.Message i bad) = Some w'
    /\ PriceStream.price_data w' = PriceStream.price_data w
    /\ ps_receiving w' i c (n + 1)
    /\ PriceStream.step w' (PriceStream.Message i good) = Some w''
    /\ PriceStream.price_data w'' = deque_append (PriceStream.price_data w) smp
    /\ ps_receiving w'' i c (n + 1 + 1).
Proof.
  intros Hw Hbad He Hgood.
  pose proof (ps_receiving_next w i c n (n + 1) (PriceStream.price_data w) Hw) as Hw'.
  assert (Hid : PriceStream.set_price_data (PriceStream.price_data w) w = w)
    by by destruct w.
  rewrite Hid in Hw'.
  destruct Hw as (u & Hu & Hw). destruct Hw' as (u' & Hu' & Hw').
  eexists _, _. split.
  { rewrite (ps_receiving_message w i c n bad u), Hbad, He by (done || by exists u).
    reflexivity. }
  split; [done|]. split; [by exists u'|]. split.
  { rewrite (ps_receiving_message _ i c (n + 1) good u'), Hgood
      by (done || by exists u').
    reflexivity. }
  split; [done|]. apply (ps_receiving_next _ i c (n + 1)). by exists u'.
Qed.
End malformed_frames.

Section malformed_frames_manager.
Context `{Runtime}.

(** A [WebSocketManager] session in which unit [i] is receiving on
    connection [c]. *)
Definition wsm_receiving (m : WebSocketManager.world) (i c : nat) : Prop :=
  exists u, WebSocketManager.units m !! i = Some u
    /\ WebSocketManager.u_pc u = WebSocketManager.Receiving c
    /\ WebSocketManager.conn_open m c = true
    /\ WebSocketManager._running m = true
    /\ WebSocketManager.stop_is_set m = false.

(** A frame whose parsing raises a caught class changes nothing at all:
    no sample, no error count, and the unit keeps receiving. *)
Lemma wsm_caught_frame_is_skipped (m : WebSocketManager.world) (i c : nat)
      (bad : frame) (now : float) (e : exn) :
  wsm_receiving m i c ->
  parse_message bad = Raise e -> parse_error e = true ->
  WebSocketManager.step m (WebSocketManager.Message i bad now) = Some m.
Proof.
  intros (u & Hu & Hpc & Hc & Hr & Hst) Hbad He.
  cbn [WebSocketManager.step]. rewrite Hu, Hpc, Hc. unfold WebSocketManager.on_message.
  by rewrite Hr, Hst, Hbad, He.
Qed.

(** A valid frame is appended, and the unit keeps receiving. *)
Lemma wsm_valid_frame_is_appended (m : WebSocketManager.world) (i c : nat)
      (good : frame) (now : float) (smp : sample) :
  wsm_receiving m i c ->
  parse_message good = Return smp ->
  exists m', WebSocketManager.step m (WebSocketManager.Message i good now) = Some m'
    /\ WebSocketManager._price_history m'
       = deque_append (WebSocketManager._price_history m) smp
    /\ WebSocketManager._current_price m' = Some smp.2
    /\ WebSocketManager.error_count (WebSocketManager._connection_state m')
       = WebSocketManager.error_count (WebSocketManager._connection_state m)
    /\ wsm_receiving m' i c.
Proof.
  intros (u & Hu & Hpc & Hc & Hr & Hst) Hgood. destruct smp as [timestamp price].
  cbn [WebSocketManager.step]. rewrite Hu, Hpc, Hc. unfold WebSocketManager.on_message.
  rewrite Hr, Hst, Hgood. cbn [negb orb].
  eexists; split; [reflexivity|].
  destruct (WebSocketManager.update_callback m) eqn:Hcb; cbn; rewrite Hcb;
    (repeat split; try done); exists u; done.
Qed.
End malformed_frames_manager.

(** C8 at the failing input: a frame whose price is JSON [null]. [float]
    raises [TypeError] on it, a class that the handlers do not list. The
    [PriceStream] unit leaves its receive loop for the reconnect path (its
    connection is closed, it waits out the backoff, and no further frame
    can be delivered on that connection); the [WebSocketManager] unit leaves
    [_message_handler] and is back at the [while] loop with its connection
    closed. Neither appends a sample, and [error_count] stays 0. *)
Theorem C8_null_price_ends_the_receive_loop :
  @parse_message plain_runtime null_price_frame = Raise TypeError
  /\ (fun w => (PriceStream.get_series w,
                PriceStream.u_pc <$> PriceStream.units w !! 0%nat,
                PriceStream.conn_open w 0,
                @PriceStream.step plain_runtime w
                  (PriceStream.Message 0 (trade_frame "101" 3000))))
       <$> @PriceStream.run plain_runtime (PriceStream.init 300)
             (ps_eth_session ++ [PriceStream.Message 0 null_price_frame])
     = Some (([1], [100])%float, Some (PriceStream.BackoffWait (Some 0%nat) 1),
             false, None)
  /\ (fun m => (WebSocketManager.get_series m,
                WebSocketManager.u_pc <$> WebSocketManager.units m !! 0%nat,
                WebSocketManager.conn_open m 0,
                WebSocketManager.error_count (WebSocketManager._connection_state m),
                @WebSocketManager.step plain_runtime m
                  (WebSocketManager.Message 0 (trade_frame "101" 3000) 3)))
       <$> @WebSocketManager.run plain_runtime (WebSocketManager.init 600 true 0)
             (wsm_eth_session ++ [WebSocketManager.Message 0 null_price_frame 2])
     = Some (([1], [100])%float, Some WebSocketManager.AtWhile, false, 0%Z, None).
Proof. repeat split; vm_compute; reflexivity. Qed.

(** ** Reading before any data has arrived *)

Section before_data.
Context `{Runtime}.

(** The events that bring no data: everything but the delivery of a frame
    that parses. *)
Definition brings_no_data (message : frame) : bool :=
  match parse_message message with
  | Return _ => false
  | Raise _ => true
  end.

Definition ps_no_data (e : PriceStream.event) : bool :=
  match e with
  | PriceStream.Message _ message => brings_no_data message
  | _ => true
  end.

Definition wsm_no_data (e : WebSocketManager.event) : bool :=
  match e with
  | WebSocketManager.Message _ message _ => brings_no_data message
  | _ => true
  end.

Lemma ps_step_keeps_empty (w w' : PriceStream.world) (e : PriceStream.event) :
  PriceStream.step w e = Some w' -> ps_no_data e = true ->
  items (PriceStream.price_data w) = [] -> items (PriceStream.price_data w') = [].
Proof.
  intros Hs Hn He. destruct e as [sym| | | | | | | | | | | | ].
  - cbn [PriceStream.step] in Hs.
    destruct (PriceStream.running w
              && bool_decide (PriceStream.current_symbol w = Some sym)) eqn:Hg.
    + unfold PriceStream.start in Hs. rewrite Hg in Hs. by simplify_eq/=.
    + destruct (ps_start_spec w sym Hg) as (w1 & Hs1 & Hi & _).
      rewrite Hs1 in Hs. by simplify_eq/=.
  - cbn [PriceStream.step] in Hs.
    destruct (ps_stop_spec w) as (w1 & Hs1 & Hd & _).
    rewrite Hs1 in Hs. simplify_eq/=. by rewrite Hd.
  - cbn [PriceStream.step] in Hs. split_cases. done.
  - cbn [PriceStream.step] in Hs.
      unfold PriceStream._cleanup, PriceStream.run_set_stop_event,
        PriceStream.cancel_task, PriceStream.close_conn, PriceStream.update_unit in Hs.
      split_cases; done.
  - cbn [PriceStream.step] in Hs. unfold PriceStream.leave in Hs. split_cases; done.
  - cbn [PriceStream.step] in Hs. split_cases. done.
  - cbn [PriceStream.step] in Hs. unfold PriceStream.on_error, PriceStream.leave in Hs.
    split_cases; done.
  - cbn [PriceStream.step ps_no_data] in Hs, Hn. unfold brings_no_data in Hn.
    unfold PriceStream.on_message, PriceStream.on_error, PriceStream.leave,
      PriceStream.break_receive in Hs.
    split_cases; done.
  - cbn [PriceStream.step] in Hs. split_cases. done.
  - cbn [PriceStream.step] in Hs. unfold PriceStream.on_error, PriceStream.leave in Hs.
    split_cases; done.
  - cbn [PriceStream.step] in Hs. split_cases. done.
  - cbn [PriceStream.step] in Hs. unfold PriceStream.leave in Hs. split_cases; done.
  - cbn [PriceStream.step] in Hs.
    unfold PriceStream.thread_exit, PriceStream.cancel_task, PriceStream.close_conn,
      PriceStream.update_unit in Hs.
    split_cases; done.
Qed.

Lemma ps_run_keeps_empty (es : list PriceStream.event) : forall w w',
  PriceStream.run w es = Some w' -> forallb ps_no_data es = true ->
  items (PriceStream.price_data w) = [] -> items (PriceStream.price_data w') = [].
Proof.
  induction es as [|e es IH]; intros w w' Hr Hn He; cbn [PriceStream.run forallb] in *.
  - by simplify_eq.
  - apply andb_prop in Hn as [Hn Hns].
    destruct (PriceStream.step w e) as [w1|] eqn:Hs; [|done].
    eapply IH; [done..|]. by eapply ps_step_keeps_empty.
Qed.
(** A manager that has seen no data: empty buffer, no cached price. *)
Definition wsm_blank (m : WebSocketManager.world) : Prop :=
  items (WebSocketManager._price_history m) = []
  /\ WebSocketManager._current_price m = None.

Lemma wsm_step_keeps_blank (m m' : WebSocketManager.world) (e : WebSocketManager.event) :
  WebSocketManager.step m e = Some m' -> wsm_no_data e = true ->
  wsm_blank m -> wsm_blank m'.
Proof.
  intros Hs Hn [He Hp]. unfold wsm_blank.
  destruct e as [sym now| | | | | | | | | | | | ].
  - cbn [WebSocketManager.step] in Hs.
    destruct (WebSocketManager._running m
              && bool_decide (WebSocketManager.get_symbol m = Some (lower sym))) eqn:Hg.
    + unfold WebSocketManager.start in Hs. unfold WebSocketManager.get_symbol in Hg.
      rewrite Hg in Hs. by simplify_eq/=.
    + destruct (wsm_start_spec m sym now Hg) as (m1 & Hs1 & Hi & _ & Hp1 & _).
      rewrite Hs1 in Hs. simplify_eq/=. by rewrite Hp1.
  - cbn [WebSocketManager.step] in Hs.
    destruct (wsm_stop_spec m) as (m1 & Hs1 & Hd & Hp1 & _).
    rewrite Hs1 in Hs. simplify_eq/=. by rewrite Hd, Hp1.
  - cbn [WebSocketManager.step] in Hs. split_cases. done.
  - cbn [WebSocketManager.step] in Hs. split_cases; done.
  - cbn [WebSocketManager.step] in Hs. unfold WebSocketManager.leave in Hs.
    split_cases; done.
  - cbn [WebSocketManager.step] in Hs. split_cases. done.
  - cbn [WebSocketManager.step] in Hs.
    unfold WebSocketManager.on_error, WebSocketManager.leave in Hs. split_cases; done.
  - cbn [WebSocketManager.step wsm_no_data] in Hs, Hn. unfold brings_no_data in Hn.
    unfold WebSocketManager.on_message, WebSocketManager.end_receive in Hs.
    split_cases; done.
  - cbn [WebSocketManager.step] in Hs. split_cases. done.
  - cbn [WebSocketManager.step] in Hs.
    unfold WebSocketManager.on_error, WebSocketManager.leave in Hs. split_cases; done.
  - cbn [WebSocketManager.step] in Hs. split_cases. done.
  - cbn [WebSocketManager.step] in Hs. unfold WebSocketManager.leave in Hs.
    split_cases; done.
  - cbn [WebSocketManager.step] in Hs. unfold WebSocketManager.thread_exit in Hs.
    split_cases; done.
Qed.

Lemma wsm_run_keeps_blank (es : list WebSocketManager.event) : forall m m',
  WebSocketManager.run m es = Some m' -> forallb wsm_no_data es = true ->
  wsm_blank m -> wsm_blank m'.
Proof.
  induction es as [|e es IH]; intros m m' Hr Hn He;
    cbn [WebSocketManager.run forallb] in *.
  - by simplify_eq.
  - apply andb_prop in Hn as [Hn Hns].
    destruct (WebSocketManager.step m e) as [m1|] eqn:Hs; [|done].
    eapply IH; [done..|]. by eapply wsm_step_keeps_blank.
Qed.

(** C9. Before any [start()], and after any calls and background steps in
    which no frame that parses has been delivered, the read accessors return
    their sentinels without raising: [get_latest_price()] returns [None] and
    [get_series()] returns [([], [])] in both clients, and
    [get_price_change(window_seconds)] returns [None] for every window and
    every reading of the clock. *)
Theorem C9_sentinels_before_data
        (n n' : nat) (cb : bool) (t0 : float)
        (es : list PriceStream.event) (es' : list WebSocketManager.event)
        (w : PriceStream.world) (m : WebSocketManager.world) :
  PriceStream.run (PriceStream.init n) es = Some w ->
  forallb ps_no_data es = true ->
  WebSocketManager.run (WebSocketManager.init n' cb t0) es' = Some m ->
  forallb wsm_no_data es' = true ->
  PriceStream.get_latest_price w = None
  /\ PriceStream.get_series w = ([], [])
  /\ (forall (current_time : float) (window_seconds : Z),
        PriceStream.get_price_change w current_time window_seconds = Return None)
  /\ WebSocketManager.get_latest_price m = None
  /\ WebSocketManager.get_series m = ([], []).
Proof.
  intros Hw Hn Hm Hn'.
  assert (He : items (PriceStream.price_data w) = [])
    by (by eapply ps_run_keeps_empty).
  assert (Hb : wsm_blank m) by (by eapply wsm_run_keeps_blank).
  destruct Hb as [He' Hp].
  unfold PriceStream.get_latest_price, PriceStream.get_series,
    PriceStream.get_price_change, WebSocketManager.get_latest_price,
    WebSocketManager.get_series, deque_len.
  rewrite He, He', Hp. done.
Qed.
End before_data.

(** A session that is connected but has only received malformed frames. *)
Definition ps_no_data_session : list PriceStream.event :=
  [PriceStream.CallStart "ETHUSDT"; PriceStream.ThreadRun 0; PriceStream.Resume 0;
   PriceStream.ConnectOk 0; PriceStream.Message 0 (NotJSON "pong");
   PriceStream.Message 0 (trade_frame "n/a" 1000)].

Definition wsm_no_data_session : list WebSocketManager.event :=
  [WebSocketManager.CallStart "ETHUSDT" 0; WebSocketManager.ThreadRun 0;
   WebSocketManager.Resume 0; WebSocketManager.ConnectOk 0 0;
   WebSocketManager.Message 0 (NotJSON "pong") 1; WebSocketManager.CallStop].

Definition ps_no_data_world : PriceStream.world :=
  Eval vm_compute in
  default (PriceStream.init 300)
          (@PriceStream.run plain_runtime (PriceStream.init 300) ps_no_data_session).

Definition wsm_no_data_world : WebSocketManager.world :=
  Eval vm_compute in
  default (WebSocketManager.init 600 true 0)
          (@WebSocketManager.run plain_runtime (WebSocketManager.init 600 true 0)
                                 wsm_no_data_session).

Lemma C9_sentinels_before_data_witness :
  PriceStream.u_pc <$> PriceStream.units ps_no_data_world !! 0%nat
  = Some (PriceStream.Receiving 0 2)
  /\ PriceStream.get_latest_price ps_no_data_world = None
  /\ PriceStream.get_series ps_no_data_world = ([], [])
  /\ (forall (current_time : float) (window_seconds : Z),
        PriceStream.get_price_change ps_no_data_world current_time window_seconds
        = Return None)
  /\ WebSocketManager.get_latest_price wsm_no_data_world = None
  /\ WebSocketManager.get_series wsm_no_data_world = ([], []).
Proof.
  split; [vm_compute; reflexivity|].
  apply (@C9_sentinels_before_data plain_runtime 300 600 true 0
           ps_no_data_session wsm_no_data_session);
    vm_compute; reflexivity.
Defined.

(** ** The cached latest price of the manager *)

(** C10, as stated, fails in one point: after a [stop()] alone the cached
    price is kept, but so is the buffer, and [get_series()] does not
    return [([], [])]. *)
Lemma C10_series_after_stop :
  WebSocketManager.get_latest_price
    <$> @WebSocketManager.run plain_runtime (WebSocketManager.init 600 true 0)
          (wsm_eth_session ++ [WebSocketManager.CallStop])
  = Some (Some 100%float)
  /\ WebSocketManager.get_series
       <$> @WebSocketManager.run plain_runtime (WebSocketManager.init 600 true 0)
             (wsm_eth_session ++ [WebSocketManager.CallStop])
     <> Some ([], []).
Proof. split; [reflexivity|]. vm_compute. discriminate. Qed.

Section cached_price.
Context `{Runtime}.

(** No call and no step of a unit touches the cached price, and none puts
    a sample into an empty buffer, except the delivery of a frame that
    parses. *)
Lemma wsm_step_keeps_cache (m m' : WebSocketManager.world) (e : WebSocketManager.event) :
  WebSocketManager.step m e = Some m' -> wsm_no_data e = true ->
  WebSocketManager._current_price m' = WebSocketManager._current_price m
  /\ (items (WebSocketManager._price_history m) = [] ->
      items (WebSocketManager._price_history m') = []).
Proof.
  intros Hs Hn.
  destruct e as [sym now| | | | | | | | | | | | ].
  - cbn [WebSocketManager.step] in Hs.
    destruct (WebSocketManager._running m
              && bool_decide (WebSocketManager.get_symbol m = Some (lower sym))) eqn:Hg.
    + unfold WebSocketManager.start in Hs. unfold WebSocketManager.get_symbol in Hg.
      rewrite Hg in Hs. by simplify_eq/=.
    + destruct (wsm_start_spec m sym now Hg) as (m1 & Hs1 & Hi & _ & Hp1 & _).
      rewrite Hs1 in Hs. by simplify_eq/=.
  - cbn [WebSocketManager.step] in Hs.
    destruct (wsm_stop_spec m) as (m1 & Hs1 & Hd & Hp1 & _).
    rewrite Hs1 in Hs. simplify_eq/=. by rewrite Hd, Hp1.
  - cbn [WebSocketManager.step] in Hs. split_cases. done.
  - cbn [WebSocketManager.step] in Hs. split_cases; done.
  - cbn [WebSocketManager.step] in Hs. unfold WebSocketManager.leave in Hs.
    split_cases; done.
  - cbn [WebSocketManager.step] in Hs. split_cases. done.
  - cbn [WebSocketManager.step] in Hs.
    unfold WebSocketManager.on_error, WebSocketManager.leave in Hs. split_cases; done.
  - cbn [WebSocketManager.step wsm_no_data] in Hs, Hn. unfold brings_no_data in Hn.
    unfold WebSocketManager.on_message, WebSocketManager.end_receive in Hs.
    split_cases; done.
  - cbn [WebSocketManager.step] in Hs. split_cases. done.
  - cbn [WebSocketManager.step] in Hs.
    unfold WebSocketManager.on_error, WebSocketManager.leave in Hs. split_cases; done.
  - cbn [WebSocketManager.step] in Hs. split_cases. done.
  - cbn [WebSocketManager.step] in Hs. unfold WebSocketManager.leave in Hs.
    split_cases; done.
  - cbn [WebSocketManager.step] in Hs. unfold WebSocketManager.thread_exit in Hs.
    split_cases; done.
Qed.

Lemma wsm_run_keeps_cache (es : list WebSocketManager.event) : forall m m',
  WebSocketManager.run m es = Some m' -> forallb wsm_no_data es = true ->
  WebSocketManager._current_price m' = WebSocketManager._current_price m
  /\ (items (WebSocketManager._price_history m) = [] ->
      items (WebSocketManager._price_history m') = []).
Proof.
  induction es as [|e es IH]; intros m m' Hr Hn;
    cbn [WebSocketManager.run forallb] in *.
  - by simplify_eq.
  - apply andb_prop in Hn as [Hn Hns].
    destruct (WebSocketManager.step m e) as [m1|] eqn:Hs; [|done].
    destruct (wsm_step_keeps_cache m m1 e Hs Hn) as [Hp He].
    destruct (IH m1 m' Hr Hns) as [Hp' He'].
    split; [congruence|auto].
Qed.

(** The accessors of a manager with an empty buffer and the cached price
    [price], in every state reached from it without a frame that parses. *)
Lemma wsm_stale_price_persists (m m' : WebSocketManager.world) (price : float)
      (es : list WebSocketManager.event) :
  WebSocketManager.get_latest_price m = Some price ->
  WebSocketManager.get_series m = ([], []) ->
  forallb wsm_no_data es = true ->
  WebSocketManager.run m es = Some m' ->
  WebSocketManager.get_latest_price m' = Some price
  /\ WebSocketManager.get_series m' = ([], []).
Proof.
  unfold WebSocketManager.get_latest_price, WebSocketManager.get_series.
  intros Hp Hs Hn Hr. destruct (wsm_run_keeps_cache es m m' Hr Hn) as [Hp' He].
  rewrite Hp', Hp. split; [done|]. rewrite He; [done|].
  by destruct (items (WebSocketManager._price_history m)).
Qed.

(** C10, amended. [get_latest_price()] reads the cached [_current_price],
    which neither [stop()] nor [start()] resets. After a [stop()] it still
    returns the last price of the stopped session, and [get_series()]
    still returns that session's samples. After a [start()] that begins a
    new session (a symbol switch, or a start that follows the [stop()]) it
    still returns that price although [get_series()] returns [([], [])]:
    so it is when [start()] returns, and so it stays through every call and
    every step of a background unit until a unit processes a frame that
    parses. *)
Theorem C10_latest_price_survives_sessions
        (m : WebSocketManager.world) (price : float) (symbol : string) (now : float) :
  WebSocketManager._current_price m = Some price ->
  WebSocketManager.get_latest_price m = Some price
  /\ (exists m', WebSocketManager.stop m = Return m'
        /\ WebSocketManager.get_latest_price m' = Some price
        /\ WebSocketManager.get_series m' = WebSocketManager.get_series m
        /\ exists m'', WebSocketManager.start m' symbol now = Return m''
             /\ WebSocketManager.get_latest_price m'' = Some price
             /\ WebSocketManager.get_series m'' = ([], [])
             /\ forall es m3,
                  forallb wsm_no_data es = true ->
                  WebSocketManager.run m'' es = Some m3 ->
                  WebSocketManager.get_latest_price m3 = Some price
                  /\ WebSocketManager.get_series m3 = ([], []))
  /\ (WebSocketManager._running m
        && bool_decide (WebSocketManager.get_symbol m = Some (lower symbol)) = false ->
      exists m', WebSocketManager.start m symbol now = Return m'
        /\ WebSocketManager.get_latest_price m' = Some price
        /\ WebSocketManager.get_series m' = ([], [])
        /\ forall es m3,
             forallb wsm_no_data es = true ->
             WebSocketManager.run m' es = Some m3 ->
             WebSocketManager.get_latest_price m3 = Some price
             /\ WebSocketManager.get_series m3 = ([], [])).
Proof.
  intros Hp.
  assert (Hstart : forall m0,
             WebSocketManager._current_price m0 = Some price ->
             WebSocketManager._running m0
             && bool_decide (WebSocketManager.get_symbol m0 = Some (lower symbol)) = false ->
             exists m', WebSocketManager.start m0 symbol now = Return m'
               /\ WebSocketManager.get_latest_price m' = Some price
               /\ WebSocketManager.get_series m' = ([], [])
               /\ forall es m3,
                    forallb wsm_no_data es = true ->
                    WebSocketManager.run m' es = Some m3 ->
                    WebSocketManager.get_latest_price m3 = Some price
                    /\ WebSocketManager.get_series m3 = ([], [])).
  { intros m0 Hp0 Hg.
    destruct (wsm_start_spec m0 symbol now Hg) as (m' & Hs' & Hi & _ & Hp'' & _).
    assert (Hl : WebSocketManager.get_latest_price m' = Some price)
      by (unfold WebSocketManager.get_latest_price; by rewrite Hp'').
    assert (Hse : WebSocketManager.get_series m' = ([], []))
      by (unfold WebSocketManager.get_series; by rewrite Hi).
    exists m'. repeat split; try done; by eapply wsm_stale_price_persists. }
  split; [done|]. split.
  - destruct (wsm_stop_spec m) as (m' & Hs & Hd & Hp' & Hr & _).
    exists m'. unfold WebSocketManager.get_latest_price at 1,
      WebSocketManager.get_series at 1 2.
    rewrite Hd, Hp'. repeat split; try done.
    apply Hstart; [by rewrite Hp'|by rewrite Hr].
  - intros Hg. by apply Hstart.
Qed.
End cached_price.

(** The manager right after the switch from ETHUSDT to BTCUSDT. *)
Definition wsm_switched_world : WebSocketManager.world :=
  Eval vm_compute in
  default wsm_eth_world
          (@WebSocketManager.run plain_runtime wsm_eth_world
             [WebSocketManager.CallStart "BTCUSDT" 2]).

Lemma C10_latest_price_survives_sessions_witness :
  WebSocketManager._current_price wsm_eth_world = Some 100%float
  /\ WebSocketManager.start wsm_eth_world "BTCUSDT" 2 = Return wsm_switched_world
  /\ WebSocketManager.get_latest_price wsm_switched_world = Some 100%float
  /\ WebSocketManager.get_series wsm_switched_world = ([], [])
  /\ exists m3,
       @WebSocketManager.run plain_runtime wsm_switched_world
         [WebSocketManager.ThreadRun 1; WebSocketManager.Resume 1;
          WebSocketManager.ConnectOk 1 3;
          WebSocketManager.Message 1 (NotJSON "pong") 4] = Some m3
       /\ WebSocketManager.get_latest_price m3 = Some 100%float
       /\ WebSocketManager.get_series m3 = ([], []).
Proof.
  assert (Hp : WebSocketManager._current_price wsm_eth_world = Some 100%float)
    by (vm_compute; reflexivity).
  assert (Hg : WebSocketManager._running wsm_eth_world
               && bool_decide (WebSocketManager.get_symbol wsm_eth_world
                               = Some (lower "BTCUSDT")) = false)
    by (vm_compute; reflexivity).
  assert (Hst : WebSocketManager.start wsm_eth_world "BTCUSDT" 2
                = Return wsm_switched_world) by (vm_compute; reflexivity).
  destruct (proj2 (proj2 (@C10_latest_price_survives_sessions plain_runtime
                            wsm_eth_world 100 "BTCUSDT" 2 Hp)) Hg)
    as (m' & Hs & Hl & Hse & Hall).
  rewrite Hst in Hs. injection Hs as <-.
  split; [exact Hp|]. split; [exact Hst|]. split; [exact Hl|]. split; [exact Hse|].
  eexists. split; [vm_compute; reflexivity|].
  apply (Hall [WebSocketManager.ThreadRun 1; WebSocketManager.Resume 1;
               WebSocketManager.ConnectOk 1 3;
               WebSocketManager.Message 1 (NotJSON "pong") 4]);
    vm_compute; reflexivity.
Defined.

(** ** The backoff schedule *)

(** [backoff = min(backoff * 2, max_backoff)], on ints and on floats. *)
Definition next_backoff (b : Z) : Z := Z.min (b * 2) 30.
Definition next_backoff_float (b : float) : float := float_min (b * 2) 30.

(** One failed attempt that is waited out: the [while] condition holds,
    [websockets.connect] raises, the backoff wait times out. *)
Definition ps_failed_round (i : nat) (e : exn) : list PriceStream.event :=
  [PriceStream.Resume i; PriceStream.ConnectFail i e; PriceStream.WaitTimeout i].

Definition wsm_failed_round (j : nat) (e : exn) : list WebSocketManager.event :=
  [WebSocketManager.Resume j; WebSocketManager.ConnectFail j e;
   WebSocketManager.WaitTimeout j].

(** Unit [i] of a [PriceStream] is at the head of its reconnect loop with
    [backoff = b], in a session that still wants its symbol: [running] is
    set, the stop event is there and not set, the symbol is the unit's. *)
Definition ps_retrying (w : PriceStream.world) (i : nat) (b : Z) : Prop :=
  exists u ev,
    PriceStream.units w !! i = Some u
    /\ PriceStream.u_pc u = PriceStream.AtWhile
    /\ PriceStream.u_backoff u = b
    /\ PriceStream.running w = true
    /\ PriceStream._stop_event w = Some ev
    /\ PriceStream.stop_is_set w = false
    /\ PriceStream.current_symbol w = Some (PriceStream.u_symbol u).

(** The same unit while its handshake is in flight. *)
Definition ps_connecting (w : PriceStream.world) (i : nat) (b : Z) : Prop :=
  exists u ev,
    PriceStream.units w !! i = Some u
    /\ PriceStream.u_pc u = PriceStream.Connecting
    /\ PriceStream.u_backoff u = b
    /\ PriceStream.running w = true
    /\ PriceStream._stop_event w = Some ev
    /\ PriceStream.stop_is_set w = false
    /\ PriceStream.current_symbol w = Some (PriceStream.u_symbol u).

(** Unit [j] of a [WebSocketManager] at the head of its reconnect loop
    with [backoff = b], in a session that has not been stopped. *)
Definition wsm_retrying (m : WebSocketManager.world) (j : nat) (b : float) : Prop :=
  exists u,
    WebSocketManager.units m !! j = Some u
    /\ WebSocketManager.u_pc u = WebSocketManager.AtWhile
    /\ WebSocketManager.u_backoff u = b
    /\ WebSocketManager._running m = true
    /\ WebSocketManager.stop_is_set m = false.

Definition wsm_connecting (m : WebSocketManager.world) (j : nat) (b : float) : Prop :=
  exists u,
    WebSocketManager.units m !! j = Some u
    /\ WebSocketManager.u_pc u = WebSocketManager.Connecting
    /\ WebSocketManager.u_backoff u = b
    /\ WebSocketManager._running m = true
    /\ WebSocketManager.stop_is_set m = false.

(** The wait that unit [i] is in, if it is in one. *)
Definition ps_wait (w : PriceStream.world) (i : nat) : option Z :=
  match PriceStream.u_pc <$> PriceStream.units w !! i with
  | Some (PriceStream.BackoffWait _ timeout) => Some timeout
  | _ => None
  end.

Definition wsm_wait (m : WebSocketManager.world) (j : nat) : option float :=
  match WebSocketManager.u_pc <$> WebSocketManager.units m !! j with
  | Some (WebSocketManager.BackoffWait _ timeout) => Some timeout
  | _ => None
  end.

(** The schedule in closed form. *)
Lemma next_backoff_iter (k : nat) :
  Nat.iter k next_backoff 1%Z = Z.min (2 ^ Z.of_nat k) 30.
Proof.
  induction k as [|k IH]; [reflexivity|].
  rewrite Nat.iter_succ, IH, Nat2Z.inj_succ, Z.pow_succ_r by lia.
  unfold next_backoff.
  assert (0 < 2 ^ Z.of_nat k)%Z by (apply Z.pow_pos_nonneg; lia).
  lia.
Qed.

Lemma next_backoff_float_iter (k : nat) :
  Nat.iter k next_backoff_float 1%float = Z2float (Z.min (2 ^ Z.of_nat k) 30).
Proof.
  assert (Hcap : forall n, Nat.iter n next_backoff_float 30%float = 30%float).
  { induction n as [|n IH]; [reflexivity|]. rewrite Nat.iter_succ, IH. reflexivity. }
  destruct (Nat.lt_ge_cases k 5) as [Hlt|Hge].
  - do 5 (destruct k as [|k]; [reflexivity|]). lia.
  - destruct (Nat.le_exists_sub 5 k Hge) as (n & -> & _).
    rewrite Nat.iter_add.
    change (Nat.iter 5 next_backoff_float 1%float) with 30%float. rewrite Hcap.
    replace (Z.min (2 ^ Z.of_nat (n + 5)) 30) with 30%Z; [reflexivity|].
    assert (2 ^ 5 <= 2 ^ Z.of_nat (n + 5))%Z by (apply Z.pow_le_mono_r; lia).
    change (2 ^ 5)%Z with 32%Z in *. lia.
Qed.

Section price_stream_backoff.
Import PriceStream.
Context `{Runtime}.
Implicit Types (w : world) (i : nat) (b : Z) (e : exn).

Lemma ps_update_unit_lookup w i f :
  units (update_unit i f w) !! i = f <$> units w !! i.
Proof. unfold update_unit. cbn. apply list_lookup_alter_eq. Qed.

(** Moving the program counter or the backoff of a unit sets no event. *)
Lemma ps_update_unit_event w i f ev :
  (forall u, ev_set (f u) = ev_set u) ->
  from_option ev_set false (units (update_unit i f w) !! ev)
  = from_option ev_set false (units w !! ev).
Proof.
  intros Hf. unfold update_unit. cbn. rewrite list_lookup_alter.
  case_decide; [subst|done]. destruct (units w !! ev); cbn; [apply Hf|done].
Qed.

Lemma ps_update_unit_stop_is_set w i f :
  (forall u, ev_set (f u) = ev_set u) ->
  stop_is_set (update_unit i f w) = stop_is_set w.
Proof.
  intros Hf. unfold stop_is_set. cbn [_stop_event update_unit set_units].
  destruct (_stop_event w) as [ev|]; [|done]. by apply ps_update_unit_event.
Qed.

(** A failed attempt waits for the current backoff, and the wait, timing
    out, doubles it up to the cap. *)
Lemma ps_failed_attempt w i b e :
  ps_retrying w i b ->
  exists w2, run w [Resume i; ConnectFail i e] = Some w2
    /\ ps_wait w2 i = Some b
    /\ exists w', step w2 (WaitTimeout i) = Some w'
         /\ ps_retrying w' i (next_backoff b).
Proof.
  intros (u & ev & Hu & Hpc & Hb & Hr & Hev & Hst & Hs).
  set (w1 := update_unit i (set_pc Connecting) w).
  set (w2 := update_unit i (set_pc (BackoffWait (Some ev) b)) w1).
  set (w' := update_unit i
               (fun u => set_pc AtWhile (set_backoff (Z.min (u_backoff u * 2) 30) u)) w2).
  assert (H1 : step w (Resume i) = Some w1).
  { cbn [step]. by rewrite Hu, Hpc, Hr, Hst. }
  assert (Hu1 : units w1 !! i = Some (set_pc Connecting u)).
  { unfold w1. by rewrite ps_update_unit_lookup, Hu. }
  assert (Hst1 : stop_is_set w1 = false).
  { unfold w1. by rewrite ps_update_unit_stop_is_set. }
  assert (H2 : step w1 (ConnectFail i e) = Some w2).
  { assert (Hr1 : running w1 = true) by exact Hr.
    assert (Hs1 : current_symbol w1 = Some (u_symbol (set_pc Connecting u))) by exact Hs.
    assert (Hev1 : _stop_event w1 = Some ev) by exact Hev.
    assert (Hb1 : u_backoff (set_pc Connecting u) = b) by exact Hb.
    cbn [step]. rewrite Hu1. cbn [u_pc set_pc]. unfold on_error.
    by rewrite Hst1, Hr1, Hs1, bool_decide_eq_true_2, Hev1, Hb1. }
  assert (Hu2 : units w2 !! i = Some (set_pc (BackoffWait (Some ev) b) (set_pc Connecting u))).
  { unfold w2. by rewrite ps_update_unit_lookup, Hu1. }
  assert (Hev2 : from_option ev_set false (units w2 !! ev) = false).
  { unfold w2, w1. rewrite !ps_update_unit_event by done.
    unfold stop_is_set in Hst. by rewrite Hev in Hst. }
  assert (H3 : step w2 (WaitTimeout i) = Some w').
  { cbn [step]. rewrite Hu2. cbn [u_pc set_pc]. by rewrite Hev2. }
  exists w2. split; [cbn [run]; by rewrite H1, H2|]. split.
  { unfold ps_wait. by rewrite Hu2. }
  exists w'. split; [done|].
  eexists _, ev. split; [unfold w'; by rewrite ps_update_unit_lookup, Hu2|].
  cbn. rewrite Hb. repeat split; try done.
  unfold w', w2. rewrite !ps_update_unit_stop_is_set by done. exact Hst1.
Qed.

(** After [length es] failed rounds the next failed attempt waits for the
    backoff doubled that many times. *)
Lemma ps_failed_rounds es : forall w i b e,
  ps_retrying w i b ->
  exists w', run w (concat (ps_failed_round i <$> es)
                    ++ [Resume i; ConnectFail i e]) = Some w'
    /\ ps_wait w' i = Some (Nat.iter (length es) next_backoff b).
Proof.
  induction es as [|e0 es IH]; intros w i b e Hw.
  - destruct (ps_failed_attempt w i b e Hw) as (w2 & Hrun & Hwait & _). by exists w2.
  - destruct (ps_failed_attempt w i b e0 Hw) as (w2 & Hrun & _ & w1 & Hstep & Hw1).
    destruct (IH w1 i (next_backoff b) e Hw1) as (w' & Hrun' & Hwait').
    exists w'. split.
    + cbn [fmap list_fmap concat ps_failed_round app run] in *.
      destruct (step w (Resume i)) as [wa|]; [|done].
      destruct (step wa (ConnectFail i e0)) as [wb|]; [|done].
      simplify_eq. by rewrite Hstep.
    + rewrite Hwait'. cbn [length]. by rewrite Nat.iter_succ_r.
Qed.
(** A successful connection puts the backoff back to 1: when the
    connection later ends, the unit is at the head of its loop with
    [backoff = 1]. *)
Lemma ps_connect_resets w i b :
  ps_connecting w i b ->
  exists w1, run w [ConnectOk i; EndOfStream i] = Some w1 /\ ps_retrying w1 i 1.
Proof.
  intros (u & ev & Hu & Hpc & Hb & Hr & Hev & Hst & Hs).
  set (c := length (conns w)).
  set (wa := update_unit i (fun u => set_pc (Receiving c 0) (set_backoff 1 u))
               (set_websocket (Some c) (set_conns (conns w ++ [true]) w))).
  assert (H1 : step w (ConnectOk i) = Some wa).
  { cbn [step]. by rewrite Hu, Hpc. }
  assert (Hua : units wa !! i = Some (set_pc (Receiving c 0) (set_backoff 1 u))).
  { unfold wa. rewrite ps_update_unit_lookup. cbn. by rewrite Hu. }
  assert (Hsta : stop_is_set wa = false).
  { unfold wa. rewrite ps_update_unit_stop_is_set by done. exact Hst. }
  exists (break_receive i c wa). split.
  { cbn [run]. rewrite H1. cbn [step]. by rewrite Hua. }
  unfold break_receive. eexists _, ev.
  split; [rewrite ps_update_unit_lookup;
          change (units (close_conn c wa)) with (units wa); by rewrite Hua|].
  repeat split; try done.
  rewrite ps_update_unit_stop_is_set by done. exact Hsta.
Qed.

(** A unit enters its loop with [backoff = 1]. *)
Lemma ps_thread_run_starts w i u :
  units w !! i = Some u -> u_pc u = Created -> ev_set u = false ->
  running w = true -> current_symbol w = Some (u_symbol u) ->
  exists w1, step w (ThreadRun i) = Some w1 /\ ps_retrying w1 i 1.
Proof.
  intros Hu Hpc Hev Hr Hs. eexists. cbn [step]. rewrite Hu, Hpc.
  split; [reflexivity|]. eexists _, i.
  split; [by rewrite ps_update_unit_lookup; cbn; rewrite Hu|].
  repeat split; try done.
  unfold stop_is_set. cbn [_stop_event update_unit set_units set_connection_task
                           set_stop_event].
  rewrite ps_update_unit_event by done. cbn. by rewrite Hu.
Qed.
End price_stream_backoff.

Section manager_backoff.
Import WebSocketManager.
Context `{Runtime}.
Implicit Types (m : world) (j : nat) (b : float) (e : exn).

Lemma wsm_update_unit_lookup m j f :
  units (update_unit j f m) !! j = f <$> units m !! j.
Proof. unfold update_unit. cbn. apply list_lookup_alter_eq. Qed.

Lemma wsm_update_unit_event m j f ev :
  (forall u, ev_set (f u) = ev_set u) ->
  from_option ev_set false (units (update_unit j f m) !! ev)
  = from_option ev_set false (units m !! ev).
Proof.
  intros Hf. unfold update_unit. cbn. rewrite list_lookup_alter.
  case_decide; [subst|done]. destruct (units m !! ev); cbn; [apply Hf|done].
Qed.

Lemma wsm_update_unit_stop_is_set m j f :
  (forall u, ev_set (f u) = ev_set u) ->
  stop_is_set (update_unit j f m) = stop_is_set m.
Proof.
  intros Hf. unfold stop_is_set. cbn [_stop_event update_unit set_units].
  destruct (_stop_event m) as [ev|]; [|done]. by apply wsm_update_unit_event.
Qed.

(** The second [except] clause of [_websocket_handler] on a running
    manager. *)
Lemma wsm_on_error_backoff m j u e :
  e <> ConnectionClosedError -> _running m = true ->
  on_error j u e m
  = update_unit j (set_pc (BackoffWait (_stop_event m) (u_backoff u)))
      (update_state (fun cs => set_error_count (error_count cs + 1) cs)
         (update_state (set_status "Error") m)).
Proof. intros He Hr. unfold on_error. rewrite Hr. by destruct e. Qed.

Lemma wsm_failed_attempt m j b e :
  e <> ConnectionClosedError ->
  wsm_retrying m j b ->
  exists m2, run m [Resume j; ConnectFail j e] = Some m2
    /\ wsm_wait m2 j = Some b
    /\ error_count (_connection_state m2) = (error_count (_connection_state m) + 1)%Z
    /\ exists m', step m2 (WaitTimeout j) = Some m'
         /\ wsm_retrying m' j (next_backoff_float b).
Proof.
  intros He (u & Hu & Hpc & Hb & Hr & Hst).
  set (m1 := update_unit j (set_pc Connecting) (update_state (set_status "Connecting") m)).
  set (m2 := on_error j (set_pc Connecting u) e m1).
  assert (H1 : step m (Resume j) = Some m1).
  { cbn [step]. by rewrite Hu, Hpc, Hr, Hst. }
  assert (Hu1 : units m1 !! j = Some (set_pc Connecting u)).
  { unfold m1. rewrite wsm_update_unit_lookup. cbn. by rewrite Hu. }
  assert (Hst1 : stop_is_set m1 = false).
  { unfold m1. rewrite wsm_update_unit_stop_is_set by done. exact Hst. }
  assert (H2 : step m1 (ConnectFail j e) = Some m2).
  { cbn [step]. by rewrite Hu1. }
  assert (Hm2 : m2 = update_unit j (set_pc (BackoffWait (_stop_event m) b))
                       (update_state (fun cs => set_error_count (error_count cs + 1) cs)
                          (update_state (set_status "Error") m1))).
  { unfold m2. rewrite wsm_on_error_backoff by done. cbn [u_backoff set_pc]. by rewrite Hb. }
  assert (Hu2 : units m2 !! j
                = Some (set_pc (BackoffWait (_stop_event m) b) (set_pc Connecting u))).
  { rewrite Hm2, wsm_update_unit_lookup. cbn [units update_state set_connection_state].
    by rewrite Hu1. }
  assert (Hst2 : stop_is_set m2 = false).
  { rewrite Hm2, wsm_update_unit_stop_is_set by done. exact Hst1. }
  assert (Hev2 : from_option
                   (fun ev => from_option ev_set false (units m2 !! ev)) false
                   (_stop_event m) = false).
  { unfold stop_is_set in Hst2. rewrite Hm2 in Hst2 |- *.
    cbn [_stop_event update_unit set_units update_state set_connection_state m1] in Hst2.
    destruct (_stop_event m); [exact Hst2|done]. }
  exists m2. split; [cbn [run]; by rewrite H1, H2|]. split.
  { unfold wsm_wait. by rewrite Hu2. }
  split; [by rewrite Hm2|].
  eexists. split.
  { cbn [step]. rewrite Hu2. cbn [u_pc set_pc]. rewrite Hev2. reflexivity. }
  eexists. split; [by rewrite wsm_update_unit_lookup, Hu2|].
  cbn [u_pc u_backoff set_pc set_backoff]. rewrite Hb.
  repeat split; try done.
  - by rewrite Hm2.
  - rewrite wsm_update_unit_stop_is_set by done. exact Hst2.
Qed.

Lemma wsm_failed_rounds es : forall m j b e,
  Forall (fun x => x <> ConnectionClosedError) (e :: es) ->
  wsm_retrying m j b ->
  exists m', run m (concat (wsm_failed_round j <$> es)
                    ++ [Resume j; ConnectFail j e]) = Some m'
    /\ wsm_wait m' j = Some (Nat.iter (length es) next_backoff_float b).
Proof.
  induction es as [|e0 es IH]; intros m j b e Hes Hm.
  - apply Forall_cons in Hes as [He _].
    destruct (wsm_failed_attempt m j b e He Hm) as (m2 & Hrun & Hwait & _). by exists m2.
  - apply Forall_cons in Hes as [He Hes]. apply Forall_cons in Hes as [He0 Hes].
    destruct (wsm_failed_attempt m j b e0 He0 Hm)
      as (m2 & Hrun & _ & _ & m1 & Hstep & Hm1).
    destruct (IH m1 j (next_backoff_float b) e) as (m' & Hrun' & Hwait');
      [by apply Forall_cons|done|].
    exists m'. split.
    + cbn [fmap list_fmap concat wsm_failed_round app run] in *.
      destruct (step m (Resume j)) as [ma|]; [|done].
      destruct (step ma (ConnectFail j e0)) as [mb|]; [|done].
      simplify_eq. by rewrite Hstep.
    + rewrite Hwait'. cbn [length]. by rewrite Nat.iter_succ_r.
Qed.

Lemma wsm_connect_resets m j b now :
  wsm_connecting m j b ->
  exists m1, run m [ConnectOk j now; EndOfStream j] = Some m1 /\ wsm_retrying m1 j 1.
Proof.
  intros (u & Hu & Hpc & Hb & Hr & Hst).
  set (c := length (conns m)).
  set (ma := update_unit j (fun u => set_pc (Receiving c) (set_backoff 1 u))
               (update_state (set_last_update now)
                  (update_state (set_status "Connected")
                     (set_websocket (Some c) (set_conns (conns m ++ [true]) m))))).
  assert (H1 : step m (ConnectOk j now) = Some ma).
  { cbn [step]. by rewrite Hu, Hpc. }
  assert (Hua : units ma !! j = Some (set_pc (Receiving c) (set_backoff 1 u))).
  { unfold ma. rewrite wsm_update_unit_lookup. cbn. by rewrite Hu. }
  assert (Hsta : stop_is_set ma = false).
  { unfold ma. rewrite wsm_update_unit_stop_is_set by done. exact Hst. }
  exists (end_receive j c ma). split.
  { cbn [run]. rewrite H1. cbn [step]. by rewrite Hua. }
  unfold end_receive. eexists.
  split; [rewrite wsm_update_unit_lookup;
          change (units (close_conn c ma)) with (units ma); by rewrite Hua|].
  repeat split; try done.
  rewrite wsm_update_unit_stop_is_set by done. exact Hsta.
Qed.

Lemma wsm_thread_run_starts m j u :
  units m !! j = Some u -> u_pc u = Created -> ev_set u = false ->
  _running m = true ->
  exists m1, step m (ThreadRun j) = Some m1 /\ wsm_retrying m1 j 1.
Proof.
  intros Hu Hpc Hev Hr. eexists. cbn [step]. rewrite Hu, Hpc.
  split; [reflexivity|]. eexists.
  split; [by rewrite wsm_update_unit_lookup; cbn; rewrite Hu|].
  repeat split; try done.
  unfold stop_is_set. cbn [_stop_event update_unit set_units set_stop_event].
  rewrite wsm_update_unit_event by done. cbn. by rewrite Hu.
Qed.
End manager_backoff.

Section receive_failures.
Context `{Runtime}.

(** A failure while receiving that is not a closed connection lands in the
    generic handler of [PriceStream] like a failed attempt, with the
    backoff that the connection has reset: the wait is 1. *)
Lemma ps_receive_failure_waits (w : PriceStream.world) (i : nat) (b : Z) (e : exn) :
  ps_connecting w i b -> connection_closed e = false ->
  exists w1, PriceStream.run w [PriceStream.ConnectOk i; PriceStream.RecvRaise i e]
             = Some w1
    /\ ps_wait w1 i = Some 1%Z.
Proof.
  intros (u & ev & Hu & Hpc & Hb & Hr & Hev & Hst & Hs) He.
  set (c := length (PriceStream.conns w)).
  set (wa := PriceStream.update_unit i
               (fun u => PriceStream.set_pc (PriceStream.Receiving c 0)
                           (PriceStream.set_backoff 1 u))
               (PriceStream.set_websocket (Some c)
                  (PriceStream.set_conns (PriceStream.conns w ++ [true]) w))).
  assert (H1 : PriceStream.step w (PriceStream.ConnectOk i) = Some wa).
  { cbn [PriceStream.step]. by rewrite Hu, Hpc. }
  assert (Hua : PriceStream.units wa !! i
                = Some (PriceStream.set_pc (PriceStream.Receiving c 0)
                          (PriceStream.set_backoff 1 u))).
  { unfold wa. rewrite ps_update_unit_lookup. cbn. by rewrite Hu. }
  assert (Hsta : PriceStream.stop_is_set (PriceStream.close_conn c wa) = false).
  { change (PriceStream.stop_is_set (PriceStream.close_conn c wa))
      with (PriceStream.stop_is_set wa).
    unfold wa. rewrite ps_update_unit_stop_is_set by done. exact Hst. }
  assert (Hra : PriceStream.running (PriceStream.close_conn c wa) = true) by exact Hr.
  assert (Hsa : PriceStream.current_symbol (PriceStream.close_conn c wa)
                = Some (PriceStream.u_symbol u)) by exact Hs.
  eexists. split.
  { cbn [PriceStream.run]. rewrite H1. cbn [PriceStream.step]. rewrite Hua.
    cbn [PriceStream.u_pc PriceStream.set_pc]. rewrite He. unfold PriceStream.on_error.
    rewrite Hra, Hsta, Hsa. cbn [PriceStream.u_symbol PriceStream.set_backoff].
    rewrite bool_decide_eq_true_2 by done. cbn [andb negb]. reflexivity. }
  unfold ps_wait. rewrite ps_update_unit_lookup.
  change (PriceStream.units (PriceStream.close_conn c wa)) with (PriceStream.units wa).
  by rewrite Hua.
Qed.

(** The same in [WebSocketManager], for every failure but
    [ConnectionClosedError]. *)
Lemma wsm_receive_failure_waits (m : WebSocketManager.world) (j : nat) (b now : float)
      (e : exn) :
  wsm_connecting m j b -> e <> ConnectionClosedError ->
  exists m1, WebSocketManager.run m [WebSocketManager.ConnectOk j now;
                                     WebSocketManager.RecvRaise j e] = Some m1
    /\ wsm_wait m1 j = Some 1%float.
Proof.
  intros (u & Hu & Hpc & Hb & Hr & Hst) He.
  set (c := length (WebSocketManager.conns m)).
  set (ma := WebSocketManager.update_unit j
               (fun u => WebSocketManager.set_pc (WebSocketManager.Receiving c)
                           (WebSocketManager.set_backoff 1 u))
               (WebSocketManager.update_state (WebSocketManager.set_last_update now)
                  (WebSocketManager.update_state (WebSocketManager.set_status "Connected")
                     (WebSocketManager.set_websocket (Some c)
                        (WebSocketManager.set_conns (WebSocketManager.conns m ++ [true])
                           m))))).
  assert (H1 : WebSocketManager.step m (WebSocketManager.ConnectOk j now) = Some ma).
  { cbn [WebSocketManager.step]. by rewrite Hu, Hpc. }
  assert (Hua : WebSocketManager.units ma !! j
                = Some (WebSocketManager.set_pc (WebSocketManager.Receiving c)
                          (WebSocketManager.set_backoff 1 u))).
  { unfold ma. rewrite wsm_update_unit_lookup. cbn. by rewrite Hu. }
  assert (Hra : WebSocketManager._running (WebSocketManager.close_conn c ma) = true)
    by exact Hr.
  eexists. split.
  { cbn [WebSocketManager.run]. rewrite H1. cbn [WebSocketManager.step]. rewrite Hua.
    cbn [WebSocketManager.u_pc WebSocketManager.set_pc].
    rewrite (wsm_on_error_backoff _ _ _ _ He Hra). reflexivity. }
  unfold wsm_wait. rewrite wsm_update_unit_lookup.
  change (WebSocketManager.units
            (WebSocketManager.update_state _
               (WebSocketManager.update_state _ (WebSocketManager.close_conn c ma))))
    with (WebSocketManager.units ma).
  by rewrite Hua.
Qed.

(** An abnormal close of the connection of a running manager has a clause
    of its own: no wait, the backoff as it is, back to the head of the
    loop. *)
Lemma wsm_abnormal_close_is_not_waited_for (m : WebSocketManager.world) (j c : nat)
      (u : WebSocketManager.unit_state) :
  wsm_receiving m j c -> WebSocketManager.units m !! j = Some u ->
  exists m1, WebSocketManager.step m (WebSocketManager.RecvRaise j ConnectionClosedError)
             = Some m1
    /\ wsm_wait m1 j = None
    /\ wsm_retrying m1 j (WebSocketManager.u_backoff u).
Proof.
  intros (u' & Hu' & Hpc & Hc & Hr & Hst) Hu. rewrite Hu in Hu'. injection Hu' as <-.
  assert (Hra : WebSocketManager._running (WebSocketManager.close_conn c m) = true)
    by exact Hr.
  eexists. split.
  { cbn [WebSocketManager.step]. rewrite Hu, Hpc. unfold WebSocketManager.on_error.
    rewrite Hra. cbn match. reflexivity. }
  assert (Hu1 : WebSocketManager.units
                  (WebSocketManager.update_unit j
                     (WebSocketManager.set_pc WebSocketManager.AtWhile)
                     (WebSocketManager.update_state
                        (WebSocketManager.set_status "Reconnecting")
                        (WebSocketManager.close_conn c m))) !! j
                = Some (WebSocketManager.set_pc WebSocketManager.AtWhile u)).
  { rewrite wsm_update_unit_lookup.
    change (WebSocketManager.units
              (WebSocketManager.update_state _ (WebSocketManager.close_conn c m)))
      with (WebSocketManager.units m).
    by rewrite Hu. }
  split; [unfold wsm_wait; by rewrite Hu1|].
  eexists. split; [exact Hu1|]. repeat split; try done.
  rewrite wsm_update_unit_stop_is_set by done. exact Hst.
Qed.
End receive_failures.

Section backoff_schedule.
Context `{Runtime}.

(** C4, amended. In both clients a unit enters its reconnect loop with a
    backoff of 1 and every successful connection puts it back to 1; from
    there, in a run of consecutive failed connection attempts whose waits
    time out, with the session still wanted, the wait before the
    reconnection that follows the [k]-th failure is [min(2^(k-1), 30)]
    seconds: 1, 2, 4, 8, 16, 30, 30, ... ([k - 1] is the number [length es]
    of failures already waited out.) A connection that was established and
    then fails with anything but a closed connection is waited for like a
    first failure, 1 second. The failures meant are those that reach the
    generic handler: an abnormal close of the manager's connection
    ([ConnectionClosedError]) has a clause of its own, which retries at once,
    with no wait and the backoff as it is. *)
Theorem C4_backoff_schedule
        (w : PriceStream.world) (m : WebSocketManager.world) (i j : nat)
        (es es' : list exn) (e e' : exn) :
  ps_retrying w i 1 ->
  wsm_retrying m j 1 ->
  Forall (fun x => x <> ConnectionClosedError) (e' :: es') ->
  (exists w', PriceStream.run w (concat (ps_failed_round i <$> es)
                                 ++ [PriceStream.Resume i; PriceStream.ConnectFail i e])
              = Some w'
     /\ ps_wait w' i = Some (Z.min (2 ^ Z.of_nat (length es)) 30))
  /\ (exists m', WebSocketManager.run m
                   (concat (wsm_failed_round j <$> es')
                    ++ [WebSocketManager.Resume j; WebSocketManager.ConnectFail j e'])
                 = Some m'
        /\ wsm_wait m' j = Some (Z2float (Z.min (2 ^ Z.of_nat (length es')) 30)))
  /\ (forall w0 b, ps_connecting w0 i b ->
        exists w1, PriceStream.run w0 [PriceStream.ConnectOk i; PriceStream.EndOfStream i]
                   = Some w1
          /\ ps_retrying w1 i 1)
  /\ (forall m0 b now, wsm_connecting m0 j b ->
        exists m1, WebSocketManager.run m0 [WebSocketManager.ConnectOk j now;
                                            WebSocketManager.EndOfStream j]
                   = Some m1
          /\ wsm_retrying m1 j 1)
  /\ (forall w0 u, PriceStream.units w0 !! i = Some u ->
        PriceStream.u_pc u = PriceStream.Created -> PriceStream.ev_set u = false ->
        PriceStream.running w0 = true ->
        PriceStream.current_symbol w0 = Some (PriceStream.u_symbol u) ->
        exists w1, PriceStream.step w0 (PriceStream.ThreadRun i) = Some w1
          /\ ps_retrying w1 i 1)
  /\ (forall m0 u, WebSocketManager.units m0 !! j = Some u ->
        WebSocketManager.u_pc u = WebSocketManager.Created ->
        WebSocketManager.ev_set u = false ->
        WebSocketManager._running m0 = true ->
        exists m1, WebSocketManager.step m0 (WebSocketManager.ThreadRun j) = Some m1
          /\ wsm_retrying m1 j 1)
  /\ (forall w0 b e0, ps_connecting w0 i b -> connection_closed e0 = false ->
        exists w1, PriceStream.run w0 [PriceStream.ConnectOk i; PriceStream.RecvRaise i e0]
                   = Some w1
          /\ ps_wait w1 i = Some 1%Z)
  /\ (forall m0 b now e0, wsm_connecting m0 j b -> e0 <> ConnectionClosedError ->
        exists m1, WebSocketManager.run m0 [WebSocketManager.ConnectOk j now;
                                            WebSocketManager.RecvRaise j e0]
                   = Some m1
          /\ wsm_wait m1 j = Some 1%float)
  /\ (forall m0 c u, wsm_receiving m0 j c -> WebSocketManager.units m0 !! j = Some u ->
        exists m1, WebSocketManager.step m0
                     (WebSocketManager.RecvRaise j ConnectionClosedError) = Some m1
          /\ wsm_wait m1 j = None
          /\ wsm_retrying m1 j (WebSocketManager.u_backoff u)).
Proof.
  intros Hw Hm Hes. repeat split.
  - destruct (ps_failed_rounds es w i 1%Z e Hw) as (w' & Hrun & Hwait).
    exists w'. by rewrite <- next_backoff_iter.
  - destruct (wsm_failed_rounds es' m j 1%float e' Hes Hm) as (m' & Hrun & Hwait).
    exists m'. by rewrite <- next_backoff_float_iter.
  - intros w0 b. apply ps_connect_resets.
  - intros m0 b now. apply wsm_connect_resets.
  - intros w0 u. apply ps_thread_run_starts.
  - intros m0 u. apply wsm_thread_run_starts.
  - intros w0 b e0. apply ps_receive_failure_waits.
  - intros m0 b now e0. apply wsm_receive_failure_waits.
  - intros m0 c u. apply wsm_abnormal_close_is_not_waited_for.
Qed.
End backoff_schedule.

(** C4, as stated, fails for a failure of an established connection. The
    connection of a running manager that has received a trade is closed
    abnormally: the unit is in no wait, of 1 second or any other (a wait can
    neither time out nor return), and its next step is the next
    [websockets.connect]. *)
Lemma C4_closed_connection_is_retried_without_wait :
  (fun m => (wsm_wait m 0, WebSocketManager.u_pc <$> WebSocketManager.units m !! 0%nat))
    <$> @WebSocketManager.run plain_runtime (WebSocketManager.init 600 true 0)
          (wsm_eth_session ++ [WebSocketManager.RecvRaise 0 ConnectionClosedError])
  = Some (None, Some WebSocketManager.AtWhile)
  /\ (fun m => wsm_wait m 0)
       <$> @WebSocketManager.run plain_runtime (WebSocketManager.init 600 true 0)
             (wsm_eth_session ++ [WebSocketManager.RecvRaise 0 ConnectionClosedError])
     <> Some (Some 1%float)
  /\ @WebSocketManager.run plain_runtime (WebSocketManager.init 600 true 0)
       (wsm_eth_session ++ [WebSocketManager.RecvRaise 0 ConnectionClosedError;
                            WebSocketManager.WaitTimeout 0]) = None
  /\ @WebSocketManager.run plain_runtime (WebSocketManager.init 600 true 0)
       (wsm_eth_session ++ [WebSocketManager.RecvRaise 0 ConnectionClosedError;
                            WebSocketManager.WaitDone 0]) = None
  /\ (fun m => WebSocketManager.u_pc <$> WebSocketManager.units m !! 0%nat)
       <$> @WebSocketManager.run plain_runtime (WebSocketManager.init 600 true 0)
             (wsm_eth_session ++ [WebSocketManager.RecvRaise 0 ConnectionClosedError;
                                  WebSocketManager.Resume 0])
     = Some (Some WebSocketManager.Connecting).
Proof. repeat split; try (vm_compute; reflexivity). vm_compute. discriminate. Qed.

(** Both clients right after [start("ETHUSDT")], their thread in its
    loop. *)
Definition ps_fresh_world : PriceStream.world :=
  Eval vm_compute in
  default (PriceStream.init 300)
          (@PriceStream.run plain_runtime (PriceStream.init 300)
             [PriceStream.CallStart "ETHUSDT"; PriceStream.ThreadRun 0]).

Definition wsm_fresh_world : WebSocketManager.world :=
  Eval vm_compute in
  default (WebSocketManager.init 600 true 0)
          (@WebSocketManager.run plain_runtime (WebSocketManager.init 600 true 0)
             [WebSocketManager.CallStart "ETHUSDT" 0; WebSocketManager.ThreadRun 0]).

Lemma C4_backoff_schedule_witness :
  (ps_retrying ps_fresh_world 0 1 /\ wsm_retrying wsm_fresh_world 0 1)
  /\ (exists w', @PriceStream.run plain_runtime ps_fresh_world
                   (concat (ps_failed_round 0 <$> [OSError; TimeoutError; OSError])
                    ++ [PriceStream.Resume 0; PriceStream.ConnectFail 0 OSError])
                 = Some w'
        /\ ps_wait w' 0 = Some 8%Z)
  /\ (exists m', @WebSocketManager.run plain_runtime wsm_fresh_world
                   (concat (wsm_failed_round 0
                              <$> [OSError; OSError; OSError; OSError; OSError; OSError])
                    ++ [WebSocketManager.Resume 0; WebSocketManager.ConnectFail 0 OSError])
                 = Some m'
        /\ wsm_wait m' 0 = Some 30%float).
Proof.
  assert (Hw : ps_retrying ps_fresh_world 0 1).
  { eexists _, _. repeat split; vm_compute; reflexivity. }
  assert (Hm : wsm_retrying wsm_fresh_world 0 1).
  { eexists. repeat split; vm_compute; reflexivity. }
  assert (Hes : Forall (fun x => x <> ConnectionClosedError)
                       [OSError; OSError; OSError; OSError; OSError; OSError; OSError]).
  { repeat constructor; discriminate. }
  split; [by split|].
  pose proof (@C4_backoff_schedule plain_runtime ps_fresh_world wsm_fresh_world 0 0
                [OSError; TimeoutError; OSError]
                [OSError; OSError; OSError; OSError; OSError; OSError]
                OSError OSError Hw Hm Hes) as (Hps & Hwsm & _).
  split; [exact Hps|exact Hwsm].
Defined.

(** * Further properties of the two clients *)

(** ** The buffer in every reachable state *)

Section buffer_invariants.
Context `{Runtime}.

Lemma deque_append_length {A} (d : deque A) (x : A) :
  (deque_len d <= maxlen d)%nat ->
  deque_len (deque_append d x) = Nat.min (deque_len d + 1) (maxlen d).
Proof.
  unfold deque_len. intros Hle. rewrite deque_append_items by done.
  rewrite length_drop, length_app. cbn [length]. lia.
Qed.

Lemma deque_append_last {A} (d : deque A) (x : A) :
  (deque_len d <= maxlen d)%nat -> maxlen d <> 0%nat ->
  deque_last (deque_append d x) = Some x.
Proof.
  unfold deque_len, deque_last. intros Hle Hn. rewrite deque_append_items by done.
  rewrite drop_app_le by lia. apply last_snoc.
Qed.

(** What a step can do to the buffer of a [PriceStream]: nothing, clear it
    ([start]), or append one sample (a frame that parses). No step changes
    [max_points]. *)
Lemma ps_step_buffer (w w' : PriceStream.world) (e : PriceStream.event) :
  PriceStream.step w e = Some w' ->
  PriceStream.max_points w' = PriceStream.max_points w
  /\ (PriceStream.price_data w' = PriceStream.price_data w
      \/ PriceStream.price_data w' = deque_clear (PriceStream.price_data w)
      \/ exists smp, PriceStream.price_data w'
                     = deque_append (PriceStream.price_data w) smp).
Proof.
  intros Hs. destruct e as [sym| | | | | | | | | | | | ].
  - cbn [PriceStream.step] in Hs.
    destruct (ps_stop_spec w) as (w1 & Hs1 & Hd & Hm & _).
    unfold PriceStream.start in Hs. rewrite Hs1 in Hs.
    destruct (PriceStream.running w && _); simplify_eq/=; [by auto|].
    rewrite Hd, Hm. auto.
  - cbn [PriceStream.step] in Hs.
    destruct (ps_stop_spec w) as (w1 & Hs1 & Hd & Hm & _).
    rewrite Hs1 in Hs. simplify_eq/=. auto.
  - cbn [PriceStream.step] in Hs. split_cases. auto.
  - cbn [PriceStream.step] in Hs.
    unfold PriceStream._cleanup, PriceStream.run_set_stop_event,
      PriceStream.cancel_task, PriceStream.close_conn, PriceStream.update_unit in Hs.
    split_cases; auto.
  - cbn [PriceStream.step] in Hs. unfold PriceStream.leave in Hs. split_cases; auto.
  - cbn [PriceStream.step] in Hs. split_cases. auto.
  - cbn [PriceStream.step] in Hs. unfold PriceStream.on_error, PriceStream.leave in Hs.
    split_cases; auto.
  - cbn [PriceStream.step] in Hs.
    unfold PriceStream.on_message, PriceStream.on_error, PriceStream.leave,
      PriceStream.break_receive in Hs.
    split_cases; cbn; eauto.
  - cbn [PriceStream.step] in Hs. split_cases. auto.
  - cbn [PriceStream.step] in Hs. unfold PriceStream.on_error, PriceStream.leave in Hs.
    split_cases; auto.
  - cbn [PriceStream.step] in Hs. split_cases. auto.
  - cbn [PriceStream.step] in Hs. unfold PriceStream.leave in Hs. split_cases; auto.
  - cbn [PriceStream.step] in Hs.
    unfold PriceStream.thread_exit, PriceStream.cancel_task, PriceStream.close_conn,
      PriceStream.update_unit in Hs.
    split_cases; auto.
Qed.

Definition ps_buffer_inv (w : PriceStream.world) : Prop :=
  maxlen (PriceStream.price_data w) = PriceStream.max_points w
  /\ (deque_len (PriceStream.price_data w) <= PriceStream.max_points w)%nat.

Lemma ps_run_buffer_inv (es : list PriceStream.event) : forall w w',
  PriceStream.run w es = Some w' -> ps_buffer_inv w -> ps_buffer_inv w'.
Proof.
  induction es as [|e es IH]; intros w w' Hr Hi; cbn [PriceStream.run] in Hr.
  - by simplify_eq.
  - destruct (PriceStream.step w e) as [w1|] eqn:Hs; [|done].
    eapply IH; [done|]. clear IH Hr.
    destruct Hi as [Hm Hl].
    destruct (ps_step_buffer w w1 e Hs) as (Hmp & [Hd|[Hd|[smp Hd]]]);
      unfold ps_buffer_inv; rewrite Hd, Hmp.
    + done.
    + split; [done|]. unfold deque_len. cbn. lia.
    + split; [done|]. rewrite deque_append_length by lia. lia.
Qed.

(** X1. In every state that calls of [start]/[stop] and steps of any
    background units (stale ones included) lead to, the buffer of a
    [PriceStream(max_points)] is still a deque of capacity [max_points] and
    holds at most [max_points] samples, and so do the two lists returned by
    [get_series()]. *)
Theorem X1_price_stream_buffer_bounded
        (n : nat) (es : list PriceStream.event) (w : PriceStream.world) :
  PriceStream.run (PriceStream.init n) es = Some w ->
  PriceStream.max_points w = n
  /\ maxlen (PriceStream.price_data w) = n
  /\ (deque_len (PriceStream.price_data w) <= n)%nat
  /\ (length (PriceStream.get_series w).1 <= n)%nat
  /\ length (PriceStream.get_series w).2 = length (PriceStream.get_series w).1.
Proof.
  intros Hr.
  assert (Hmp : PriceStream.max_points w = n).
  { revert Hr. generalize (eq_refl : PriceStream.max_points (PriceStream.init n) = n).
    generalize (PriceStream.init n). induction es as [|e es IH]; intros w0 H0 Hr;
      cbn [PriceStream.run] in Hr; [by simplify_eq|].
    destruct (PriceStream.step w0 e) as [w1|] eqn:Hs; [|done].
    eapply IH; [|done]. destruct (ps_step_buffer _ _ _ Hs) as [-> _]. done. }
  destruct (ps_run_buffer_inv es _ _ Hr) as [Hm Hl]; [split; cbn; lia|].
  rewrite Hmp in *. repeat split; try done.
  - unfold PriceStream.get_series, deque_len in *.
    destruct (items (PriceStream.price_data w)); cbn [fst length] in *; [lia|].
    rewrite length_fmap. done.
  - unfold PriceStream.get_series.
    destruct (items (PriceStream.price_data w)); cbn [fst snd]; [done|].
    by rewrite !length_fmap.
Qed.
(** What a step can do to the buffer, the message count and the cached
    price of a [WebSocketManager]: nothing; clear the buffer and zero the
    count ([start]); or append one sample, count it and cache its price (a
    frame that parses). *)
Lemma wsm_step_buffer (m m' : WebSocketManager.world) (e : WebSocketManager.event) :
  WebSocketManager.step m e = Some m' ->
  WebSocketManager.max_price_history m' = WebSocketManager.max_price_history m
  /\ ((WebSocketManager._price_history m' = WebSocketManager._price_history m
       /\ WebSocketManager._message_count m' = WebSocketManager._message_count m
       /\ WebSocketManager._current_price m' = WebSocketManager._current_price m)
      \/ (WebSocketManager._price_history m'
          = deque_clear (WebSocketManager._price_history m)
          /\ WebSocketManager._message_count m' = 0%Z
          /\ WebSocketManager._current_price m' = WebSocketManager._current_price m)
      \/ (exists timestamp price,
            WebSocketManager._price_history m'
            = deque_append (WebSocketManager._price_history m) (timestamp, price)
            /\ WebSocketManager._message_count m'
               = (WebSocketManager._message_count m + 1)%Z
            /\ WebSocketManager._current_price m' = Some price)).
Proof.
  intros Hs. destruct e as [sym now| | | | | | | | | | | | ].
  - cbn [WebSocketManager.step] in Hs.
    unfold WebSocketManager.start, WebSocketManager.stop,
      WebSocketManager.call_soon_threadsafe, WebSocketManager.runtime_error in Hs.
    split_cases; simplify_eq; cbn; auto 10.
  - cbn [WebSocketManager.step] in Hs.
    unfold WebSocketManager.stop, WebSocketManager.call_soon_threadsafe,
      WebSocketManager.runtime_error in Hs.
    split_cases; simplify_eq; cbn; auto 10.
  - cbn [WebSocketManager.step] in Hs. split_cases; simplify_eq; cbn; auto 10.
  - cbn [WebSocketManager.step] in Hs. split_cases; simplify_eq; cbn; auto 10.
  - cbn [WebSocketManager.step] in Hs. unfold WebSocketManager.leave in Hs.
    split_cases; simplify_eq; cbn; auto 10.
  - cbn [WebSocketManager.step] in Hs. split_cases; simplify_eq; cbn; auto 10.
  - cbn [WebSocketManager.step] in Hs.
    unfold WebSocketManager.on_error, WebSocketManager.leave in Hs. split_cases; simplify_eq; cbn; auto 10.
  - cbn [WebSocketManager.step] in Hs.
    unfold WebSocketManager.on_message, WebSocketManager.end_receive in Hs.
    split_cases; simplify_eq; cbn; eauto 10.
  - cbn [WebSocketManager.step] in Hs. split_cases; simplify_eq; cbn; auto 10.
  - cbn [WebSocketManager.step] in Hs.
    unfold WebSocketManager.on_error, WebSocketManager.leave in Hs. split_cases; simplify_eq; cbn; auto 10.
  - cbn [WebSocketManager.step] in Hs. split_cases; simplify_eq; cbn; auto 10.
  - cbn [WebSocketManager.step] in Hs. unfold WebSocketManager.leave in Hs.
    split_cases; simplify_eq; cbn; auto 10.
  - cbn [WebSocketManager.step] in Hs. unfold WebSocketManager.thread_exit in Hs.
    split_cases; simplify_eq; cbn; auto 10.
Qed.

Definition wsm_buffer_inv (m : WebSocketManager.world) : Prop :=
  maxlen (WebSocketManager._price_history m) = WebSocketManager.max_price_history m
  /\ Z.of_nat (deque_len (WebSocketManager._price_history m))
     = Z.min (WebSocketManager._message_count m)
             (Z.of_nat (WebSocketManager.max_price_history m))
  /\ (items (WebSocketManager._price_history m) <> [] ->
      WebSocketManager._current_price m
      = snd <$> deque_last (WebSocketManager._price_history m)).

Lemma wsm_step_buffer_inv (m m' : WebSocketManager.world) (e : WebSocketManager.event) :
  WebSocketManager.step m e = Some m' -> wsm_buffer_inv m -> wsm_buffer_inv m'.
Proof.
  intros Hs (Hm & Hl & Hp).
  destruct (wsm_step_buffer m m' e Hs)
    as (Hmp & [(Hd & Hc & Hcp)|[(Hd & Hc & Hcp)|(timestamp & price & Hd & Hc & Hcp)]]);
    unfold wsm_buffer_inv; rewrite Hd, Hc, Hcp, Hmp.
  - done.
  - unfold deque_len. cbn. repeat split; [done|lia|done].
  - assert (Hle : (deque_len (WebSocketManager._price_history m)
                   <= maxlen (WebSocketManager._price_history m))%nat) by lia.
    split; [done|]. split.
    + rewrite deque_append_length by done. lia.
    + intros Hne. rewrite deque_append_last; [done|done|].
      intros H0. apply Hne. apply length_zero_iff_nil.
      pose proof (deque_append_length (WebSocketManager._price_history m)
                    (timestamp, price) Hle) as Hlen.
      unfold deque_len in Hlen. lia.
Qed.

Lemma wsm_run_buffer_inv (es : list WebSocketManager.event) : forall m m',
  WebSocketManager.run m es = Some m' ->
  wsm_buffer_inv m ->
  wsm_buffer_inv m'
  /\ WebSocketManager.max_price_history m' = WebSocketManager.max_price_history m.
Proof.
  induction es as [|e es IH]; intros m m' Hr Hi; cbn [WebSocketManager.run] in Hr.
  - by simplify_eq.
  - destruct (WebSocketManager.step m e) as [m1|] eqn:Hs; [|done].
    destruct (IH m1 m' Hr) as [Hi' Hm']; [by eapply wsm_step_buffer_inv|].
    split; [done|]. rewrite Hm'. by destruct (wsm_step_buffer _ _ _ Hs) as [-> _].
Qed.


End buffer_invariants.

(** ** The buffer of a client while frames arrive *)

Section deque_appends.
Context {A : Type}.
Implicit Types (d : deque A) (xs : list A).

Lemma deque_appends_length d xs :
  (length (items d) <= maxlen d)%nat ->
  (length (items (foldl deque_append d xs)) <= maxlen d)%nat.
Proof.
  revert d. induction xs as [|x xs IH]; intros d Hle; [done|].
  cbn [foldl]. etrans; [apply IH|done].
  pose proof (deque_append_length d x Hle) as Hl. unfold deque_len in Hl.
  rewrite deque_append_maxlen. lia.
Qed.

(** Appending [xs] to a buffer that is within its capacity keeps the last
    [maxlen] of what it held followed by [xs]. *)
Lemma deque_appends_from d xs :
  (length (items d) <= maxlen d)%nat ->
  items (foldl deque_append d xs)
  = drop (length (items d ++ xs) - maxlen d) (items d ++ xs).
Proof.
  intros Hle. induction xs as [|x xs IH] using rev_ind.
  - cbn [foldl]. rewrite app_nil_r.
    replace (length (items d) - maxlen d)%nat with 0%nat by lia. done.
  - rewrite foldl_app. cbn [foldl].
    rewrite deque_append_items
      by (rewrite deque_appends_maxlen; by apply deque_appends_length).
    rewrite deque_appends_maxlen, IH, length_drop, !length_app. cbn [length].
    rewrite app_assoc.
    destruct (Nat.le_gt_cases (length (items d) + length xs) (maxlen d)) as [Hl|Hg].
    + replace (length (items d) + length xs - maxlen d)%nat with 0%nat by lia.
      rewrite drop_0. f_equal. lia.
    + rewrite <- (drop_app_le _ [x]) by (rewrite length_app; lia).
      rewrite drop_drop. f_equal. lia.
Qed.
End deque_appends.

Section client_buffers.
Context `{Runtime}.

(** The frames [ms] parse to the samples [xs]. *)
Definition parse_to (ms : list frame) (xs : list sample) : Prop :=
  Forall2 (fun message x => parse_message message = Return x) ms xs.

(** A receiving [PriceStream] unit appends the sample of every frame that
    parses, and goes on receiving. *)
Lemma ps_frames_are_appended (ms : list frame) :
  forall (w : PriceStream.world) (i c : nat) (cnt : Z) (xs : list sample),
  ps_receiving w i c cnt -> parse_to ms xs ->
  exists w' cnt',
    PriceStream.run w (PriceStream.Message i <$> ms) = Some w'
    /\ PriceStream.price_data w' = foldl deque_append (PriceStream.price_data w) xs
    /\ ps_receiving w' i c cnt'.
Proof.
  induction ms as [|msg ms IH]; intros w i c cnt xs Hw Hp.
  - apply Forall2_nil_inv_l in Hp as ->. by exists w, cnt.
  - apply Forall2_cons_inv_l in Hp as (x & xs' & Hx & Hp & ->).
    pose proof (ps_receiving_next w i c cnt (cnt + 1)
                  (deque_append (PriceStream.price_data w) x) Hw) as Hw1.
    destruct Hw as (u & Hu & Hw).
    destruct (IH _ i c (cnt + 1)%Z xs' Hw1 Hp) as (w' & cnt' & Hr & Hd & Hw').
    exists w', cnt'. split; [|done].
    cbn [fmap list_fmap PriceStream.run].
    rewrite (ps_receiving_message w i c cnt msg u), Hx by (done || by exists u).
    exact Hr.
Qed.

(** The same for a [WebSocketManager] unit; each frame comes with the
    reading of the clock at its arrival. *)
Lemma wsm_frames_are_appended (ms : list (frame * float)) :
  forall (m : WebSocketManager.world) (j c : nat) (xs : list sample),
  wsm_receiving m j c -> parse_to ms.*1 xs ->
  exists m',
    WebSocketManager.run m ((fun mt => WebSocketManager.Message j mt.1 mt.2) <$> ms)
    = Some m'
    /\ WebSocketManager._price_history m'
       = foldl deque_append (WebSocketManager._price_history m) xs
    /\ wsm_receiving m' j c.
Proof.
  induction ms as [|[msg now] ms IH]; intros m j c xs Hm Hp.
  - apply Forall2_nil_inv_l in Hp as ->. by exists m.
  - cbn [fmap list_fmap fst] in Hp.
    apply Forall2_cons_inv_l in Hp as (x & xs' & Hx & Hp & ->).
    destruct (wsm_valid_frame_is_appended m j c msg now x Hm Hx)
      as (m1 & Hs & Hd & _ & _ & Hm1).
    destruct (IH m1 j c xs' Hm1 Hp) as (m' & Hr & Hd' & Hm').
    exists m'. split; [|split; [|done]].
    + cbn [fmap list_fmap WebSocketManager.run fst snd]. by rewrite Hs.
    + rewrite Hd'. cbn [foldl]. by rewrite Hd.
Qed.

(** C1. The history buffer of a client created with capacity [n]
    ([PriceStream(n)], [WebSocketManager(n')]) still has that capacity in
    every state the client can reach, and holds at most that many samples.
    When frames that parse then reach the receiving unit of the session,
    their samples [xs] are appended one by one, and after them the buffer
    holds exactly the last [n] of what it held followed by [xs], in order:
    [min (k, n)] samples when [k] have been appended since the buffer was
    empty, the oldest dropped first. ([xs] is any run of appends, so this
    holds after each of them.) *)
Theorem C1_buffer_keeps_last_n
        (n n' : nat) (cb : bool) (t0 : float)
        (es : list PriceStream.event) (es' : list WebSocketManager.event)
        (w : PriceStream.world) (m : WebSocketManager.world)
        (i c j c' : nat) (cnt : Z)
        (ms : list frame) (ms' : list (frame * float)) (xs xs' : list sample) :
  PriceStream.run (PriceStream.init n) es = Some w ->
  ps_receiving w i c cnt -> parse_to ms xs ->
  WebSocketManager.run (WebSocketManager.init n' cb t0) es' = Some m ->
  wsm_receiving m j c' -> parse_to ms'.*1 xs' ->
  (exists w',
     PriceStream.run w (PriceStream.Message i <$> ms) = Some w'
     /\ maxlen (PriceStream.price_data w') = n
     /\ items (PriceStream.price_data w')
        = drop (length (items (PriceStream.price_data w) ++ xs) - n)
               (items (PriceStream.price_data w) ++ xs)
     /\ deque_len (PriceStream.price_data w')
        = Nat.min (length (items (PriceStream.price_data w) ++ xs)) n
     /\ (deque_len (PriceStream.price_data w') <= n)%nat
     /\ (items (PriceStream.price_data w) = [] ->
         items (PriceStream.price_data w')
         = drop (length xs - Nat.min (length xs) n) xs))
  /\ (exists m',
        WebSocketManager.run m
          ((fun mt => WebSocketManager.Message j mt.1 mt.2) <$> ms') = Some m'
        /\ maxlen (WebSocketManager._price_history m') = n'
        /\ items (WebSocketManager._price_history m')
           = drop (length (items (WebSocketManager._price_history m) ++ xs') - n')
                  (items (WebSocketManager._price_history m) ++ xs')
        /\ deque_len (WebSocketManager._price_history m')
           = Nat.min (length (items (WebSocketManager._price_history m) ++ xs')) n'
        /\ (deque_len (WebSocketManager._price_history m') <= n')%nat
        /\ (items (WebSocketManager._price_history m) = [] ->
            items (WebSocketManager._price_history m')
            = drop (length xs' - Nat.min (length xs') n') xs')).
Proof.
  intros Hw Hrec Hp Hm Hrec' Hp'. split.
  - assert (Hi0 : ps_buffer_inv (PriceStream.init n))
      by (unfold ps_buffer_inv, deque_len; cbn; split; [done|lia]).
    assert (Hmp : forall es w0 w1, PriceStream.run w0 es = Some w1 ->
                    PriceStream.max_points w1 = PriceStream.max_points w0).
    { clear. induction es as [|e es IH]; intros w0 w1 Hr; cbn [PriceStream.run] in Hr.
      - by simplify_eq.
      - destruct (PriceStream.step w0 e) as [w2|] eqn:Hs; [|done].
        rewrite (IH _ _ Hr). by destruct (ps_step_buffer _ _ _ Hs) as [-> _]. }
    destruct (ps_run_buffer_inv es _ _ Hw Hi0) as [Hml Hlen].
    rewrite (Hmp _ _ _ Hw) in Hml, Hlen. cbn [PriceStream.max_points PriceStream.init] in *.
    unfold deque_len in *.
    destruct (ps_frames_are_appended ms w i c cnt xs Hrec Hp) as (w' & cnt' & Hr & Hd & _).
    exists w'. split; [done|]. rewrite Hd.
    rewrite deque_appends_maxlen, deque_appends_from, Hml by lia.
    rewrite length_drop. repeat split; try done; try lia.
    intros ->. cbn [app]. f_equal. lia.
  - destruct (wsm_run_buffer_inv es' _ _ Hm) as [(Hml & Hlen & _) Hmp].
    { unfold wsm_buffer_inv, deque_len. cbn. repeat split; try done; lia. }
    rewrite Hmp in Hml. cbn [WebSocketManager.max_price_history WebSocketManager.init] in *.
    assert (Hle : (length (items (WebSocketManager._price_history m)) <= n')%nat).
    { unfold deque_len in Hlen. rewrite Hmp in Hlen. cbn in Hlen. lia. }
    destruct (wsm_frames_are_appended ms' m j c' xs' Hrec' Hp') as (m' & Hr & Hd & _).
    exists m'. split; [done|]. rewrite Hd. unfold deque_len.
    rewrite deque_appends_maxlen, deque_appends_from, Hml by lia.
    rewrite length_drop. repeat split; try done; try lia.
    intros ->. cbn [app]. f_equal. lia.
Qed.
End client_buffers.

(** Both clients created with capacity 2, after the ETHUSDT session: one
    sample in the buffer, the unit receiving. *)
Definition ps_small_world : PriceStream.world :=
  Eval vm_compute in
  default (PriceStream.init 2)
          (@PriceStream.run plain_runtime (PriceStream.init 2) ps_eth_session).

Definition wsm_small_world : WebSocketManager.world :=
  Eval vm_compute in
  default (WebSocketManager.init 2 true 0)
          (@WebSocketManager.run plain_runtime (WebSocketManager.init 2 true 0)
                                 wsm_eth_session).

Lemma C1_buffer_keeps_last_n_witness :
  PriceStream.get_series ps_small_world = ([1], [100])%float
  /\ WebSocketManager.get_series wsm_small_world = ([1], [100])%float
  /\ (exists w',
        @PriceStream.run plain_runtime ps_small_world
          (PriceStream.Message 0 <$> [trade_frame "101" 2000; trade_frame "102" 3000])
        = Some w'
        /\ items (PriceStream.price_data w') = [(2, 101); (3, 102)]%float)
  /\ (exists m',
        @WebSocketManager.run plain_runtime wsm_small_world
          ((fun mt => WebSocketManager.Message 0 mt.1 mt.2)
             <$> [(trade_frame "101" 2000, 2%float); (trade_frame "102" 3000, 3%float)])
        = Some m'
        /\ items (WebSocketManager._price_history m') = [(2, 101); (3, 102)]%float).
Proof.
  split; [vm_compute; reflexivity|]. split; [vm_compute; reflexivity|].
  assert (Hp : @parse_to plain_runtime
                 [trade_frame "101" 2000; trade_frame "102" 3000]
                 [(2, 101); (3, 102)]%float).
  { repeat constructor; vm_compute; reflexivity. }
  destruct (@C1_buffer_keeps_last_n plain_runtime 2 2 true 0
              ps_eth_session wsm_eth_session ps_small_world wsm_small_world
              0 0 0 0 1
              [trade_frame "101" 2000; trade_frame "102" 3000]
              [(trade_frame "101" 2000, 2%float); (trade_frame "102" 3000, 3%float)]
              [(2, 101); (3, 102)]%float [(2, 101); (3, 102)]%float)
    as [(w' & Hr & _ & Hi & _) (m' & Hr' & _ & Hi' & _)].
  - vm_compute; reflexivity.
  - eexists. repeat split; vm_compute; reflexivity.
  - exact Hp.
  - vm_compute; reflexivity.
  - eexists. repeat split; vm_compute; reflexivity.
  - exact Hp.
  - split; [exists w'|exists m']; (split; [done|]).
    + rewrite Hi. vm_compute. reflexivity.
    + rewrite Hi'. vm_compute. reflexivity.
Defined.

(** ** The end of a background unit *)

Section unit_end.
Context `{Runtime}.

(** The coroutine of unit [i] has returned or was cancelled. *)
Definition ps_over (p : PriceStream.pc) : Prop :=
  p = PriceStream.Finished \/ p = PriceStream.Cancelled \/ p = PriceStream.Exited.

Definition ps_unit_over (w : PriceStream.world) (i : nat) : Prop :=
  exists u, PriceStream.units w !! i = Some u /\ ps_over (PriceStream.u_pc u).

Lemma ps_alter_over (us : list PriceStream.unit_state) (f : PriceStream.unit_state ->
      PriceStream.unit_state) (i j : nat) :
  (exists u, us !! i = Some u /\ ps_over (PriceStream.u_pc u)) ->
  (i = j -> forall u, us !! i = Some u -> ps_over (PriceStream.u_pc u) ->
            ps_over (PriceStream.u_pc (f u))) ->
  exists u, alter f j us !! i = Some u /\ ps_over (PriceStream.u_pc u).
Proof.
  intros (u & Hu & Ho) Hf. rewrite list_lookup_alter.
  case_decide; [subst|by eauto]. rewrite Hu. eexists; split; [done|]. by eapply Hf.
Qed.

(** A unit that is over stays over, whatever happens next. *)
Lemma ps_step_over (w w' : PriceStream.world) (e : PriceStream.event) (i : nat) :
  PriceStream.step w e = Some w' -> ps_unit_over w i -> ps_unit_over w' i.
Proof.
  intros Hs (u & Hu & Ho). unfold ps_unit_over.
  assert (Hpc : forall p, PriceStream.u_pc u = p -> ps_over p) by (by intros p <-).
  destruct e as [sym| | j| j| j| j| j e| j msg| j| j e| j| j| j];
    cbn [PriceStream.step] in Hs;
    unfold PriceStream.start, PriceStream.stop, PriceStream.run_coroutine_threadsafe,
      PriceStream.signal_error, PriceStream.on_message, PriceStream.on_error,
      PriceStream.leave, PriceStream.break_receive, PriceStream.thread_exit,
      PriceStream._cleanup, PriceStream.run_set_stop_event, PriceStream.cancel_task,
      PriceStream.done, PriceStream.loop_running, PriceStream.loop_open,
      PriceStream.close_conn, PriceStream.update_unit in Hs;
    split_cases; simplify_eq; cbn;
    rewrite ?lookup_app_l by (rewrite ?length_alter; by eapply lookup_lt_Some);
    repeat (apply ps_alter_over;
            [|intros <- u' Hu' Ho'; simplify_eq/=;
              try done; try (by right; right); try (by left); try (by right; left);
              try (by destruct Ho as [?|[?|?]]; congruence)]);
    eauto.
Qed.

Lemma ps_run_over (es : list PriceStream.event) : forall w w' i,
  PriceStream.run w es = Some w' -> ps_unit_over w i -> ps_unit_over w' i.
Proof.
  induction es as [|e es IH]; intros w w' i Hr Ho; cbn [PriceStream.run] in Hr.
  - by simplify_eq.
  - destruct (PriceStream.step w e) as [w1|] eqn:Hs; [|done].
    eapply IH; [done|]. by eapply ps_step_over.
Qed.
(** X4. When the iteration over the connection of a [PriceStream] unit
    raises [ConnectionClosed], the handler's [break] leaves the [while] loop
    whatever the session wants: the unit is over at once and stays over in
    every continuation, so it never reconnects. The client itself still
    counts as running for its symbol, and a [start()] for that symbol is a
    no-op. *)
Theorem X4_price_stream_closed_connection_is_final
        (w w' : PriceStream.world) (i c : nat) (n : Z) (u : PriceStream.unit_state)
        (e : exn) (es : list PriceStream.event) :
  PriceStream.units w !! i = Some u ->
  PriceStream.u_pc u = PriceStream.Receiving c n ->
  connection_closed e = true ->
  PriceStream.run w (PriceStream.RecvRaise i e :: es) = Some w' ->
  ps_unit_over w' i
  /\ exists w1, PriceStream.step w (PriceStream.RecvRaise i e) = Some w1
       /\ PriceStream.u_pc <$> PriceStream.units w1 !! i = Some PriceStream.Finished
       /\ PriceStream.websocket w1 = None
       /\ PriceStream.price_data w1 = PriceStream.price_data w
       /\ PriceStream.running w1 = PriceStream.running w
       /\ PriceStream.current_symbol w1 = PriceStream.current_symbol w
       /\ forall symbol, PriceStream.running w = true ->
            PriceStream.current_symbol w = Some symbol ->
            PriceStream.start w1 symbol = Return w1.
Proof.
  intros Hu Hpc He Hr. cbn [PriceStream.run] in Hr.
  assert (Hs : PriceStream.step w (PriceStream.RecvRaise i e)
               = Some (PriceStream.leave i (PriceStream.close_conn c w))).
  { cbn [PriceStream.step]. by rewrite Hu, Hpc, He. }
  rewrite Hs in Hr.
  assert (Hu1 : PriceStream.units (PriceStream.leave i (PriceStream.close_conn c w)) !! i
                = Some (PriceStream.set_pc PriceStream.Finished u)).
  { unfold PriceStream.leave. rewrite ps_update_unit_lookup. cbn. by rewrite Hu. }
  split.
  - eapply ps_run_over; [exact Hr|]. eexists; split; [exact Hu1|]. by left.
  - eexists; split; [exact Hs|]. rewrite Hu1. repeat split; try done.
    intros symbol Hrun Hsym. by apply ps_start_same.
Qed.
End unit_end.

(** ** Connection errors of the manager *)

Section manager_errors.
Import WebSocketManager.
Context `{Runtime}.
Implicit Types (m : world) (j c : nat) (e : exn).

(** X5. An abnormal close ([ConnectionClosedError]) of the connection of a
    running [WebSocketManager] is not counted and not waited for: the status
    becomes "Reconnecting", [error_count] keeps its value, the unit is at the
    head of its loop without any backoff wait, and its next step opens a new
    connection. *)
Theorem X5_manager_abnormal_close_retries_at_once m j c :
  wsm_receiving m j c ->
  exists m1 m2,
    step m (RecvRaise j ConnectionClosedError) = Some m1
    /\ get_status m1 = "Reconnecting"
    /\ error_count (_connection_state m1) = error_count (_connection_state m)
    /\ wsm_wait m1 j = None
    /\ conn_open m1 c = false
    /\ _price_history m1 = _price_history m
    /\ step m1 (Resume j) = Some m2
    /\ u_pc <$> units m2 !! j = Some Connecting
    /\ get_status m2 = "Connecting".
Proof.
  intros (u & Hu & Hpc & Hc & Hr & Hst).
  set (m1 := update_unit j (set_pc AtWhile)
               (update_state (set_status "Reconnecting") (close_conn c m))).
  assert (H1 : step m (RecvRaise j ConnectionClosedError) = Some m1).
  { cbn [step]. rewrite Hu, Hpc. unfold on_error.
    change (_running (close_conn c m)) with (_running m). by rewrite Hr. }
  assert (Hu1 : units m1 !! j = Some (set_pc AtWhile u)).
  { unfold m1. rewrite wsm_update_unit_lookup. cbn. by rewrite Hu. }
  assert (Hst1 : stop_is_set m1 = false).
  { unfold m1. rewrite wsm_update_unit_stop_is_set by done. exact Hst. }
  assert (Hr1 : _running m1 = true) by exact Hr.
  exists m1. eexists. split; [exact H1|].
  split; [done|]. split; [done|]. split; [unfold wsm_wait; by rewrite Hu1|].
  split.
  { unfold conn_open in *. cbn. destruct (conns m !! c) eqn:E; [|done].
    rewrite list_lookup_insert_eq; [done|]. by eapply lookup_lt_Some. }
  split; [done|]. split.
  { cbn [step]. rewrite Hu1. cbn [u_pc set_pc]. by rewrite Hr1, Hst1. }
  split; [|done]. rewrite wsm_update_unit_lookup.
  change (units (update_state (set_status "Connecting") m1)) with (units m1).
  by rewrite Hu1.
Qed.

(** The second [except] clause marks the error. *)
Lemma wsm_connect_fail_state m m2 j e :
  e <> ConnectionClosedError -> _running m = true ->
  step m (ConnectFail j e) = Some m2 ->
  get_status m2 = "Error"
  /\ error_count (_connection_state m2) = (error_count (_connection_state m) + 1)%Z.
Proof.
  intros He Hr Hs. cbn [step] in Hs.
  destruct (units m !! j) as [uj|]; [|done].
  destruct (u_pc uj); try done.
  rewrite wsm_on_error_backoff in Hs by done. by simplify_eq.
Qed.

(** A timed-out wait leaves the connection state alone. *)
Lemma wsm_wait_timeout_state m m' j :
  step m (WaitTimeout j) = Some m' -> _connection_state m' = _connection_state m.
Proof. intros Hs. cbn [step] in Hs. split_cases. by simplify_eq. Qed.

Lemma wsm_failed_rounds_errors es : forall m j b e,
  Forall (fun x => x <> ConnectionClosedError) (e :: es) ->
  wsm_retrying m j b ->
  exists m', run m (concat (wsm_failed_round j <$> es)
                    ++ [Resume j; ConnectFail j e]) = Some m'
    /\ get_status m' = "Error"
    /\ error_count (_connection_state m')
       = (error_count (_connection_state m) + Z.of_nat (length es) + 1)%Z.
Proof.
  induction es as [|e0 es IH]; intros m j b e Hes Hm.
  - apply Forall_cons in Hes as [He _].
    destruct (wsm_failed_attempt m j b e He Hm) as (m2 & Hrun & _ & Hc & _).
    exists m2. split; [done|]. split; [|cbn [length]; lia].
    cbn [concat fmap list_fmap app run] in Hrun.
    destruct (step m (Resume j)) as [ma|] eqn:Ha; [|done].
    destruct (step ma (ConnectFail j e)) as [mb|] eqn:Hb; [|done]. simplify_eq.
    eapply wsm_connect_fail_state; [done| |done].
    destruct (wsm_unit_step_frame _ _ _ Ha eq_refl) as [-> _].
    by destruct Hm as (? & ? & ? & ? & ? & ?).
  - apply Forall_cons in Hes as [He Hes]. apply Forall_cons in Hes as [He0 Hes].
    destruct (wsm_failed_attempt m j b e0 He0 Hm)
      as (m2 & Hrun & _ & Hc & m1 & Hstep & Hm1).
    destruct (IH m1 j (next_backoff_float b) e) as (m' & Hrun' & Hst' & Hc');
      [by apply Forall_cons|done|].
    exists m'. split; [|split; [done|]].
    + cbn [fmap list_fmap concat wsm_failed_round app run] in *.
      destruct (step m (Resume j)) as [ma|]; [|done].
      destruct (step ma (ConnectFail j e0)) as [mb|]; [|done].
      simplify_eq. by rewrite Hstep.
    + rewrite Hc', (wsm_wait_timeout_state _ _ _ Hstep), Hc. cbn [length]. lia.
Qed.

(** X6. [error_count] counts the failed attempts of the session: a
    [start()] that begins a session sets it to 0, and after [k] failed
    attempts that were waited out and one more failure it is [k + 1] higher,
    with the status "Error". (A [ConnectionClosedError] is not counted, see
    X5.) *)
Theorem X6_manager_error_count m j es e :
  wsm_retrying m j 1 ->
  Forall (fun x => x <> ConnectionClosedError) (e :: es) ->
  (exists m', run m (concat (wsm_failed_round j <$> es)
                     ++ [Resume j; ConnectFail j e]) = Some m'
     /\ get_status m' = "Error"
     /\ error_count (_connection_state m')
        = (error_count (_connection_state m) + Z.of_nat (length es) + 1)%Z)
  /\ (forall m0 sym now,
        _running m0 && bool_decide (get_symbol m0 = Some (lower sym)) = false ->
        exists m1, start m0 sym now = Return m1
          /\ error_count (_connection_state m1) = 0%Z).
Proof.
  intros Hm Hes. split; [by eapply wsm_failed_rounds_errors|].
  intros m0 sym now Hg. unfold start. unfold get_symbol in Hg. rewrite Hg.
  destruct (wsm_stop_spec m0) as (m1 & -> & _). cbn [bind]. eexists. by split.
Qed.
End manager_errors.

(** ** A stopped client *)

Section stopped_client.
Context `{Runtime}.

Lemma ps_stopped_step (w w' : PriceStream.world) (e : PriceStream.event) :
  PriceStream.running w = false -> ps_is_call e = false ->
  PriceStream.step w e = Some w' ->
  PriceStream.price_data w' = PriceStream.price_data w.
Proof.
  intros Hr Hc Hs.
  destruct e as [sym| | j| j| j| j| j e| j msg| j| j e| j| j| j];
    try discriminate Hc; cbn [PriceStream.step] in Hs;
    unfold PriceStream.on_message, PriceStream.on_error,
      PriceStream.leave, PriceStream.break_receive, PriceStream.thread_exit,
      PriceStream._cleanup, PriceStream.run_set_stop_event, PriceStream.cancel_task,
      PriceStream.close_conn, PriceStream.update_unit in Hs;
    rewrite ?Hr in Hs; cbn [negb orb andb] in Hs;
    split_cases; by simplify_eq.
Qed.

Lemma wsm_stopped_step (m m' : WebSocketManager.world) (e : WebSocketManager.event) :
  WebSocketManager._running m = false -> wsm_is_call e = false ->
  WebSocketManager.step m e = Some m' ->
  WebSocketManager._price_history m' = WebSocketManager._price_history m
  /\ WebSocketManager._current_price m' = WebSocketManager._current_price m
  /\ WebSocketManager._message_count m' = WebSocketManager._message_count m.
Proof.
  intros Hr Hc Hs.
  destruct e as [sym now| | j| j| j| j now| j e| j msg now| j| j e| j| j| j];
    try discriminate Hc; cbn [WebSocketManager.step] in Hs;
    unfold WebSocketManager.on_message, WebSocketManager.on_error,
      WebSocketManager.leave, WebSocketManager.end_receive,
      WebSocketManager.thread_exit, WebSocketManager.close_conn,
      WebSocketManager.update_unit, WebSocketManager.update_state in Hs;
    rewrite ?Hr in Hs; cbn [negb orb andb] in Hs;
    split_cases; by simplify_eq.
Qed.

End stopped_client.

(** ** [stop] during a backoff wait *)

Section stop_during_wait.
Context `{Runtime}.

(** X8. [stop()] interrupts the backoff wait. When the unit of the running
    session is waiting on the session's stop event, then after [stop()] and
    the run of the callback that [stop()] queued on the unit's loop the wait
    cannot time out any more: it returns, and the unit ends without another
    connection attempt. This holds in both clients. *)
Theorem X8_stop_interrupts_backoff_wait
        (w : PriceStream.world) (m : WebSocketManager.world) (i j : nat)
        (u : PriceStream.unit_state) (u' : WebSocketManager.unit_state)
        (t : Z) (t' : float) :
  PriceStream.units w !! i = Some u ->
  PriceStream.u_pc u = PriceStream.BackoffWait (Some i) t ->
  PriceStream.loop_closed u = false -> PriceStream.loop_pending u = [] ->
  PriceStream.running w = true ->
  PriceStream.loop w = Some i -> PriceStream._stop_event w = Some i ->
  WebSocketManager.units m !! j = Some u' ->
  WebSocketManager.u_pc u' = WebSocketManager.BackoffWait (Some j) t' ->
  WebSocketManager.loop_closed u' = false -> WebSocketManager.loop_pending u' = [] ->
  WebSocketManager._running m = true ->
  WebSocketManager._loop m = Some j -> WebSocketManager._stop_event m = Some j ->
  (PriceStream.run w [PriceStream.CallStop; PriceStream.LoopRun i;
                      PriceStream.WaitTimeout i] = None
   /\ exists w', PriceStream.run w [PriceStream.CallStop; PriceStream.LoopRun i;
                                    PriceStream.WaitDone i] = Some w'
        /\ PriceStream.u_pc <$> PriceStream.units w' !! i = Some PriceStream.Finished
        /\ PriceStream.running w' = false)
  /\ (WebSocketManager.run m [WebSocketManager.CallStop; WebSocketManager.LoopRun j;
                              WebSocketManager.WaitTimeout j] = None
      /\ exists m', WebSocketManager.run m
                      [WebSocketManager.CallStop; WebSocketManager.LoopRun j;
                       WebSocketManager.WaitDone j] = Some m'
           /\ WebSocketManager.u_pc <$> WebSocketManager.units m' !! j
              = Some WebSocketManager.Finished
           /\ WebSocketManager._running m' = false
           /\ WebSocketManager.get_status m' = "Disconnected").
Proof.
  intros Hu Hpc Hcl Hpe Hr Hl He Hu' Hpc' Hcl' Hpe' Hr' Hl' He'. split.
  - destruct w as [mp pd cs ws r l th ct se us cn].
    destruct u as [s p b ev lc lp]. cbn in * |-. subst.
    cbn. unfold PriceStream.loop_open, PriceStream.run_coroutine_threadsafe.
    repeat (first [rewrite Hu | rewrite list_lookup_alter_eq | progress cbn
                  | progress unfold PriceStream.update_unit, PriceStream.loop_running,
                      PriceStream.run_set_stop_event, PriceStream.leave ]).
    split; [done|]. eexists; split; [reflexivity|].
    cbn. by rewrite !list_lookup_alter_eq, Hu.
  - destruct m as [mp cb ph cp cs th l se ws r mc st us cn cc].
    destruct u' as [s p b ev lc lp]. cbn in * |-. subst.
    cbn. unfold WebSocketManager.loop_open, WebSocketManager.call_soon_threadsafe.
    repeat (first [rewrite Hu' | rewrite list_lookup_alter_eq | progress cbn
                  | progress unfold WebSocketManager.update_unit,
                      WebSocketManager.loop_running, WebSocketManager.update_state,
                      WebSocketManager.leave ]).
    split; [done|]. eexists; split; [reflexivity|].
    cbn. by rewrite !list_lookup_alter_eq, Hu'.
Qed.

End stop_during_wait.

(** ** A connection that ends normally *)

(** One round of a session whose connection the server closes normally: the
    [while] condition holds, the handshake succeeds, the iteration over the
    connection ends without an exception. *)
Definition ps_closed_round (i : nat) : list PriceStream.event :=
  [PriceStream.Resume i; PriceStream.ConnectOk i; PriceStream.EndOfStream i].

Definition wsm_closed_round (j : nat) (now : float) : list WebSocketManager.event :=
  [WebSocketManager.Resume j; WebSocketManager.ConnectOk j now;
   WebSocketManager.EndOfStream j].

Section normal_close.
Context `{Runtime}.

Lemma ps_closed_round_spec (w : PriceStream.world) (i : nat) (b : Z) :
  ps_retrying w i b ->
  exists w', PriceStream.run w (ps_closed_round i) = Some w'
    /\ ps_retrying w' i 1
    /\ PriceStream.price_data w' = PriceStream.price_data w
    /\ PriceStream.conns w' = PriceStream.conns w ++ [false].
Proof.
  intros (u & ev & Hu & Hpc & Hb & Hr & Hev & Hst & Hs).
  set (w1 := PriceStream.update_unit i (PriceStream.set_pc PriceStream.Connecting) w).
  assert (H1 : PriceStream.step w (PriceStream.Resume i) = Some w1).
  { cbn [PriceStream.step]. by rewrite Hu, Hpc, Hr, Hst. }
  assert (Hc1 : ps_connecting w1 i b).
  { exists (PriceStream.set_pc PriceStream.Connecting u), ev.
    split; [unfold w1; by rewrite ps_update_unit_lookup, Hu|].
    repeat split; try done.
    unfold w1. by rewrite ps_update_unit_stop_is_set. }
  destruct Hc1 as (u1 & ev1 & Hu1 & Hpc1 & Hb1 & Hr1 & Hev1 & Hst1 & Hs1).
  assert (Hcn : PriceStream.conns w1 = PriceStream.conns w) by done.
  assert (Hpd : PriceStream.price_data w1 = PriceStream.price_data w) by done.
  clearbody w1.
  set (c := length (PriceStream.conns w1)).
  set (wa := PriceStream.update_unit i
               (fun u => PriceStream.set_pc (PriceStream.Receiving c 0)
                           (PriceStream.set_backoff 1 u))
               (PriceStream.set_websocket (Some c)
                  (PriceStream.set_conns (PriceStream.conns w1 ++ [true]) w1))).
  assert (H2 : PriceStream.step w1 (PriceStream.ConnectOk i) = Some wa).
  { cbn [PriceStream.step]. by rewrite Hu1, Hpc1. }
  assert (Hua : PriceStream.units wa !! i
                = Some (PriceStream.set_pc (PriceStream.Receiving c 0)
                          (PriceStream.set_backoff 1 u1))).
  { unfold wa. rewrite ps_update_unit_lookup. cbn. by rewrite Hu1. }
  assert (Hsta : PriceStream.stop_is_set wa = false).
  { unfold wa. rewrite ps_update_unit_stop_is_set by done. exact Hst1. }
  exists (PriceStream.break_receive i c wa). split.
  { unfold ps_closed_round. cbn [PriceStream.run]. rewrite H1, H2.
    cbn [PriceStream.step]. by rewrite Hua. }
  split.
  { unfold PriceStream.break_receive. eexists _, ev1.
    split; [rewrite ps_update_unit_lookup;
            change (PriceStream.units (PriceStream.close_conn c wa))
              with (PriceStream.units wa); by rewrite Hua|].
    repeat split; try done.
    rewrite ps_update_unit_stop_is_set by done. exact Hsta. }
  split; [exact Hpd|].
  change (PriceStream.conns (PriceStream.break_receive i c wa))
    with (<[c := false]> (PriceStream.conns w1 ++ [true])).
  unfold c. rewrite insert_app_r_alt by lia. by rewrite Nat.sub_diag, Hcn.
Qed.

Lemma ps_closed_rounds (k : nat) : forall (w : PriceStream.world) (i : nat) (b : Z),
  ps_retrying w i b ->
  exists w', PriceStream.run w (concat (replicate k (ps_closed_round i))) = Some w'
    /\ ps_retrying w' i (match k with O => b | S _ => 1 end)
    /\ PriceStream.price_data w' = PriceStream.price_data w
    /\ PriceStream.conns w' = PriceStream.conns w ++ replicate k false.
Proof.
  induction k as [|k IH]; intros w i b Hw.
  - exists w. cbn. by rewrite app_nil_r.
  - destruct (ps_closed_round_spec w i b Hw) as (w1 & Hr1 & Hw1 & Hp1 & Hc1).
    destruct (IH w1 i 1%Z Hw1) as (w' & Hr' & Hw' & Hp' & Hc').
    exists w'. split.
    + cbn [replicate concat ps_closed_round app PriceStream.run] in *.
      destruct (PriceStream.step w (PriceStream.Resume i)) as [wa|]; [|done].
      destruct (PriceStream.step wa (PriceStream.ConnectOk i)) as [wb|]; [|done].
      destruct (PriceStream.step wb (PriceStream.EndOfStream i)) as [wc|]; [|done].
      by simplify_eq.
    + split; [by destruct k|]. split; [congruence|].
      rewrite Hc', Hc1, <- app_assoc. done.
Qed.

Lemma wsm_closed_round_spec (m : WebSocketManager.world) (j : nat) (b now : float) :
  wsm_retrying m j b ->
  exists m', WebSocketManager.run m (wsm_closed_round j now) = Some m'
    /\ wsm_retrying m' j 1
    /\ WebSocketManager._price_history m' = WebSocketManager._price_history m
    /\ WebSocketManager._message_count m' = WebSocketManager._message_count m
    /\ WebSocketManager.error_count (WebSocketManager._connection_state m')
       = WebSocketManager.error_count (WebSocketManager._connection_state m)
    /\ WebSocketManager.get_status m' = "Connected"
    /\ WebSocketManager.conns m' = WebSocketManager.conns m ++ [false].
Proof.
  intros (u & Hu & Hpc & Hb & Hr & Hst).
  set (m1 := WebSocketManager.update_unit j (WebSocketManager.set_pc WebSocketManager.Connecting)
               (WebSocketManager.update_state (WebSocketManager.set_status "Connecting") m)).
  assert (H1 : WebSocketManager.step m (WebSocketManager.Resume j) = Some m1).
  { cbn [WebSocketManager.step]. by rewrite Hu, Hpc, Hr, Hst. }
  assert (Hu1 : WebSocketManager.units m1 !! j
                = Some (WebSocketManager.set_pc WebSocketManager.Connecting u)).
  { unfold m1. rewrite wsm_update_unit_lookup. cbn. by rewrite Hu. }
  assert (Hst1 : WebSocketManager.stop_is_set m1 = false).
  { unfold m1. rewrite wsm_update_unit_stop_is_set by done. exact Hst. }
  assert (Hcn : WebSocketManager.conns m1 = WebSocketManager.conns m) by done.
  assert (Hph : WebSocketManager._price_history m1 = WebSocketManager._price_history m)
    by done.
  assert (Hmc : WebSocketManager._message_count m1 = WebSocketManager._message_count m)
    by done.
  assert (Hec : WebSocketManager.error_count (WebSocketManager._connection_state m1)
                = WebSocketManager.error_count (WebSocketManager._connection_state m))
    by done.
  assert (Hr1 : WebSocketManager._running m1 = true) by exact Hr.
  clearbody m1.
  set (c := length (WebSocketManager.conns m1)).
  set (ma := WebSocketManager.update_unit j
               (fun u => WebSocketManager.set_pc (WebSocketManager.Receiving c)
                           (WebSocketManager.set_backoff 1 u))
               (WebSocketManager.update_state (WebSocketManager.set_last_update now)
                  (WebSocketManager.update_state (WebSocketManager.set_status "Connected")
                     (WebSocketManager.set_websocket (Some c)
                        (WebSocketManager.set_conns (WebSocketManager.conns m1 ++ [true])
                           m1))))).
  assert (H2 : WebSocketManager.step m1 (WebSocketManager.ConnectOk j now) = Some ma).
  { cbn [WebSocketManager.step]. by rewrite Hu1. }
  assert (Hua : WebSocketManager.units ma !! j
                = Some (WebSocketManager.set_pc (WebSocketManager.Receiving c)
                          (WebSocketManager.set_backoff 1
                             (WebSocketManager.set_pc WebSocketManager.Connecting u)))).
  { unfold ma. rewrite wsm_update_unit_lookup. cbn. by rewrite Hu1. }
  assert (Hsta : WebSocketManager.stop_is_set ma = false).
  { unfold ma. rewrite wsm_update_unit_stop_is_set by done. exact Hst1. }
  exists (WebSocketManager.end_receive j c ma). split.
  { unfold wsm_closed_round. cbn [WebSocketManager.run]. rewrite H1, H2.
    cbn [WebSocketManager.step]. by rewrite Hua. }
  split.
  { unfold WebSocketManager.end_receive. eexists.
    split; [rewrite wsm_update_unit_lookup;
            change (WebSocketManager.units (WebSocketManager.close_conn c ma))
              with (WebSocketManager.units ma); by rewrite Hua|].
    repeat split; try done.
    rewrite wsm_update_unit_stop_is_set by done. exact Hsta. }
  split; [exact Hph|]. split; [exact Hmc|]. split; [exact Hec|]. split; [done|].
  change (WebSocketManager.conns (WebSocketManager.end_receive j c ma))
    with (<[c := false]> (WebSocketManager.conns m1 ++ [true])).
  unfold c. rewrite insert_app_r_alt by lia. by rewrite Nat.sub_diag, Hcn.
Qed.

Lemma wsm_closed_rounds (ts : list float) :
  forall (m : WebSocketManager.world) (j : nat) (b : float),
  wsm_retrying m j b ->
  exists m', WebSocketManager.run m (concat (wsm_closed_round j <$> ts)) = Some m'
    /\ wsm_retrying m' j (match ts with [] => b | _ => 1%float end)
    /\ WebSocketManager._price_history m' = WebSocketManager._price_history m
    /\ WebSocketManager._message_count m' = WebSocketManager._message_count m
    /\ WebSocketManager.error_count (WebSocketManager._connection_state m')
       = WebSocketManager.error_count (WebSocketManager._connection_state m)
    /\ (ts <> [] -> WebSocketManager.get_status m' = "Connected")
    /\ WebSocketManager.conns m'
       = WebSocketManager.conns m ++ replicate (length ts) false.
Proof.
  induction ts as [|t ts IH]; intros m j b Hm.
  - exists m. cbn. rewrite app_nil_r. by repeat split.
  - destruct (wsm_closed_round_spec m j b t Hm)
      as (m1 & Hr1 & Hm1 & Hp1 & Hn1 & He1 & Hs1 & Hc1).
    destruct (IH m1 j 1%float Hm1) as (m' & Hr' & Hm' & Hp' & Hn' & He' & Hs' & Hc').
    exists m'. split.
    + cbn [fmap list_fmap concat wsm_closed_round app WebSocketManager.run] in *.
      destruct (WebSocketManager.step m (WebSocketManager.Resume j)) as [ma|]; [|done].
      destruct (WebSocketManager.step ma (WebSocketManager.ConnectOk j t)) as [mb|];
        [|done].
      destruct (WebSocketManager.step mb (WebSocketManager.EndOfStream j)) as [mc|];
        [|done].
      by simplify_eq.
    + split; [by destruct ts|]. repeat split; try congruence.
      * intros _. destruct ts as [|t' ts']; [|by apply Hs'].
        cbn in Hr'. by simplify_eq.
      * rewrite Hc', Hc1, <- app_assoc. done.
Qed.

(** X9. A connection that the server closes normally is replaced at once.
    In a live session every round "connect, then the stream ends without an
    exception" brings the unit straight back to the head of its loop with
    [backoff] 1: no wait is scheduled, however often this happens in a row,
    no sample is added or dropped, and the manager's [error_count] and
    message count stay as they are. After [k] such rounds [k] connections
    have been opened and closed again; the manager's status still reads
    "Connected" although its connection is closed. *)
Theorem X9_normal_close_reconnects_at_once
        (w : PriceStream.world) (m : WebSocketManager.world) (i j k : nat)
        (b : Z) (b' : float) (ts : list float) :
  ps_retrying w i b -> wsm_retrying m j b' ->
  (exists w', PriceStream.run w (concat (replicate k (ps_closed_round i))) = Some w'
     /\ ps_retrying w' i (match k with O => b | S _ => 1 end)
     /\ ps_wait w' i = None
     /\ PriceStream.price_data w' = PriceStream.price_data w
     /\ PriceStream.conns w' = PriceStream.conns w ++ replicate k false)
  /\ (exists m', WebSocketManager.run m (concat (wsm_closed_round j <$> ts)) = Some m'
        /\ wsm_retrying m' j (match ts with [] => b' | _ => 1%float end)
        /\ wsm_wait m' j = None
        /\ WebSocketManager._price_history m' = WebSocketManager._price_history m
        /\ WebSocketManager._message_count m' = WebSocketManager._message_count m
        /\ WebSocketManager.error_count (WebSocketManager._connection_state m')
           = WebSocketManager.error_count (WebSocketManager._connection_state m)
        /\ (ts <> [] -> WebSocketManager.get_status m' = "Connected")
        /\ WebSocketManager.conns m'
           = WebSocketManager.conns m ++ replicate (length ts) false).
Proof.
  intros Hw Hm. split.
  - destruct (ps_closed_rounds k w i b Hw) as (w' & Hr & Hw' & Hp & Hc).
    exists w'. repeat split; try done.
    destruct Hw' as (u & ev & Hu & Hpc & _). unfold ps_wait. by rewrite Hu; cbn; rewrite Hpc.
  - destruct (wsm_closed_rounds ts m j b' Hm) as (m' & Hr & Hm' & Hp & Hn & He & Hs & Hc).
    exists m'. repeat split; try done.
    destruct Hm' as (u & Hu & Hpc & _). unfold wsm_wait. by rewrite Hu; cbn; rewrite Hpc.
Qed.
End normal_close.

Lemma X9_normal_close_reconnects_at_once_witness :
  ps_retrying ps_fresh_world 0 1 /\ wsm_retrying wsm_fresh_world 0 1
  /\ (exists w', @PriceStream.run plain_runtime ps_fresh_world
                   (concat (replicate 3 (ps_closed_round 0))) = Some w'
        /\ PriceStream.conns w' = [false; false; false])
  /\ (exists m', @WebSocketManager.run plain_runtime wsm_fresh_world
                   (concat (wsm_closed_round 0 <$> [1; 2]%float)) = Some m'
        /\ WebSocketManager.get_status m' = "Connected"
        /\ WebSocketManager.conns m' = [false; false]).
Proof.
  assert (Hw : ps_retrying ps_fresh_world 0 1).
  { eexists _, _. repeat split; vm_compute; reflexivity. }
  assert (Hm : wsm_retrying wsm_fresh_world 0 1).
  { eexists. repeat split; vm_compute; reflexivity. }
  split; [exact Hw|]. split; [exact Hm|].
  destruct (@X9_normal_close_reconnects_at_once plain_runtime ps_fresh_world
              wsm_fresh_world 0 0 3 1 1 [1; 2]%float Hw Hm)
    as [(w' & Hr & _ & _ & _ & Hc) (m' & Hr' & _ & _ & _ & _ & _ & Hs & Hc')].
  split; [exists w'|exists m']; repeat split; try done.
  by apply Hs.
Defined.

(** ** [is_running] *)

(** The property [WebSocketManager.is_running]. *)
Definition is_running (m : WebSocketManager.world) : bool :=
  WebSocketManager._running m
  && WebSocketManager.is_connected (WebSocketManager._connection_state m).

(** The events at which a handshake completes. *)
Definition wsm_is_handshake (e : WebSocketManager.event) : bool :=
  match e with
  | WebSocketManager.ConnectOk _ _ => true
  | _ => false
  end.

Section is_running_facts.
Import WebSocketManager.
Context `{Runtime}.
Implicit Types (m : world) (e : event).

Lemma wsm_step_status m e m' :
  step m e = Some m' -> wsm_is_call e = false -> wsm_is_handshake e = false ->
  get_status m' = get_status m \/ get_status m' <> "Connected".
Proof.
  intros Hs Hc Hh.
  destruct e as [sym now| | j| j| j| j now| j e| j msg now| j| j e| j| j| j];
    try discriminate Hc; try discriminate Hh; cbn [step] in Hs;
    unfold on_message, on_error, leave, end_receive, thread_exit, close_conn,
      update_unit, update_state in Hs;
    split_cases; simplify_eq; cbn; first [by left | by right].
Qed.

Lemma wsm_stop_not_running m m1 : stop m = Return m1 -> is_running m1 = false.
Proof.
  intros Hs. destruct (wsm_stop_spec m) as (m' & Hs' & _ & _ & Hr & _).
  rewrite Hs' in Hs. injection Hs as <-. unfold is_running. by rewrite Hr.
Qed.

Lemma wsm_start_not_running m sym now m1 :
  _running m && bool_decide (get_symbol m = Some (lower sym)) = false ->
  start m sym now = Return m1 -> is_running m1 = false.
Proof.
  intros Hg Hs.
  destruct (wsm_start_spec m sym now Hg) as (m' & Hs' & _ & _ & _ & _ & _ & Hst & _).
  rewrite Hs' in Hs. injection Hs as <-.
  unfold is_running, is_connected. unfold get_status in Hst. rewrite Hst.
  by rewrite andb_false_r.
Qed.

Lemma wsm_step_not_running m e m' :
  step m e = Some m' -> wsm_is_handshake e = false ->
  is_running m = false -> is_running m' = false.
Proof.
  intros Hs Hh Hn. destruct (wsm_is_call e) eqn:Hc.
  - destruct e as [sym now| | | | | | | | | | | |]; try discriminate Hc; cbn [step] in Hs.
    + destruct (_running m && bool_decide (get_symbol m = Some (lower sym))) eqn:Hg.
      * unfold start in Hs. unfold get_symbol in Hg. rewrite Hg in Hs.
        cbn in Hs. by simplify_eq.
      * destruct (start m sym now) as [m1|] eqn:Hst; [|done]. cbn in Hs. simplify_eq.
        by eapply wsm_start_not_running.
    + destruct (stop m) as [m1|] eqn:Hst; [|done]. cbn in Hs. simplify_eq.
      by eapply wsm_stop_not_running.
  - destruct (wsm_unit_step_frame m e m' Hs Hc) as [Hr _].
    unfold is_running, is_connected in *. rewrite Hr.
    destruct (_running m); [cbn in *|done].
    destruct (wsm_step_status m e m' Hs Hc Hh) as [Heq|Hne].
    + unfold get_status in Heq. by rewrite Heq.
    + by apply bool_decide_eq_false_2.
Qed.

(** X10. [is_running] needs a completed handshake. [stop()] and a [start()]
    that begins a session leave [is_running] false, and it stays false
    through everything the background units do (failed attempts, waits,
    stale units ending) until a handshake completes: a caller that polls
    [is_running] after [start()] reads False for as long as no connection
    has been established, although the manager is running. *)
Theorem X10_is_running_needs_a_handshake m :
  (forall m1, stop m = Return m1 -> is_running m1 = false)
  /\ (forall sym now m1,
        _running m && bool_decide (get_symbol m = Some (lower sym)) = false ->
        start m sym now = Return m1 ->
        is_running m1 = false /\ _running m1 = true)
  /\ (forall es m',
        is_running m = false ->
        forallb (fun e => negb (wsm_is_handshake e)) es = true ->
        run m es = Some m' ->
        is_running m' = false).
Proof.
  split; [intros m1; apply wsm_stop_not_running|]. split.
  - intros sym now m1 Hg Hs. split; [by eapply wsm_start_not_running|].
    destruct (wsm_start_spec m sym now Hg) as (m' & Hs' & _ & _ & _ & Hr & _).
    rewrite Hs' in Hs. by injection Hs as <-.
  - intros es. revert m. induction es as [|e es IH]; intros m m' Hn Hes Hr.
    + cbn in Hr. by simplify_eq.
    + cbn [forallb] in Hes. apply andb_true_iff in Hes as [He Hes].
      cbn [run] in Hr. destruct (step m e) as [m1|] eqn:Hs; [|done].
      eapply (IH m1); [|done|done].
      eapply wsm_step_not_running; [done| |done]. by destruct (wsm_is_handshake e).
Qed.
End is_running_facts.

Lemma X10_is_running_needs_a_handshake_witness :
  (exists m1, WebSocketManager.start (WebSocketManager.init 600 true 0) "ETHUSDT" 0
              = Return m1
     /\ is_running m1 = false /\ WebSocketManager._running m1 = true)
  /\ (exists m', @WebSocketManager.run plain_runtime wsm_fresh_world
                   (wsm_failed_round 0 OSError ++ [WebSocketManager.Resume 0]) = Some m'
        /\ is_running m' = false)
  /\ (exists m', @WebSocketManager.run plain_runtime wsm_fresh_world
                   [WebSocketManager.Resume 0; WebSocketManager.ConnectOk 0 1] = Some m'
        /\ is_running m' = true).
Proof.
  split.
  { eexists. split; [vm_compute; reflexivity|].
    apply (proj1 (proj2 (@X10_is_running_needs_a_handshake plain_runtime
                           (WebSocketManager.init 600 true 0))) "ETHUSDT" 0%float);
      vm_compute; reflexivity. }
  split.
  { eexists. split; [vm_compute; reflexivity|].
    apply (proj2 (proj2 (@X10_is_running_needs_a_handshake plain_runtime wsm_fresh_world))
             (wsm_failed_round 0 OSError ++ [WebSocketManager.Resume 0]));
      vm_compute; reflexivity. }
  eexists. split; vm_compute; reflexivity.
Defined.

(** ** The session state written by the manager's callback *)

(** [websocket_manager._update_session_state], the callback that
    [get_websocket_manager()] installs, over the two dicts that
    [SessionStateManager] keeps in the session state. *)
Module SessionState.

(** [models.PriceData] *)
Record PriceData : Type := MkPriceData {
  price : float;
  change : float;
  timestamp : float
}.

(** [models.ChartBuffer] *)
Record ChartBuffer : Type := MkChartBuffer {
  t : list float;
  p : list float
}.

(** The two entries of [st.session_state]; [None] while the key is not
    there. *)
Record state : Type := State {
  ss_websocket_data : option (gmap string PriceData);   (* ["websocket_data"] *)
  ss_chart_buffer : option (gmap string ChartBuffer)    (* ["chart_buffer"] *)
}.

(** [l[-n:]] for [n > 0] *)
Definition slice_last {A : Type} (n : nat) (l : list A) : list A :=
  drop (length l - n) l.

(** [SessionStateManager.get_websocket_data()]: the dict, created when
    missing. *)
Definition get_websocket_data (st : state) : gmap string PriceData * state :=
  match ss_websocket_data st with
  | Some d => (d, st)
  | None => (empty, State (Some empty) (ss_chart_buffer st))
  end.

(** [SessionStateManager.get_chart_buffer()] *)
Definition get_chart_buffer (st : state) : gmap string ChartBuffer * state :=
  match ss_chart_buffer st with
  | Some d => (d, st)
  | None => (empty, State (ss_websocket_data st) (Some empty))
  end.

(** [_update_session_state(symbol, price, timestamp)] with [time.time()]
    returning [now]. *)
Definition _update_session_state (symbol : string) (price timestamp now : float)
           (st : state) : state :=
  (* update WebSocket data *)
  let '(websocket_data, st) := get_websocket_data st in
  let websocket_data :=
    <[symbol := MkPriceData price
                  (from_option change 0%float (websocket_data !! symbol))
                  now]> websocket_data in
  let st := State (Some websocket_data) (ss_chart_buffer st) in
  (* update chart buffer *)
  let '(chart_buffer, st) := get_chart_buffer st in
  let chart_buffer :=
    match chart_buffer !! symbol with
    | Some _ => chart_buffer
    | None => <[symbol := MkChartBuffer [] []]> chart_buffer
    end in
  match chart_buffer !! symbol with
  | Some buf =>
      let buf := MkChartBuffer (t buf ++ [timestamp]) (p buf ++ [price]) in
      (* keep last 600 points *)
      let buf := MkChartBuffer (slice_last 600 (t buf)) (p buf) in
      let buf := MkChartBuffer (t buf) (slice_last 600 (p buf)) in
      State (ss_websocket_data st) (Some (<[symbol := buf]> chart_buffer))
  | None =>
      (* [KeyError], swallowed by [except Exception] *)
      State (ss_websocket_data st) (Some chart_buffer)
  end.

(** A call of the callback: symbol, price, timestamp, and the clock. *)
Definition call : Type := string * float * float * float.

Definition call_symbol (c : call) : string := c.1.1.1.
Definition call_price (c : call) : float := c.1.1.2.
Definition call_timestamp (c : call) : float := c.1.2.

Definition run_call (st : state) (c : call) : state :=
  _update_session_state (call_symbol c) (call_price c) (call_timestamp c) c.2 st.

(** The chart buffer and the data of a symbol, as a reader finds them. *)
Definition chart_of (st : state) (symbol : string) : option ChartBuffer :=
  mbind (fun d => d !! symbol) (ss_chart_buffer st).
Definition data_of (st : state) (symbol : string) : option PriceData :=
  mbind (fun d => d !! symbol) (ss_websocket_data st).

End SessionState.

Section session_state.
Import SessionState.
Implicit Types (st : state) (c : call) (cs : list call) (s : string).

Definition calls_for s cs : list call :=
  filter (fun c => call_symbol c = s) cs.

Lemma slice_last_app {A : Type} (n : nat) (l r : list A) :
  slice_last n (slice_last n l ++ r) = slice_last n (l ++ r).
Proof.
  unfold slice_last. rewrite !skipn_app, !length_app, !length_drop, drop_drop.
  f_equal; f_equal; lia.
Qed.

Lemma slice_last_length {A : Type} (n : nat) (l : list A) :
  length (slice_last n l) = (length l `min` n)%nat.
Proof. unfold slice_last. rewrite length_drop. lia. Qed.

Lemma run_call_chart st c s :
  chart_of (run_call st c) s
  = if decide (call_symbol c = s)
    then Some (MkChartBuffer
                 (slice_last 600 (from_option t [] (chart_of st s) ++ [call_timestamp c]))
                 (slice_last 600 (from_option p [] (chart_of st s) ++ [call_price c])))
    else chart_of st s.
Proof.
  destruct st as [wd cb], c as [[[s' pr] ts] now].
  unfold run_call, _update_session_state, chart_of, get_websocket_data, get_chart_buffer,
    call_symbol, call_price, call_timestamp.
  cbn [fst snd ss_websocket_data ss_chart_buffer].
  destruct wd as [wd|], cb as [cb|]; cbn [ss_websocket_data ss_chart_buffer mbind option_bind];
    case_decide; subst;
    repeat first
      [ rewrite lookup_insert_eq | rewrite lookup_insert_ne by done | rewrite lookup_empty
      | progress cbn [ss_websocket_data ss_chart_buffer mbind option_bind from_option t p]
      | case_match ];
    simplify_eq; try done;
    repeat first
      [ rewrite lookup_insert_eq | rewrite lookup_insert_ne by done | rewrite lookup_empty
      | progress cbn [ss_websocket_data ss_chart_buffer mbind option_bind from_option t p] ];
    try done;
    match goal with H : <[_:=_]> _ !! _ = _ |- _ => rewrite lookup_insert_eq in H end;
    by simplify_eq.
Qed.

Lemma run_call_data st c s :
  data_of (run_call st c) s
  = if decide (call_symbol c = s)
    then Some (MkPriceData (call_price c)
                           (from_option change 0%float (data_of st s)) c.2)
    else data_of st s.
Proof.
  destruct st as [wd cb], c as [[[s' pr] ts] now].
  unfold run_call, _update_session_state, data_of, get_websocket_data, get_chart_buffer,
    call_symbol, call_price, call_timestamp.
  cbn [fst snd ss_websocket_data ss_chart_buffer].
  destruct wd as [wd|], cb as [cb|];
    cbn [ss_websocket_data ss_chart_buffer mbind option_bind];
    repeat case_match; cbn [ss_websocket_data ss_chart_buffer mbind option_bind];
    subst; rewrite ?lookup_insert_eq, ?lookup_insert_ne, ?lookup_empty by done; done.
Qed.

(** X11. The chart buffer that the manager's callback keeps per symbol holds
    the last 600 points delivered for that symbol, whatever the manager's
    own [max_price_history] is and however many sessions delivered them:
    after any sequence of calls, the timestamps and the prices of a symbol
    are the last 600 of what was there followed by the calls for that symbol
    in order, so both lists are at most 600 long once a call was made, and of
    equal length if they were before. The entry of [websocket_data] has the
    price of the latest call and keeps the ["change"] it had (0.0 when new).
    Calls for other symbols leave a symbol's entries alone. *)
Theorem X11_chart_buffer_keeps_last_600 st cs s :
  let st' := foldl run_call st cs in
  let old_t := from_option t [] (chart_of st s) in
  let old_p := from_option p [] (chart_of st s) in
  match calls_for s cs with
  | [] => chart_of st' s = chart_of st s /\ data_of st' s = data_of st s
  | c0 :: cs0 =>
      chart_of st' s
      = Some (MkChartBuffer
                (slice_last 600 (old_t ++ (call_timestamp <$> c0 :: cs0)))
                (slice_last 600 (old_p ++ (call_price <$> c0 :: cs0))))
      /\ (exists now,
            data_of st' s
            = Some (MkPriceData (default (call_price c0) (last (call_price <$> cs0)))
                                (from_option change 0%float (data_of st s)) now))
      /\ (forall b, chart_of st' s = Some b ->
            (length (t b) <= 600)%nat /\ (length (p b) <= 600)%nat
            /\ (length old_t = length old_p -> length (t b) = length (p b)))
  end.
Proof.
  cbn zeta. revert st. induction cs as [|c cs IH]; intros st; [done|].
  cbn [foldl]. unfold calls_for in *. rewrite filter_cons.
  specialize (IH (run_call st c)).
  rewrite (run_call_chart st c s), (run_call_data st c s) in IH.
  destruct (decide (call_symbol c = s)) as [Hc|Hc]; [|exact IH].
  cbn [from_option t p change] in IH.
  assert (Hlen : forall b,
             Some (MkChartBuffer
                     (slice_last 600 (from_option t [] (chart_of st s)
                                      ++ (call_timestamp <$> c :: filter (fun c => call_symbol c = s) cs)))
                     (slice_last 600 (from_option p [] (chart_of st s)
                                      ++ (call_price <$> c :: filter (fun c => call_symbol c = s) cs))))
             = Some b ->
             (length (t b) <= 600)%nat /\ (length (p b) <= 600)%nat
             /\ (length (from_option t [] (chart_of st s))
                 = length (from_option p [] (chart_of st s)) ->
                 length (t b) = length (p b))).
  { intros b Hb. apply (inj Some) in Hb. subst b. cbn [t p].
    rewrite !slice_last_length, !length_app, !length_fmap.
    repeat split; lia. }
  destruct (filter (fun c => call_symbol c = s) cs) as [|c1 cs1].
  - destruct IH as [-> ->]. split; [done|]. split; [by eexists|]. exact Hlen.
  - destruct IH as (-> & (now & ->) & _).
    rewrite !slice_last_app, <- !app_assoc. split; [done|].
    split; [|exact Hlen]. exists now. do 2 f_equal.
    cbn [fmap list_fmap]. by rewrite last_cons; destruct (last _).
Qed.
End session_state.

(** Three calls of the callback on an empty session state. *)
Definition example_calls : list SessionState.call :=
  [("ETHUSDT", 100, 1, 5); ("BTCUSDT", 200, 2, 6); ("ETHUSDT", 101, 3, 7)]%float.

Lemma X11_chart_buffer_keeps_last_600_witness :
  SessionState.chart_of
    (foldl SessionState.run_call (SessionState.State None None) example_calls) "ETHUSDT"
  = Some (SessionState.MkChartBuffer [1; 3]%float [100; 101]%float).
Proof.
  exact (proj1 (X11_chart_buffer_keeps_last_600 (SessionState.State None None)
                  example_calls "ETHUSDT")).
Defined.

(** ** The pending updates of [ws_client] *)

(** The module-level dict [ws_client._session_state_updates], symbol to
    dict of floats, with the code that writes it and the two functions that
    read it. *)
Module SessionUpdates.

(** The end of the [try] block of [_connect_and_stream], run for every
    frame that parses, with [time.time()] returning [now]. *)
Definition note_update (symbol : string) (price timestamp now : float)
           (_session_state_updates : gmap string (gmap string float))
  : gmap string (gmap string float) :=
  let _session_state_updates :=
    match _session_state_updates !! symbol with
    | Some _ => _session_state_updates
    | None => <[symbol := empty]> _session_state_updates
    end in
  (* [_session_state_updates[symbol].update({...})] *)
  alter (fun d => <["last_update" := timestamp]>
                    (<["timestamp" := now]> (<["price" := price]> d)))
        symbol _session_state_updates.

(** [get_websocket_updates()]: the copy it returns, and the dict after
    [clear()]. *)
Definition get_websocket_updates (_session_state_updates : gmap string (gmap string float))
  : gmap string (gmap string float) * gmap string (gmap string float) :=
  let updates := _session_state_updates in
  (updates, empty).

(** [has_websocket_updates()] *)
Definition has_websocket_updates (_session_state_updates : gmap string (gmap string float))
  : bool :=
  negb (bool_decide (_session_state_updates = empty)).

(** A parsed frame of a unit: symbol, price, timestamp, and the clock. *)
Definition note : Type := string * float * float * float.

Definition run_note (u : gmap string (gmap string float)) (r : note)
  : gmap string (gmap string float) :=
  note_update r.1.1.1 r.1.1.2 r.1.2 r.2 u.

(** The dict [{'price': .., 'timestamp': .., 'last_update': ..}] of a
    frame. *)
Definition entry (r : note) : gmap string float :=
  <["last_update" := r.1.2]> (<["timestamp" := r.2]> (<["price" := r.1.1.2]> empty)).

End SessionUpdates.

Section session_updates.
Import SessionUpdates.
Implicit Types (u : gmap string (gmap string float)) (r : note) (rs : list note) (s : string).

Definition notes_for s rs : list note := filter (fun r => r.1.1.1 = s) rs.

Lemma run_note_lookup u r s :
  run_note u r !! s
  = if decide (r.1.1.1 = s)
    then Some (<["last_update" := r.1.2]>
                 (<["timestamp" := r.2]>
                    (<["price" := r.1.1.2]> (default empty (u !! s)))))
    else u !! s.
Proof.
  destruct r as [[[s' pr] ts] now]. unfold run_note, note_update. cbn [fst snd].
  case_decide; subst.
  - rewrite lookup_alter_eq. destruct (u !! s) eqn:E; [by rewrite E|].
    by rewrite lookup_insert_eq.
  - rewrite lookup_alter_ne by done. destruct (u !! s'); [done|].
    by rewrite lookup_insert_ne.
Qed.

Lemma entry_overwrites r (d : gmap string float) (pr ts now : float) :
  <["last_update" := r.1.2]>
    (<["timestamp" := r.2]>
       (<["price" := r.1.1.2]>
          (<["last_update" := ts]> (<["timestamp" := now]> (<["price" := pr]> d)))))
  = <["last_update" := r.1.2]> (<["timestamp" := r.2]> (<["price" := r.1.1.2]> d)).
Proof.
  apply map_eq. intros k.
  destruct (decide (k = "last_update")) as [->|];
    [by rewrite !lookup_insert_eq|rewrite !(lookup_insert_ne _ "last_update") by done].
  destruct (decide (k = "timestamp")) as [->|];
    [by rewrite !lookup_insert_eq|rewrite !(lookup_insert_ne _ "timestamp") by done].
  destruct (decide (k = "price")) as [->|];
    [by rewrite !lookup_insert_eq|rewrite !(lookup_insert_ne _ "price") by done].
  rewrite !(lookup_insert_ne _ "last_update") by done.
  rewrite !(lookup_insert_ne _ "timestamp") by done.
  by rewrite !(lookup_insert_ne _ "price") by done.
Qed.

Lemma run_notes_lookup rs : forall u s,
  foldl run_note u rs !! s
  = match last (notes_for s rs) with
    | Some r => Some (<["last_update" := r.1.2]>
                        (<["timestamp" := r.2]>
                           (<["price" := r.1.1.2]> (default empty (u !! s)))))
    | None => u !! s
    end.
Proof.
  induction rs as [|r rs IH]; intros u s; [done|].
  cbn [foldl]. rewrite IH, run_note_lookup. unfold notes_for. rewrite filter_cons.
  destruct (decide (r.1.1.1 = s)) as [Hr|Hr]; [|done].
  rewrite last_cons. destruct (last (filter _ rs)) as [r'|]; [|done].
  cbn [from_option id]. by rewrite entry_overwrites.
Qed.

Lemma run_notes_nonempty rs u : rs <> [] -> foldl run_note u rs <> empty.
Proof.
  induction rs as [|r rs IH] using rev_ind; [done|]. intros _.
  rewrite foldl_app. cbn [foldl]. intros He.
  assert (Hl : run_note (foldl run_note u rs) r !! r.1.1.1 = None)
    by (by rewrite He, lookup_empty).
  rewrite run_note_lookup in Hl. by rewrite decide_True in Hl.
Qed.

End session_updates.

(** ** The properties above on the ETHUSDT sessions *)

Lemma X1_price_stream_buffer_bounded_witness :
  @PriceStream.run plain_runtime (PriceStream.init 300) ps_eth_session = Some ps_eth_world
  /\ (deque_len (PriceStream.price_data ps_eth_world) <= 300)%nat.
Proof.
  assert (Hr : @PriceStream.run plain_runtime (PriceStream.init 300) ps_eth_session
               = Some ps_eth_world) by (vm_compute; reflexivity).
  split; [exact Hr|].
  exact (proj1 (proj2 (proj2
           (@X1_price_stream_buffer_bounded plain_runtime 300 ps_eth_session
              ps_eth_world Hr)))).
Defined.



Lemma X4_price_stream_closed_connection_is_final_witness :
  exists w',
    @PriceStream.run plain_runtime ps_eth_world
      [PriceStream.RecvRaise 0 ConnectionClosedError; PriceStream.Resume 0] = None
    /\ @PriceStream.run plain_runtime ps_eth_world
         [PriceStream.RecvRaise 0 ConnectionClosedError; PriceStream.ThreadExit 0;
          PriceStream.CallStart "ETHUSDT"] = Some w'
    /\ ps_unit_over w' 0.
Proof.
  eexists. split; [vm_compute; reflexivity|].
  split; [vm_compute; reflexivity|].
  eapply proj1.
  eapply (@X4_price_stream_closed_connection_is_final plain_runtime ps_eth_world _ 0 0 1
            _ ConnectionClosedError
            [PriceStream.ThreadExit 0; PriceStream.CallStart "ETHUSDT"]);
    vm_compute; reflexivity.
Defined.

Lemma X5_manager_abnormal_close_retries_at_once_witness :
  wsm_receiving wsm_eth_world 0 0
  /\ exists m1,
       @WebSocketManager.step plain_runtime wsm_eth_world
         (WebSocketManager.RecvRaise 0 ConnectionClosedError) = Some m1
       /\ WebSocketManager.get_status m1 = "Reconnecting"
       /\ wsm_wait m1 0 = None.
Proof.
  assert (Hw : wsm_receiving wsm_eth_world 0 0).
  { eexists. repeat split; vm_compute; reflexivity. }
  split; [exact Hw|].
  destruct (@X5_manager_abnormal_close_retries_at_once plain_runtime wsm_eth_world 0 0 Hw)
    as (m1 & m2 & Hs & Hst & _ & Hwait & _).
  exists m1. by repeat split.
Defined.

Lemma X6_manager_error_count_witness :
  wsm_retrying wsm_fresh_world 0 1
  /\ exists m',
       @WebSocketManager.run plain_runtime wsm_fresh_world
         (concat (wsm_failed_round 0 <$> [OSError; TimeoutError])
          ++ [WebSocketManager.Resume 0; WebSocketManager.ConnectFail 0 OSError])
       = Some m'
       /\ WebSocketManager.error_count (WebSocketManager._connection_state m') = 3%Z.
Proof.
  assert (Hm : wsm_retrying wsm_fresh_world 0 1).
  { eexists. repeat split; vm_compute; reflexivity. }
  assert (Hes : Forall (fun x => x <> ConnectionClosedError) [OSError; OSError; TimeoutError]).
  { repeat constructor; discriminate. }
  split; [exact Hm|].
  destruct (@X6_manager_error_count plain_runtime wsm_fresh_world 0
              [OSError; TimeoutError] OSError Hm Hes) as [(m' & Hr & _ & Hc) _].
  exists m'. split; [exact Hr|]. rewrite Hc. vm_compute. reflexivity.
Defined.

(** Both clients stopped after the ETHUSDT session, their connection still
    open. *)
Definition ps_stopped_world : PriceStream.world :=
  Eval vm_compute in
  default ps_eth_world (@PriceStream.run plain_runtime ps_eth_world [PriceStream.CallStop]).

Definition wsm_stopped_world : WebSocketManager.world :=
  Eval vm_compute in
  default wsm_eth_world
          (@WebSocketManager.run plain_runtime wsm_eth_world [WebSocketManager.CallStop]).


(** Both clients waiting after a first failed attempt. *)
Definition ps_waiting_world : PriceStream.world :=
  Eval vm_compute in
  default ps_fresh_world
          (@PriceStream.run plain_runtime ps_fresh_world
             [PriceStream.Resume 0; PriceStream.ConnectFail 0 OSError]).

Definition wsm_waiting_world : WebSocketManager.world :=
  Eval vm_compute in
  default wsm_fresh_world
          (@WebSocketManager.run plain_runtime wsm_fresh_world
             [WebSocketManager.Resume 0; WebSocketManager.ConnectFail 0 OSError]).

Lemma X8_stop_interrupts_backoff_wait_witness :
  ps_wait ps_waiting_world 0 = Some 1%Z
  /\ wsm_wait wsm_waiting_world 0 = Some 1%float
  /\ @PriceStream.run plain_runtime ps_waiting_world
       [PriceStream.CallStop; PriceStream.LoopRun 0; PriceStream.WaitTimeout 0] = None
  /\ @WebSocketManager.run plain_runtime wsm_waiting_world
       [WebSocketManager.CallStop; WebSocketManager.LoopRun 0;
        WebSocketManager.WaitTimeout 0] = None.
Proof.
  split; [vm_compute; reflexivity|]. split; [vm_compute; reflexivity|].
  refine ((fun H => conj (proj1 (proj1 H)) (proj1 (proj2 H))) _).
  eapply (@X8_stop_interrupts_backoff_wait plain_runtime ps_waiting_world wsm_waiting_world
            0 0); vm_compute; reflexivity.
Defined.

(** ** A unit that exits late *)

Section late_exit.
Import WebSocketManager.
Context `{Runtime}.
Implicit Types (m : world) (i k : nat).

(** X13. The [finally] clause of [_run_websocket] resets [_loop] and
    [_stop_event] whichever unit they belong to. When the thread of a
    finished unit gets there while the unit of a newer session is in its
    backoff wait, a following [stop()] finds no loop to signal: it queues
    nothing and sets no event, so the wait cannot be interrupted (compare
    X8) and runs for its full time; the unit ends only afterwards, when it
    tests [_running] at the head of its loop. *)
Theorem X13_late_exit_disarms_stop m i k u uk t :
  units m !! i = Some u -> u_pc u = Finished ->
  units m !! k = Some uk -> u_pc uk = BackoffWait (Some k) t ->
  ev_set uk = false -> loop_pending uk = [] ->
  _running m = true ->
  exists m1 m2 m3 m4,
    step m (ThreadExit i) = Some m1
    /\ _loop m1 = None /\ _stop_event m1 = None
    /\ step m1 CallStop = Some m2
    /\ _running m2 = false
    /\ units m2 = units m1
    /\ step m2 (LoopRun k) = None
    /\ step m2 (WaitDone k) = None
    /\ step m2 (WaitTimeout k) = Some m3
    /\ step m3 (Resume k) = Some m4
    /\ u_pc <$> units m4 !! k = Some Finished.
Proof.
  intros Hu Hpc Hk Hpck Hev Hpe Hr.
  assert (Hik : i <> k) by (intros ->; congruence).
  set (m0 := match _loop m with
             | Some l => if loop_running m l then m
                         else update_unit l (set_loop_closed true) m
             | None => m
             end).
  assert (Hk0 : units m0 !! k = Some uk).
  { unfold m0. destruct (_loop m) as [l|]; [|done].
    destruct (loop_running m l) eqn:Hl; [done|].
    unfold update_unit. cbn [units set_units]. rewrite list_lookup_alter_ne; [done|].
    intros ->. unfold loop_running in Hl. by rewrite Hk in Hl; cbn in Hl; rewrite Hpck in Hl. }
  assert (Hr0 : _running m0 = true).
  { unfold m0. destruct (_loop m) as [l|]; [|done]. by destruct (loop_running m l). }
  set (m1 := update_unit i (set_pc Exited) (set_stop_event None (set_loop None m0))).
  assert (H1 : step m (ThreadExit i) = Some m1).
  { cbn [step]. by rewrite Hu, Hpc. }
  assert (Hk1 : units m1 !! k = Some uk).
  { unfold m1, update_unit. cbn [units set_units set_stop_event set_loop].
    by rewrite list_lookup_alter_ne. }
  assert (Hr1 : _running m1 = true) by exact Hr0.
  assert (Hl1 : _loop m1 = None) by done.
  assert (He1 : _stop_event m1 = None) by done.
  clearbody m1. clear m0 Hk0 Hr0.
  set (m2 := set_websocket None
               (update_state (set_symbol None)
                  (update_state (set_status "Disconnected")
                     (update_state (set_status "Disconnecting") (set_running false m1))))).
  assert (H2 : step m1 CallStop = Some m2).
  { cbn [step]. unfold stop, loop_open. rewrite Hr1. cbn [negb].
    cbn [set_running update_state set_connection_state _loop]. by rewrite Hl1. }
  assert (Hk2 : units m2 !! k = Some uk) by exact Hk1.
  assert (Hr2 : _running m2 = false) by done.
  assert (Hu2 : units m2 = units m1) by done.
  clearbody m2.
  set (m3 := update_unit k
               (fun u => set_pc AtWhile (set_backoff (float_min (u_backoff u * 2) 30) u))
               m2).
  assert (H3 : step m2 (WaitTimeout k) = Some m3).
  { cbn [step]. rewrite Hk2, Hpck. cbn [from_option]. by rewrite Hk2; cbn; rewrite Hev. }
  assert (Hk3 : units m3 !! k
                = Some (set_pc AtWhile (set_backoff (float_min (u_backoff uk * 2) 30) uk))).
  { unfold m3. by rewrite wsm_update_unit_lookup, Hk2. }
  assert (Hr3 : _running m3 = false) by exact Hr2.
  exists m1, m2, m3, (leave k m3). repeat split; try done.
  - cbn [step]. rewrite Hk2. unfold loop_running. by rewrite Hk2; cbn; rewrite Hpck, Hpe.
  - cbn [step]. rewrite Hk2, Hpck. by rewrite Hk2; cbn; rewrite Hev.
  - cbn [step]. rewrite Hk3. cbn [u_pc set_pc]. by rewrite Hr3.
  - unfold leave. rewrite wsm_update_unit_lookup.
    change (units (update_state (set_status "Disconnected") m3)) with (units m3).
    by rewrite Hk3.
Qed.
End late_exit.

(** A manager whose first unit has finished but not left its thread yet,
    and whose second session waits after a failed attempt. *)
Definition wsm_late_world : WebSocketManager.world :=
  Eval vm_compute in
  default wsm_eth_world
          (@WebSocketManager.run plain_runtime wsm_eth_world
             [WebSocketManager.CallStop; WebSocketManager.EndOfStream 0;
              WebSocketManager.Resume 0; WebSocketManager.CallStart "BTCUSDT" 2;
              WebSocketManager.ThreadRun 1; WebSocketManager.Resume 1;
              WebSocketManager.ConnectFail 1 OSError]).

Lemma X13_late_exit_disarms_stop_witness :
  wsm_wait wsm_late_world 1 = Some 1%float
  /\ exists m', @WebSocketManager.run plain_runtime wsm_late_world
                  [WebSocketManager.ThreadExit 0; WebSocketManager.CallStop;
                   WebSocketManager.WaitTimeout 1; WebSocketManager.Resume 1] = Some m'
       /\ @WebSocketManager.run plain_runtime wsm_late_world
            [WebSocketManager.ThreadExit 0; WebSocketManager.CallStop;
             WebSocketManager.WaitDone 1] = None.
Proof.
  split; [vm_compute; reflexivity|].
  edestruct (@X13_late_exit_disarms_stop plain_runtime wsm_late_world 0 1)
    as (m1 & m2 & m3 & m4 & H1 & _ & _ & H2 & _ & _ & _ & H3 & H4 & H5 & _);
    [vm_compute; reflexivity..|].
  exists m4. cbn [WebSocketManager.run]. by rewrite H1, H2, H3, H4, H5.
Defined.
